(** * create_sample_capsule.py: the sample GlyphCase builder

    A shallow embedding of [scripts/create_sample_capsule.py] and the
    properties of the rows it writes.

    The script is one straight-line transaction against a SQLite
    connection.  The embedding keeps each table as the list of its rows in
    rowid order, with the rowid where the script's statements depend on
    it, and the seq of sqlite_sequence; an INSERT raises for the PRIMARY
    KEY, UNIQUE and CHECK constraints of the schema and when
    AUTOINCREMENT has no id left; the statements run in a
    state-and-exception monad over the connection, the count of clock
    reads and the random module's generator.  The library services the
    script calls are executable functions: hashlib's SHA-256, the random
    module's Mersenne Twister, binary64 arithmetic and struct's float32
    packing, json.dumps, and datetime's isoformat and timestamp.  The
    clock itself is the environment: the script is read for every clock.

    The first part holds the model, the second the facts: the library
    models checked against CPython's answers, what each stage of the
    script writes, and the properties of the committed rows. *)

From Stdlib Require Import ZArith List String Ascii Bool Lia.
From Stdlib Require Import Init.Byte.
Import ListNotations.

Local Open Scope string_scope.
Local Open Scope Z_scope.

(** ** Bytes and Python [str]

    [bytes] is a list of [byte].  A Python [str] is modelled by Rocq's
    [string], every character standing for the code point of the same
    number (0..255); [str.encode()] is UTF-8, so a code point from 128 on
    takes two bytes. *)

Definition bytes := list byte.

Definition byte_of_Z (z : Z) : byte :=
  byte_of_ascii (ascii_of_N (Z.to_N (z mod 256))).

Definition Z_of_byte (b : byte) : Z := Z.of_N (Byte.to_N b).

Definition code_point (c : ascii) : Z := Z.of_N (N_of_ascii c).

Definition chr (z : Z) : ascii := ascii_of_N (Z.to_N z).

Definition utf8_char (c : ascii) : bytes :=
  let n := code_point c in
  if n <? 128 then [byte_of_Z n]
  else [byte_of_Z (Z.lor 192 (Z.shiftr n 6)); byte_of_Z (Z.lor 128 (Z.land n 63))].

Fixpoint encode (s : string) : bytes :=
  match s with
  | EmptyString => []
  | String c s' => (utf8_char c ++ encode s')%list
  end.

(** [b'...'] literals: every character is one byte. *)
Definition bytes_literal (s : string) : bytes := list_byte_of_string s.

Definition len {A} (l : list A) : Z := Z.of_nat (List.length l).

(** ** hashlib.sha256 (FIPS 180-4) *)

Module Sha256.

Definition u32 (x : Z) : Z := Z.land x 0xffffffff.
Definition add32 (x y : Z) : Z := u32 (x + y).
Definition rotr (n x : Z) : Z :=
  Z.lor (Z.shiftr x n) (u32 (Z.shiftl x (32 - n))).
Definition shr (n x : Z) : Z := Z.shiftr x n.
Definition not32 (x : Z) : Z := Z.lxor x 0xffffffff.

Definition Ch (x y z : Z) := Z.lxor (Z.land x y) (Z.land (not32 x) z).
Definition Maj (x y z : Z) :=
  Z.lxor (Z.lxor (Z.land x y) (Z.land x z)) (Z.land y z).
Definition bsig0 x := Z.lxor (Z.lxor (rotr 2 x) (rotr 13 x)) (rotr 22 x).
Definition bsig1 x := Z.lxor (Z.lxor (rotr 6 x) (rotr 11 x)) (rotr 25 x).
Definition ssig0 x := Z.lxor (Z.lxor (rotr 7 x) (rotr 18 x)) (shr 3 x).
Definition ssig1 x := Z.lxor (Z.lxor (rotr 17 x) (rotr 19 x)) (shr 10 x).

(** The constants are the first 32 bits of the fractional parts of the
    cube roots (K) and of the square roots (H0) of the first primes. *)
Definition is_prime (n : Z) : bool :=
  (1 <? n) && forallb (fun d => negb (n mod d =? 0))
                      (map Z.of_nat (seq 2 (Z.to_nat (Z.sqrt n) - 1))).

Definition primes : list Z :=
  filter is_prime (map Z.of_nat (seq 2 310)).

(** The largest [r] with [r^3 <= x], one bit at a time from bit [n-1]. *)
Fixpoint cube_root (n : nat) (x r : Z) : Z :=
  match n with
  | O => r
  | S n' =>
      let c := r + 2 ^ Z.of_nat n' in
      cube_root n' x (if c * c * c <=? x then c else r)
  end.

Definition K : list Z :=
  Eval vm_compute in
    map (fun p => u32 (cube_root 40 (p * 2 ^ 96) 0)) (firstn 64 primes).

(** The eight working variables a..h, also the chaining value. *)
Record regs := Regs { ra : Z; rb : Z; rc : Z; rd : Z;
                      re : Z; rf : Z; rg : Z; rh : Z }.

Definition H0 : regs :=
  Eval vm_compute in
    match map (fun p => u32 (Z.sqrt (p * 2 ^ 64))) (firstn 8 primes) with
    | [a; b; c; d; e; f; g; h] => Regs a b c d e f g h
    | _ => Regs 0 0 0 0 0 0 0 0
    end.

(** Padding: a 1 bit, zeros up to 56 mod 64 bytes, the bit length on 8
    bytes, big-endian. *)
Fixpoint be_bytes (n : nat) (x : Z) : bytes :=
  match n with
  | O => []
  | S n' => byte_of_Z (Z.shiftr x (8 * Z.of_nat n')) :: be_bytes n' x
  end.

Definition pad (msg : bytes) : bytes :=
  let l := len msg in
  let k := (55 - l) mod 64 in
  (msg ++ x80 :: repeat x00 (Z.to_nat k) ++ be_bytes 8 (8 * l))%list.

Definition be32 (b0 b1 b2 b3 : byte) : Z :=
  Z.lor (Z.shiftl (Z_of_byte b0) 24)
    (Z.lor (Z.shiftl (Z_of_byte b1) 16)
       (Z.lor (Z.shiftl (Z_of_byte b2) 8) (Z_of_byte b3))).

Fixpoint words (bs : bytes) : list Z :=
  match bs with
  | b0 :: b1 :: b2 :: b3 :: rest => be32 b0 b1 b2 b3 :: words rest
  | _ => []
  end.

(** The message schedule, kept newest-first while it grows:
    W_t = ssig1 W_(t-2) + W_(t-7) + ssig0 W_(t-15) + W_(t-16). *)
Fixpoint extend (n : nat) (rev_w : list Z) : list Z :=
  match n with
  | O => rev_w
  | S n' =>
      let w := add32 (add32 (ssig1 (nth 1 rev_w 0)) (nth 6 rev_w 0))
                     (add32 (ssig0 (nth 14 rev_w 0)) (nth 15 rev_w 0)) in
      extend n' (w :: rev_w)
  end.

Definition schedule (block : list Z) : list Z :=
  rev (extend 48 (rev block)).

Definition round (s : regs) (kw : Z * Z) : regs :=
  let '(k, w) := kw in
  let t1 := add32 (add32 (add32 (add32 (rh s) (bsig1 (re s)))
                            (Ch (re s) (rf s) (rg s))) k) w in
  let t2 := add32 (bsig0 (ra s)) (Maj (ra s) (rb s) (rc s)) in
  Regs (add32 t1 t2) (ra s) (rb s) (rc s)
       (add32 (rd s) t1) (re s) (rf s) (rg s).

Definition compress (h : regs) (block : list Z) : regs :=
  let s := fold_left round (combine K (schedule block)) h in
  Regs (add32 (ra h) (ra s)) (add32 (rb h) (rb s))
       (add32 (rc h) (rc s)) (add32 (rd h) (rd s))
       (add32 (re h) (re s)) (add32 (rf h) (rf s))
       (add32 (rg h) (rg s)) (add32 (rh h) (rh s)).

(** Blocks of sixteen words; [fuel], the number of words, is more than the
    number of blocks. *)
Fixpoint blocks (fuel : nat) (h : regs) (ws : list Z) : regs :=
  match fuel, ws with
  | S fuel', _ :: _ => blocks fuel' (compress h (firstn 16 ws)) (skipn 16 ws)
  | _, _ => h
  end.

Definition digest (msg : bytes) : bytes :=
  let ws := words (pad msg) in
  let h := blocks (List.length ws) H0 ws in
  (be_bytes 4 (ra h) ++ be_bytes 4 (rb h) ++ be_bytes 4 (rc h) ++
   be_bytes 4 (rd h) ++ be_bytes 4 (re h) ++ be_bytes 4 (rf h) ++
   be_bytes 4 (rg h) ++ be_bytes 4 (rh h))%list.

Definition hex_digit (n : Z) : ascii :=
  if n <? 10 then chr (48 + n) else chr (87 + n).

Fixpoint hex (bs : bytes) : string :=
  match bs with
  | [] => EmptyString
  | b :: bs' =>
      String (hex_digit (Z.shiftr (Z_of_byte b) 4))
        (String (hex_digit (Z.land (Z_of_byte b) 15)) (hex bs'))
  end.

(** [hashlib.sha256(data).hexdigest()] *)
Definition hexdigest (data : bytes) : string := hex (digest data).

End Sha256.


(** ** Python [float]

    A finite binary64 value is kept as [mant * 2^expo].  Every operation
    computes the exact result and rounds it to 53 significant bits, ties to
    even, as IEEE 754 does; the exponent range is left unbounded (none of
    the script's values comes near its ends). *)

Module PyFloat.

Local Open Scope Z_scope.

Record float := Float { mant : Z; expo : Z }.

(** Number of significant bits of a magnitude. *)
Definition bitlen (a : Z) : Z := if a =? 0 then 0 else Z.log2 a + 1.

(** [a / 2^s] rounded to the nearest integer, ties to even ([0 <= a],
    [0 < s]). *)
Definition rne (a s : Z) : Z :=
  let q := Z.shiftr a s in
  let r := Z.land a (Z.ones s) in
  let half := Z.shiftl 1 (s - 1) in
  if r <? half then q
  else if half <? r then q + 1
  else if Z.even q then q else q + 1.

Definition round_to (p : Z) (x : float) : float :=
  let a := Z.abs (mant x) in
  let s := bitlen a - p in
  if s <=? 0 then x else Float (Z.sgn (mant x) * rne a s) (expo x + s).

Definition round53 := round_to 53.

(** [float(n)] for a Python int. *)
Definition of_int (n : Z) : float := round53 (Float n 0).

Definition mul (x y : float) : float :=
  round53 (Float (mant x * mant y) (expo x + expo y)).

Definition add (x y : float) : float :=
  let e := Z.min (expo x) (expo y) in
  round53 (Float (mant x * 2 ^ (expo x - e) + mant y * 2 ^ (expo y - e)) e).

(** The float nearest to [n / d] ([0 < d]); a sticky bit below the
    quotient keeps the rounding exact. *)
Definition of_ratio (n d : Z) : float :=
  let s := 64 + bitlen d in
  let q := Z.abs n * 2 ^ s / d in
  let sticky := if Z.abs n * 2 ^ s mod d =? 0 then 0 else 1 in
  round53 (Float (Z.sgn n * (2 * q + sticky)) (- s - 1)).

(** A decimal literal [digits * 10^-places], as in source text [0.85]. *)
Definition literal (digits places : Z) : float :=
  of_ratio digits (10 ^ places).

Definition cmp (x y : float) : comparison :=
  let e := Z.min (expo x) (expo y) in
  (mant x * 2 ^ (expo x - e)) ?= (mant y * 2 ^ (expo y - e)).

Definition leb (x y : float) : bool :=
  match cmp x y with Gt => false | _ => true end.

(** [x.hex()]-style reading, for checking values: the 53-bit significand
    and the exponent of its last bit, for a nonzero float. *)
Definition normal_form (x : float) : Z * Z :=
  let a := Z.abs (mant x) in
  let s := 53 - bitlen a in
  if 0 <=? s then (mant x * 2 ^ s, expo x - s)
  else (Z.sgn (mant x) * Z.shiftr a (- s), expo x - s).

(** The binary32 bit pattern of the float nearest to [x], or [None] when
    it is beyond binary32's range (C's [(float)x] gives an infinity
    there). *)
Definition to_binary32 (x : float) : option Z :=
  let a := Z.abs (mant x) in
  if a =? 0 then Some 0 else
  let E := Z.max (bitlen a + expo x - 24) (-149) in
  let s := E - expo x in
  let M := if s <=? 0 then a * 2 ^ (- s) else rne a s in
  let bits := (E + 149) * 2 ^ 23 + M in
  if 0x7f800000 <=? bits then None
  else Some (if mant x <? 0 then 0x80000000 + bits else bits).

End PyFloat.

(** ** The random module: MT19937 as CPython's _randommodule.c has it *)

Module Random.

Local Open Scope Z_scope.
Import Sha256 (u32).

Definition N : nat := 624.
Definition M : nat := 397.
Definition MATRIX_A : Z := 0x9908b0df.
Definition UPPER_MASK : Z := 0x80000000.
Definition LOWER_MASK : Z := 0x7fffffff.

(** The generator's state: the word array and the read position. *)
Record state := State { mt : list Z; index : nat }.

Definition get (a : list Z) (i : nat) : Z := u32 (nth i a 0).

Fixpoint set (a : list Z) (i : nat) (v : Z) : list Z :=
  match a, i with
  | [], _ => []
  | _ :: a', O => v :: a'
  | x :: a', S i' => x :: set a' i' v
  end.

(** init_genrand: mt[0] = s; mt[i] = 1812433253 * (mt[i-1] ^ (mt[i-1] >> 30)) + i *)
Fixpoint init_genrand_from (n : nat) (i : Z) (prev : Z) : list Z :=
  match n with
  | O => []
  | S n' =>
      let v := u32 (1812433253 * Z.lxor prev (Z.shiftr prev 30) + i) in
      v :: init_genrand_from n' (i + 1) v
  end.

Definition init_genrand (s : Z) : list Z :=
  u32 s :: init_genrand_from (N - 1) 1 (u32 s).

(** The two loops of init_by_array; [i] and [j] are the C loop's
    indices, [k] its countdown. *)
Fixpoint key_loop (k : nat) (key : list Z) (a : list Z) (i j : nat) : list Z * nat :=
  match k with
  | O => (a, i)
  | S k' =>
      let p := get a (i - 1) in
      let v := u32 (Z.lxor (get a i) (Z.lxor p (Z.shiftr p 30) * 1664525)
                    + nth j key 0 + Z.of_nat j) in
      let a := set a i v in
      let i := S i in
      let j := S j in
      let '(a, i) := if (N <=? i)%nat then (set a 0 (get a (N - 1)), 1%nat) else (a, i) in
      let j := if (List.length key <=? j)%nat then O else j in
      key_loop k' key a i j
  end.

Fixpoint mix_loop (k : nat) (a : list Z) (i : nat) : list Z :=
  match k with
  | O => a
  | S k' =>
      let p := get a (i - 1) in
      let v := u32 (Z.lxor (get a i) (Z.lxor p (Z.shiftr p 30) * 1566083941)
                    - Z.of_nat i) in
      let a := set a i v in
      let i := S i in
      let '(a, i) := if (N <=? i)%nat then (set a 0 (get a (N - 1)), 1%nat) else (a, i) in
      mix_loop k' a i
  end.

Definition init_by_array (key : list Z) : state :=
  let a := init_genrand 19650218 in
  let '(a, i) := key_loop (Nat.max N (List.length key)) key a 1 0 in
  let a := mix_loop (N - 1) a i in
  State (set a 0 0x80000000) N.

(** The 32-bit words of abs(a), least significant first; one word at
    least. *)
Fixpoint key_words (n : nat) (a : Z) : list Z :=
  match n with
  | O => []
  | S n' => u32 a :: key_words n' (Z.shiftr a 32)
  end.

(** [random.seed(a)] for an int [a]: the previous state is discarded. *)
Definition seed (a : Z) (_ : state) : state :=
  let a := Z.abs a in
  let keyused := if a =? 0 then 1 else Z.log2 a / 32 + 1 in
  init_by_array (key_words (Z.to_nat keyused) a).

Definition mag01 (y : Z) : Z := if Z.land y 1 =? 0 then 0 else MATRIX_A.

Definition twist_word (a : list Z) (kk next from : nat) : list Z :=
  let y := Z.lor (Z.land (get a kk) UPPER_MASK) (Z.land (get a next) LOWER_MASK) in
  set a kk (Z.lxor (Z.lxor (get a from) (Z.shiftr y 1)) (mag01 y)).

(** The regeneration of all N words, in place, in the order of the C
    loops: kk < N-M reads kk+M, then kk < N-1 reads kk+(M-N), then the
    last word. *)
Fixpoint twist_loop (n : nat) (kk : nat) (a : list Z) : list Z :=
  match n with
  | O => a
  | S n' =>
      let next := if (kk <? N - 1)%nat then S kk else O in
      let from := if (kk <? N - M)%nat then (kk + M)%nat else (kk + M - N)%nat in
      twist_loop n' (S kk) (twist_word a kk next from)
  end.

Definition genrand_uint32 (s : state) : Z * state :=
  let s := if (N <=? index s)%nat then State (twist_loop N 0 (mt s)) 0 else s in
  let y := get (mt s) (index s) in
  let y := u32 (Z.lxor y (Z.shiftr y 11)) in
  let y := u32 (Z.lxor y (Z.land (Z.shiftl y 7) 0x9d2c5680)) in
  let y := u32 (Z.lxor y (Z.land (Z.shiftl y 15) 0xefc60000)) in
  let y := u32 (Z.lxor y (Z.shiftr y 18)) in
  (y, State (mt s) (S (index s))).

(** [random.random()]: (a*67108864.0+b)*(1.0/9007199254740992.0) *)
Definition random (s : state) : PyFloat.float * state :=
  let '(y1, s) := genrand_uint32 s in
  let '(y2, s) := genrand_uint32 s in
  let a := Z.shiftr y1 5 in
  let b := Z.shiftr y2 6 in
  (PyFloat.mul
     (PyFloat.add (PyFloat.mul (PyFloat.of_int a) (PyFloat.of_int 67108864))
                  (PyFloat.of_int b))
     (PyFloat.Float 1 (-53)),
   s).

(** [random.uniform(a, b)] for ints [a], [b]: a + (b-a) * self.random() *)
Definition uniform (a b : Z) (s : state) : PyFloat.float * state :=
  let '(r, s) := random s in
  (PyFloat.add (PyFloat.of_int a) (PyFloat.mul (PyFloat.of_int (b - a)) r), s).

End Random.

(** ** Exceptions *)

Inductive exn :=
| IntegrityError (constraint : string)
| OperationalError (message : string)
| OverflowError
| IndexError
| ValueError.

Definition result (A : Type) : Type := (exn + A)%type.

(** ** Literals and string formatting *)

Module PyFloatSyntax.

Import PyFloat.

Fixpoint uint_value (d : Decimal.uint) (acc : Z) : Z :=
  match d with
  | Decimal.Nil => acc
  | Decimal.D0 d => uint_value d (10 * acc)
  | Decimal.D1 d => uint_value d (10 * acc + 1)
  | Decimal.D2 d => uint_value d (10 * acc + 2)
  | Decimal.D3 d => uint_value d (10 * acc + 3)
  | Decimal.D4 d => uint_value d (10 * acc + 4)
  | Decimal.D5 d => uint_value d (10 * acc + 5)
  | Decimal.D6 d => uint_value d (10 * acc + 6)
  | Decimal.D7 d => uint_value d (10 * acc + 7)
  | Decimal.D8 d => uint_value d (10 * acc + 8)
  | Decimal.D9 d => uint_value d (10 * acc + 9)
  end.

(** A float literal [i.f] of the source text: the float nearest to the
    decimal it spells. *)
Definition of_number (n : Number.number) : option float :=
  match n with
  | Number.Decimal (Decimal.Decimal (Decimal.Pos i) f) =>
      Some (literal (uint_value f (uint_value i 0)) (Z.of_nat (Decimal.nb_digits f)))
  | _ => None
  end.

Definition to_number (x : float) : option Number.number := None.

Declare Scope pyfloat_scope.
Delimit Scope pyfloat_scope with pyfloat.
Number Notation float of_number to_number : pyfloat_scope.

End PyFloatSyntax.
Import PyFloatSyntax.

Definition quote : string := String (chr 34) "".
Definition backslash : string := String (chr 92) "".
Definition newline : string := String (chr 10) "".

Fixpoint join (sep : string) (parts : list string) : string :=
  match parts with
  | [] => ""
  | [p] => p
  | p :: rest => p ++ sep ++ join sep rest
  end.

(** A triple-quoted literal, one list item per source line. *)
Definition lines (ls : list string) : string := join newline ls.

Fixpoint repeat_string (n : nat) (s : string) : string :=
  match n with
  | O => ""
  | S n' => s ++ repeat_string n' s
  end.

(** Decimal digits of a non-negative integer, most significant first;
    [fuel] is at least the number of digits. *)
Fixpoint digits (fuel : nat) (n : Z) (acc : string) : string :=
  match fuel with
  | O => acc
  | S fuel' =>
      let acc' := String (chr (48 + n mod 10)) acc in
      if n <? 10 then acc' else digits fuel' (n / 10) acc'
  end.

Definition decimal (n : Z) : string := digits (S (Z.to_nat (Z.log2 n))) n "".

(** [str(n)], also what [f"{n}"] inserts. *)
Definition str (n : Z) : string :=
  if n <? 0 then "-" ++ decimal (- n) else decimal n.

(** [f"{n:04d}"]: zero-padded to four characters, the sign counted. *)
Definition format_04d (n : Z) : string :=
  let d := decimal (Z.abs n) in
  if n <? 0 then "-" ++ repeat_string (3 - String.length d) "0" ++ d
  else repeat_string (4 - String.length d) "0" ++ d.

Definition hex_value (c : ascii) : option Z :=
  let n := code_point c in
  if (48 <=? n) && (n <=? 57) then Some (n - 48)
  else if (97 <=? n) && (n <=? 102) then Some (n - 87)
  else if (65 <=? n) && (n <=? 70) then Some (n - 55)
  else None.

(** [int(s, 16)] on a string of hex digits. *)
Fixpoint int16_from (acc : Z) (s : string) : result Z :=
  match s with
  | EmptyString => inr acc
  | String c s' =>
      match hex_value c with
      | Some d => int16_from (16 * acc + d) s'
      | None => inl ValueError
      end
  end.

Definition int16 (s : string) : result Z :=
  match s with
  | EmptyString => inl ValueError
  | _ => int16_from 0 s
  end.

(** [bytes.fromhex(s)] on an even run of hex digits. *)
Fixpoint fromhex (s : string) : result bytes :=
  match s with
  | EmptyString => inr []
  | String c1 (String c2 s') =>
      match hex_value c1, hex_value c2, fromhex s' with
      | Some h, Some l, inr bs => inr (byte_of_Z (16 * h + l) :: bs)
      | _, _, _ => inl ValueError
      end
  | String _ EmptyString => inl ValueError
  end.

(** ** json.dumps (default separators, ensure_ascii) *)

Module Json.

#[local] Unset Elimination Schemes.

Inductive value :=
| Str (s : string)
| List (items : list value)
| Dict (items : list (string * value)).

#[local] Set Elimination Schemes.

Definition hex2 (n : Z) : string :=
  String (Sha256.hex_digit (Z.shiftr n 4))
    (String (Sha256.hex_digit (Z.land n 15)) "").

Definition escape_char (c : ascii) : string :=
  let n := code_point c in
  if n =? 34 then backslash ++ quote
  else if n =? 92 then backslash ++ backslash
  else if n =? 10 then backslash ++ "n"
  else if n =? 13 then backslash ++ "r"
  else if n =? 9 then backslash ++ "t"
  else if n =? 8 then backslash ++ "b"
  else if n =? 12 then backslash ++ "f"
  else if (n <? 32) || (126 <? n) then backslash ++ "u00" ++ hex2 n
  else String c "".

Fixpoint escape (s : string) : string :=
  match s with
  | EmptyString => ""
  | String c s' => escape_char c ++ escape s'
  end.

Definition dumps_str (s : string) : string := quote ++ escape s ++ quote.

Fixpoint dumps (v : value) : string :=
  match v with
  | Str s => dumps_str s
  | List items =>
      "[" ++ (fix go (l : list value) : string :=
                match l with
                | [] => ""
                | x :: rest =>
                    match rest with
                    | [] => dumps x
                    | _ :: _ => dumps x ++ ", " ++ go rest
                    end
                end) items ++ "]"
  | Dict items =>
      "{" ++ (fix go (l : list (string * value)) : string :=
                match l with
                | [] => ""
                | (k, x) :: rest =>
                    match rest with
                    | [] => dumps_str k ++ ": " ++ dumps x
                    | _ :: _ => dumps_str k ++ ": " ++ dumps x ++ ", " ++ go rest
                    end
                end) items ++ "}"
  end.

(** [d[k]] on a parsed object. *)
Fixpoint get (k : string) (items : list (string * value)) : option value :=
  match items with
  | [] => None
  | (k', v) :: rest => if String.eqb k k' then Some v else get k rest
  end.

End Json.

(** ** datetime

    An aware UTC [datetime] is the number of microseconds since
    1970-01-01T00:00:00+00:00. *)

Module Datetime.

Definition t := Z.

Definition two (n : Z) : string :=
  String (chr (48 + n / 10 mod 10)) (String (chr (48 + n mod 10)) "").

(** Year, month and day of a day count from 1970-01-01 (proleptic
    Gregorian calendar). *)
Definition civil (days : Z) : Z * Z * Z :=
  let z := days + 719468 in
  let era := z / 146097 in
  let doe := z - era * 146097 in
  let yoe := (doe - doe / 1460 + doe / 36524 - doe / 146096) / 365 in
  let doy := doe - (365 * yoe + yoe / 4 - yoe / 100) in
  let mp := (5 * doy + 2) / 153 in
  let d := doy - (153 * mp + 2) / 5 + 1 in
  let m := if mp <? 10 then mp + 3 else mp - 9 in
  let y := yoe + era * 400 + (if m <=? 2 then 1 else 0) in
  (y, m, d).

(** [dt.isoformat()]: the fraction is left out when it is zero. *)
Definition isoformat (dt : t) : string :=
  let us := dt mod 1000000 in
  let secs := dt / 1000000 in
  let sod := secs mod 86400 in
  let '(y, m, d) := civil (secs / 86400) in
  two (y / 100) ++ two y ++ "-" ++ two m ++ "-" ++ two d ++ "T" ++
  two (sod / 3600) ++ ":" ++ two (sod / 60 mod 60) ++ ":" ++ two (sod mod 60) ++
  (if us =? 0 then "" else "." ++ two (us / 10000) ++ two (us / 100) ++ two us) ++
  "+00:00".

(** [dt.timestamp()]: the microsecond count divided by 10**6, as a
    float. *)
Definition timestamp (dt : t) : PyFloat.float := PyFloat.of_ratio dt 1000000.

End Datetime.

(** [int(x)] for a float: truncation toward zero. *)
Definition int_of_float (x : PyFloat.float) : Z :=
  if 0 <=? PyFloat.expo x then PyFloat.mant x * 2 ^ PyFloat.expo x
  else Z.quot (PyFloat.mant x) (2 ^ (- PyFloat.expo x)).

(** ** struct.pack with format 'f' (native order of a little-endian
    machine) *)

Fixpoint le_bytes (n : nat) (x : Z) : bytes :=
  match n with
  | O => []
  | S n' => byte_of_Z x :: le_bytes n' (Z.shiftr x 8)
  end.

Definition pack_f (x : PyFloat.float) : result bytes :=
  match PyFloat.to_binary32 x with
  | Some bits => inr (le_bytes 4 bits)
  | None => inl OverflowError
  end.

(** [struct.pack('f' * n, *xs)] *)
Fixpoint struct_pack_f (xs : list PyFloat.float) : result bytes :=
  match xs with
  | [] => inr []
  | x :: xs' =>
      match pack_f x, struct_pack_f xs' with
      | inr b, inr bs => inr (b ++ bs)%list
      | inl e, _ => inl e
      | _, inl e => inl e
      end
  end.

(** ** The module-level data *)

(** An item of [PAGES]: a dict with these four keys. *)
Module Page.
Record t := Make {
  page_no : Z;
  title : string;
  full_text : string;
  entities : list (string * string * string)
}.
End Page.

Definition PAGES : list Page.t := [
  {| Page.page_no := 1;
     Page.title := "MemGlyph Universal Specification Overview";
     Page.full_text := lines [
       "MemGlyph is a system for creating portable, verifiable, and queryable knowledge artifacts.";
       "        Each MemGlyph artifact is a self-contained file that bundles its own metadata, semantic structure,";
       "        and cryptographic proof of its contents and history. The system enables offline hybrid search";
       "        combining keyword, semantic, and graph-based retrieval directly within the artifact itself." ];
     Page.entities := [
       ("TECH", "MemGlyph", "MemGlyph");
       ("TECH", "hybrid search", "hybrid search") ] |};
  {| Page.page_no := 2;
     Page.title := "LEANN: Lightweight Embedding Strategy";
     Page.full_text := lines [
       "LEANN (Lightweight Embedding Adaptive Neural Network) is MemGlyph's vector strategy.";
       "        Instead of storing full 1024-dimension vectors, LEANN stores semantic hints or seeds.";
       "        These seeds enable on-demand regeneration of embeddings, achieving 98.5% storage savings";
       "        while maintaining semantic search capabilities. LEANN allows model upgrades without rewriting artifacts." ];
     Page.entities := [
       ("TECH", "LEANN", "LEANN");
       ("PERCENT", "98.5%", "0.985");
       ("TECH", "semantic search", "semantic search") ] |};
  {| Page.page_no := 3;
     Page.title := "GlyphCase Modality";
     Page.full_text := lines [
       "A GlyphCase is a SQLite-based container using SQLAR format for archival storage.";
       "        The sqlar table contains byte-for-byte representation of the source corpus, while accelerator";
       "        tables provide fast queries. All accelerators are rebuildable from the canonical sqlar data.";
       "        This enables atomic operations and efficient distribution of large document collections." ];
     Page.entities := [
       ("TECH", "GlyphCase", "GlyphCase");
       ("TECH", "SQLite", "SQLite");
       ("TECH", "SQLAR", "SQLAR") ] |};
  {| Page.page_no := 4;
     Page.title := "FTS5 Full-Text Search";
     Page.full_text := lines [
       "MemGlyph uses SQLite's FTS5 extension for keyword search with BM25 ranking.";
       "        The meta_fts virtual table indexes page titles, tags, entities, and full text content.";
       "        FTS5 provides fast filtering to 100-200 candidates before semantic reranking.";
       "        Snippet generation highlights matching terms with configurable context windows." ];
     Page.entities := [
       ("TECH", "FTS5", "FTS5");
       ("TECH", "BM25", "BM25");
       ("TECH", "SQLite", "SQLite") ] |};
  {| Page.page_no := 5;
     Page.title := "Entity Extraction and Normalization";
     Page.full_text := lines [
       "MemGlyph extracts named entities using Google LangExtract. Entities include organizations,";
       "        dates, locations, and technical terms. Normalized values enable faceted search and entity-based";
       "        retrieval boosting. Cross-document entity linking tracks entity occurrences across the corpus";
       "        with Wikidata QID references where available." ];
     Page.entities := [
       ("TECH", "LangExtract", "Google LangExtract");
       ("ORG", "Google", "Google LLC");
       ("TECH", "Wikidata", "Wikidata") ] |};
  {| Page.page_no := 6;
     Page.title := "Graph-Based Retrieval";
     Page.full_text := lines [
       "The node_index and edges tables enable graph traversal queries. Predicates like cites,";
       "        part_of, and caption_of represent semantic relationships between pages and regions.";
       "        BFS traversal finds connected content within N hops. Graph expansion augments keyword";
       "        and semantic results with relationship-based discovery." ];
     Page.entities := [
       ("TECH", "BFS", "breadth-first search");
       ("TECH", "graph traversal", "graph traversal") ] |};
  {| Page.page_no := 7;
     Page.title := "Hybrid Retrieval Architecture";
     Page.full_text := lines [
       "MemGlyph combines multiple retrieval signals in a fusion ranking system.";
       "        FTS5 provides keyword filtering (35% weight), vector search adds semantic understanding (40% weight),";
       "        entity matching contributes structured boosting (25% weight), and graph expansion discovers";
       "        related content. This hybrid approach outperforms single-method retrieval." ];
     Page.entities := [
       ("PERCENT", "35%", "0.35");
       ("PERCENT", "40%", "0.40");
       ("PERCENT", "25%", "0.25");
       ("TECH", "hybrid retrieval", "hybrid retrieval") ] |};
  {| Page.page_no := 8;
     Page.title := "Verification and Provenance";
     Page.full_text := lines [
       "Every MemGlyph artifact includes cryptographic verification. Content hashes (SHA256) anchor";
       "        regions to prevent tampering. The ledger tracks all operations with timestamps and signatures.";
       "        Merkle checkpoints create temporal snapshots. Ed25519 signatures prove authorship.";
       "        External anchors on Ethereum or IPFS provide additional trust." ];
     Page.entities := [
       ("TECH", "SHA256", "SHA-256");
       ("TECH", "Merkle", "Merkle tree");
       ("TECH", "Ed25519", "Ed25519");
       ("TECH", "Ethereum", "Ethereum");
       ("TECH", "IPFS", "IPFS") ] |} ].

Definition EDGES : list (Z * Z * string * PyFloat.float) := [
  (1, 2, "cites", 0.9%pyfloat);
  (1, 3, "cites", 0.85%pyfloat);
  (1, 7, "part_of", 1.0%pyfloat);
  (2, 7, "cites", 0.8%pyfloat);
  (3, 4, "cites", 0.75%pyfloat);
  (4, 7, "cites", 0.9%pyfloat);
  (5, 7, "cites", 0.85%pyfloat);
  (6, 7, "cites", 0.8%pyfloat);
  (7, 2, "cites", 0.9%pyfloat);
  (7, 4, "cites", 0.85%pyfloat);
  (8, 1, "part_of", 0.95%pyfloat) ].

Definition DOC_ID : string :=
  "sha256:memglyph_demo_" ++
  substring 0 16 (Sha256.hexdigest (bytes_literal "memglyph_sample_capsule")).

(** ** create_mock_png *)

Definition create_mock_png (page_no : Z) (title : string) : result bytes :=
  fromhex
    ("89504e470d0a1a0a" ++
     "0000000d49484452" ++
     "0000000100000001" ++
     "0802000000907753" ++
     "de" ++
     "0000000c49444154" ++
     "08995163000000" ++
     "0200013226780a" ++
     "0000000049454e44" ++
     "ae426082").

(** ** mock_vector_384d

    The random module's generator is one shared object; the function
    reseeds it, draws from it and leaves it advanced. *)

(** [[random.uniform(a, b) for _ in range(n)]] *)
Fixpoint uniform_list (n : nat) (a b : Z) (s : Random.state)
  : list PyFloat.float * Random.state :=
  match n with
  | O => ([], s)
  | S n' =>
      let '(x, s) := Random.uniform a b s in
      let '(xs, s) := uniform_list n' a b s in
      (x :: xs, s)
  end.

Definition mock_vector_384d (text : string) (s : Random.state)
  : result bytes * Random.state :=
  match int16 (substring 0 8 (Sha256.hexdigest (encode text))) with
  | inl e => (inl e, s)
  | inr seed =>
      let s := Random.seed seed s in
      let '(vector, s) := uniform_list 384 (-1) 1 s in
      (struct_pack_f vector, s)
  end.

(** ** The database

    One record per table, a field per column; a column the INSERT leaves
    out holds NULL and has an [option] type.  A table is the list of its
    rows in the order of their rowids: a new row gets the largest rowid
    plus one and goes last.  (SQLite picks another rowid only when the
    largest is 2^63-1; a file with such a table is none of these
    databases, but for node_index, which then takes no row.)  The rowid
    is a column of its own in node_index, where it is node_id, and in
    meta_index, where the full-text table reads it.  [node_index_seq] is
    the seq that sqlite_sequence holds for node_index, 0 when it holds
    none. *)

Module Sqlar.
Record row := Row {
  name : string;
  mode : Z;
  mtime : Z;
  sz : Z;
  data : bytes
}.
End Sqlar.

Module LedgerBlocks.
Record row := Row {
  block_id : string;
  ts : string;
  prev : string;
  entries_json : string;
  signer : string;
  sig : string;
  anchors_json : string
}.
End LedgerBlocks.

Module Checkpoints.
Record row := Row {
  epoch : string;
  merkle_root : string;
  pages_count : Z;
  anchors_json : string;
  created_ts : string
}.
End Checkpoints.

Module Keys.
Record row := Row {
  key_id : string;
  did : string;
  did_document : string;
  valid_from : string;
  valid_until : option string;
  revoked : Z
}.
End Keys.

Module NodeIndex.
Record row := Row {
  node_id : Z;
  gid : string;
  doc_id : string;
  page_no : Z
}.
End NodeIndex.

Module Edges.
Record row := Row {
  fromNode : Z;
  toNode : Z;
  pred : string;
  weight : PyFloat.float;
  ts : string;
  evidence : option string
}.
End Edges.

(** meta_index has a TEXT primary key, so its rows keep the rowid SQLite
    numbers them with; the full-text table reads it. *)
Module MetaIndex.
Record row := Row {
  rowid : Z;
  gid : string;
  doc_id : string;
  page_no : Z;
  title : string;
  tags : string;
  entities : string;
  full_text : string;
  updated_ts : string
}.
End MetaIndex.

Module MetaFts.
Record row := Row {
  rowid : Z;
  title : string;
  tags : string;
  entities : string;
  full_text : string
}.
End MetaFts.

Module Entities.
Record row := Row {
  gid : string;
  entity_type : string;
  entity_text : string;
  normalized_value : string;
  confidence : PyFloat.float;
  start_offset : option Z;
  end_offset : option Z
}.
End Entities.

Module LeannMeta.
Record row := Row {
  gid : string;
  model_id : string;
  scope : string;
  region_id : option string;
  doc_id : string;
  page_no : Z;
  dim : Z;
  quant : string;
  content_sha : string;
  text_extraction : string;
  normalization : string;
  updated_utc : string;
  recompute : Z
}.
End LeannMeta.

Module LeannVec.
Record row := Row {
  gid : string;
  model_id : string;
  embedding : bytes;
  cached_ts : string
}.
End LeannVec.

Module LeannNeighbors.
Record row := Row {
  gid : string;
  neighbor : string;
  score : PyFloat.float;
  reason : string
}.
End LeannNeighbors.

Module GlyphReceipts.
Record row := Row {
  gid : string;
  content_sha : string;
  signer : string;
  sig : string;
  ts : string;
  epoch : string;
  merkle_root : string;
  merkle_path : option string;
  anchors_json : string
}.
End GlyphReceipts.

Record database := Database {
  sqlar : list Sqlar.row;
  ledger_blocks : list LedgerBlocks.row;
  checkpoints : list Checkpoints.row;
  keys : list Keys.row;
  node_index : list NodeIndex.row;
  edges : list Edges.row;
  meta_index : list MetaIndex.row;
  meta_fts : list MetaFts.row;
  entities : list Entities.row;
  leann_meta : list LeannMeta.row;
  leann_vec : list LeannVec.row;
  leann_neighbors : list LeannNeighbors.row;
  glyph_receipts : list GlyphReceipts.row;
  node_index_seq : Z
}.

Definition empty_database : database :=
  Database [] [] [] [] [] [] [] [] [] [] [] [] [] 0.

Definition set_sqlar (rows : list Sqlar.row) (d : database) : database :=
  Database
    rows (ledger_blocks d) (checkpoints d) (keys d)
    (node_index d) (edges d) (meta_index d) (meta_fts d)
    (entities d) (leann_meta d) (leann_vec d) (leann_neighbors d)
    (glyph_receipts d)
    (node_index_seq d).

Definition set_ledger_blocks (rows : list LedgerBlocks.row) (d : database) : database :=
  Database
    (sqlar d) rows (checkpoints d) (keys d)
    (node_index d) (edges d) (meta_index d) (meta_fts d)
    (entities d) (leann_meta d) (leann_vec d) (leann_neighbors d)
    (glyph_receipts d)
    (node_index_seq d).

Definition set_checkpoints (rows : list Checkpoints.row) (d : database) : database :=
  Database
    (sqlar d) (ledger_blocks d) rows (keys d)
    (node_index d) (edges d) (meta_index d) (meta_fts d)
    (entities d) (leann_meta d) (leann_vec d) (leann_neighbors d)
    (glyph_receipts d)
    (node_index_seq d).

Definition set_keys (rows : list Keys.row) (d : database) : database :=
  Database
    (sqlar d) (ledger_blocks d) (checkpoints d) rows
    (node_index d) (edges d) (meta_index d) (meta_fts d)
    (entities d) (leann_meta d) (leann_vec d) (leann_neighbors d)
    (glyph_receipts d)
    (node_index_seq d).

Definition set_node_index (rows : list NodeIndex.row) (d : database) : database :=
  Database
    (sqlar d) (ledger_blocks d) (checkpoints d) (keys d)
    rows (edges d) (meta_index d) (meta_fts d)
    (entities d) (leann_meta d) (leann_vec d) (leann_neighbors d)
    (glyph_receipts d)
    (node_index_seq d).

Definition set_edges (rows : list Edges.row) (d : database) : database :=
  Database
    (sqlar d) (ledger_blocks d) (checkpoints d) (keys d)
    (node_index d) rows (meta_index d) (meta_fts d)
    (entities d) (leann_meta d) (leann_vec d) (leann_neighbors d)
    (glyph_receipts d)
    (node_index_seq d).

Definition set_meta_index (rows : list MetaIndex.row) (d : database) : database :=
  Database
    (sqlar d) (ledger_blocks d) (checkpoints d) (keys d)
    (node_index d) (edges d) rows (meta_fts d)
    (entities d) (leann_meta d) (leann_vec d) (leann_neighbors d)
    (glyph_receipts d)
    (node_index_seq d).

Definition set_meta_fts (rows : list MetaFts.row) (d : database) : database :=
  Database
    (sqlar d) (ledger_blocks d) (checkpoints d) (keys d)
    (node_index d) (edges d) (meta_index d) rows
    (entities d) (leann_meta d) (leann_vec d) (leann_neighbors d)
    (glyph_receipts d)
    (node_index_seq d).

Definition set_entities (rows : list Entities.row) (d : database) : database :=
  Database
    (sqlar d) (ledger_blocks d) (checkpoints d) (keys d)
    (node_index d) (edges d) (meta_index d) (meta_fts d)
    rows (leann_meta d) (leann_vec d) (leann_neighbors d)
    (glyph_receipts d)
    (node_index_seq d).

Definition set_leann_meta (rows : list LeannMeta.row) (d : database) : database :=
  Database
    (sqlar d) (ledger_blocks d) (checkpoints d) (keys d)
    (node_index d) (edges d) (meta_index d) (meta_fts d)
    (entities d) rows (leann_vec d) (leann_neighbors d)
    (glyph_receipts d)
    (node_index_seq d).

Definition set_leann_vec (rows : list LeannVec.row) (d : database) : database :=
  Database
    (sqlar d) (ledger_blocks d) (checkpoints d) (keys d)
    (node_index d) (edges d) (meta_index d) (meta_fts d)
    (entities d) (leann_meta d) rows (leann_neighbors d)
    (glyph_receipts d)
    (node_index_seq d).

Definition set_leann_neighbors (rows : list LeannNeighbors.row) (d : database) : database :=
  Database
    (sqlar d) (ledger_blocks d) (checkpoints d) (keys d)
    (node_index d) (edges d) (meta_index d) (meta_fts d)
    (entities d) (leann_meta d) (leann_vec d) rows
    (glyph_receipts d)
    (node_index_seq d).

Definition set_glyph_receipts (rows : list GlyphReceipts.row) (d : database) : database :=
  Database
    (sqlar d) (ledger_blocks d) (checkpoints d) (keys d)
    (node_index d) (edges d) (meta_index d) (meta_fts d)
    (entities d) (leann_meta d) (leann_vec d) (leann_neighbors d)
    rows
    (node_index_seq d).

Definition set_node_index_seq (seq : Z) (d : database) : database :=
  Database
    (sqlar d) (ledger_blocks d) (checkpoints d) (keys d)
    (node_index d) (edges d) (meta_index d) (meta_fts d)
    (entities d) (leann_meta d) (leann_vec d) (leann_neighbors d)
    (glyph_receipts d)
    seq.

(** ** Statements against the connection

    The state a run threads: the connection's pending transaction, the
    number of clock reads so far, and the random module's generator.  An
    exception ends the run; nothing is committed then. *)

Record world := World {
  conn : database;
  clock_reads : nat;
  rng : Random.state
}.

Definition M (A : Type) : Type := world -> exn + (A * world).

Definition ret {A} (a : A) : M A := fun w => inr (a, w).

Definition bind {A B} (m : M A) (k : A -> M B) : M B :=
  fun w => match m w with
           | inl e => inl e
           | inr (a, w') => k a w'
           end.

Definition lift {A} (r : result A) : M A :=
  fun w => match r with
           | inl e => inl e
           | inr a => inr (a, w)
           end.

Notation "x <- m ;; k" := (bind m (fun x => k))
  (at level 61, m at next level, right associativity).
Notation "m ;; k" := (bind m (fun _ => k))
  (at level 61, right associativity).

(** [for x in xs: body] *)
Fixpoint for_each {A} (xs : list A) (body : A -> M unit) : M unit :=
  match xs with
  | [] => ret tt
  | x :: xs' => body x ;; for_each xs' body
  end.

(** [l[i]], a negative index counting from the end. *)
Definition getitem {A} (l : list A) (i : Z) : result A :=
  let i := if i <? 0 then i + len l else i in
  if i <? 0 then inl IndexError
  else match nth_error l (Z.to_nat i) with
       | Some x => inr x
       | None => inl IndexError
       end.

Definition range (lo hi : Z) : list Z :=
  map (fun k => lo + Z.of_nat k) (seq 0 (Z.to_nat (hi - lo))).

(** A list comprehension whose item expression may raise. *)
Fixpoint comprehension {A B} (f : A -> result B) (l : list A) : result (list B) :=
  match l with
  | [] => inr []
  | x :: l' =>
      match f x with
      | inl e => inl e
      | inr y =>
          match comprehension f l' with
          | inl e => inl e
          | inr ys => inr (y :: ys)
          end
      end
  end.

(** A uniqueness constraint over a key: the name of the constraint when
    the new row's key is already in the table. *)
Definition unique {R K} (key : R -> K) (eqb : K -> K -> bool) (name : string)
  (r : R) (rows : list R) : option string :=
  if existsb (fun r' => eqb (key r') (key r)) rows then Some name else None.

Definition pair_eqb {A B} (fa : A -> A -> bool) (fb : B -> B -> bool)
  (x y : A * B) : bool :=
  fa (fst x) (fst y) && fb (snd x) (snd y).

(** INSERT INTO: the row is appended, or the statement raises
    sqlite3.IntegrityError. *)
Definition insert {R} (table : database -> list R)
  (set_table : list R -> database -> database)
  (violated : R -> list R -> option string) (r : R) : M unit :=
  fun w =>
    match violated r (table (conn w)) with
    | Some c => inl (IntegrityError c)
    | None =>
        inr (tt, World (set_table (table (conn w) ++ [r])%list (conn w))
                       (clock_reads w) (rng w))
    end.

(** INSERT OR IGNORE INTO: a row that violates the constraint is skipped. *)
Definition insert_or_ignore {R} (table : database -> list R)
  (set_table : list R -> database -> database)
  (violated : R -> list R -> option string) (r : R) : M unit :=
  fun w =>
    match violated r (table (conn w)) with
    | Some _ => inr (tt, w)
    | None =>
        inr (tt, World (set_table (table (conn w) ++ [r])%list (conn w))
                       (clock_reads w) (rng w))
    end.

(** The constraints the CREATE TABLE statements declare. *)
Definition sqlar_pk := unique Sqlar.name String.eqb "sqlar.name".
Definition ledger_blocks_pk :=
  unique LedgerBlocks.block_id String.eqb "ledger_blocks.block_id".
Definition checkpoints_pk := unique Checkpoints.epoch String.eqb "checkpoints.epoch".
Definition keys_pk := unique Keys.key_id String.eqb "keys.key_id".
Definition node_index_unique := unique NodeIndex.gid String.eqb "node_index.gid".
Definition edges_pk :=
  unique (fun r => (Edges.fromNode r, Edges.toNode r, Edges.pred r))
         (pair_eqb (pair_eqb Z.eqb Z.eqb) String.eqb)
         "edges.fromNode, edges.toNode, edges.pred".
Definition meta_index_pk := unique MetaIndex.gid String.eqb "meta_index.gid".
Definition entities_pk :=
  unique (fun r => (Entities.gid r, Entities.entity_type r, Entities.entity_text r))
         (pair_eqb (pair_eqb String.eqb String.eqb) String.eqb)
         "entities.gid, entities.entity_type, entities.entity_text".
Definition leann_meta_constraints (r : LeannMeta.row) (rows : list LeannMeta.row)
  : option string :=
  if String.eqb (LeannMeta.scope r) "page" || String.eqb (LeannMeta.scope r) "region"
  then unique (fun r => (LeannMeta.gid r, LeannMeta.model_id r))
              (pair_eqb String.eqb String.eqb)
              "leann_meta.gid, leann_meta.model_id" r rows
  else Some "CHECK constraint failed: scope".
Definition leann_vec_pk :=
  unique (fun r => (LeannVec.gid r, LeannVec.model_id r))
         (pair_eqb String.eqb String.eqb) "leann_vec.gid, leann_vec.model_id".
Definition leann_neighbors_pk :=
  unique (fun r => (LeannNeighbors.gid r, LeannNeighbors.neighbor r))
         (pair_eqb String.eqb String.eqb)
         "leann_neighbors.gid, leann_neighbors.neighbor".
Definition glyph_receipts_pk :=
  unique GlyphReceipts.gid String.eqb "glyph_receipts.gid".

Definition insert_sqlar := insert sqlar set_sqlar sqlar_pk.
Definition insert_ledger_blocks := insert ledger_blocks set_ledger_blocks ledger_blocks_pk.
Definition insert_checkpoints := insert checkpoints set_checkpoints checkpoints_pk.
Definition insert_keys := insert keys set_keys keys_pk.
Definition insert_edges := insert edges set_edges edges_pk.
Definition insert_entities := insert entities set_entities entities_pk.
Definition insert_leann_meta := insert leann_meta set_leann_meta leann_meta_constraints.
Definition insert_leann_vec := insert leann_vec set_leann_vec leann_vec_pk.
Definition insert_or_ignore_leann_neighbors :=
  insert_or_ignore leann_neighbors set_leann_neighbors leann_neighbors_pk.
Definition insert_glyph_receipts :=
  insert glyph_receipts set_glyph_receipts glyph_receipts_pk.

(** The largest rowid SQLite can give. *)
Definition MAX_ROWID : Z := 2 ^ 63 - 1.

(** The largest of the rowids [ids] of a table, 0 for a table without
    rows. *)
Definition largest_rowid (ids : list Z) : Z :=
  match ids with
  | [] => 0
  | id :: ids' => fold_left Z.max ids' id
  end.

(** node_index: node_id is INTEGER PRIMARY KEY AUTOINCREMENT.  The new id
    is one more than the larger of the largest id in the table and the
    seq of sqlite_sequence, the largest id the table ever had; when that
    is the largest rowid there is, the INSERT fails with SQLITE_FULL,
    which sqlite3 raises as OperationalError. *)
Definition next_node_id (seq : Z) (rows : list NodeIndex.row) : result Z :=
  let last := Z.max (largest_rowid (map NodeIndex.node_id rows)) seq in
  if MAX_ROWID <=? last then inl (OperationalError "database or disk is full")
  else inr (1 + last).

(** The id is taken before the constraints are checked; the row stored,
    sqlite_sequence takes its id. *)
Definition insert_node_index (gid doc_id : string) (page_no : Z) : M unit :=
  fun w =>
    match next_node_id (node_index_seq (conn w)) (node_index (conn w)) with
    | inl e => inl e
    | inr node_id =>
        match insert node_index set_node_index node_index_unique
                (NodeIndex.Row node_id gid doc_id page_no) w with
        | inl e => inl e
        | inr (_, w') =>
            inr (tt, World (set_node_index_seq node_id (conn w'))
                           (clock_reads w') (rng w'))
        end
    end.

(** meta_index: the row gets the largest rowid of the table plus one.
    (A table whose largest rowid is 2^63 - 1 gets a rowid drawn at
    random instead; the statements below keep away from such a table.) *)
Definition insert_meta_index (row_with : Z -> MetaIndex.row) : M unit :=
  fun w =>
    insert meta_index set_meta_index meta_index_pk
      (row_with (1 + largest_rowid (map MetaIndex.rowid (meta_index (conn w))))) w.

(** What the full-text table takes of a row of meta_index. *)
Definition fts_row_of (r : MetaIndex.row) : MetaFts.row :=
  MetaFts.Row (MetaIndex.rowid r) (MetaIndex.title r) (MetaIndex.tags r)
              (MetaIndex.entities r) (MetaIndex.full_text r).

(** meta_fts is an FTS5 table with content='meta_index': it keeps an
    index, one document per rowid, and declares no constraint.  An INSERT
    under a rowid the index has puts the new document in the place of the
    old one; it never fails for that.  [rows] are the documents, by
    rowid. *)
Fixpoint fts_insert (r : MetaFts.row) (rows : list MetaFts.row) : list MetaFts.row :=
  match rows with
  | [] => [r]
  | x :: rows' =>
      if MetaFts.rowid r <? MetaFts.rowid x then r :: rows
      else if MetaFts.rowid r =? MetaFts.rowid x then r :: rows'
      else x :: fts_insert r rows'
  end.

(** INSERT INTO meta_fts(rowid, ...) SELECT rowid, ... FROM meta_index:
    every row of meta_index, the rows it held before the run too. *)
Definition populate_meta_fts : M unit :=
  fun w =>
    inr (tt, World (set_meta_fts
                      (fold_left (fun rows r => fts_insert (fts_row_of r) rows)
                                 (meta_index (conn w)) (meta_fts (conn w)))
                      (conn w))
                   (clock_reads w) (rng w)).

(** A call into the random module's shared generator. *)
Definition with_rng {A} (f : Random.state -> result A * Random.state) : M A :=
  fun w =>
    let '(r, s) := f (rng w) in
    match r with
    | inl e => inl e
    | inr a => inr (a, World (conn w) (clock_reads w) s)
    end.

(** [hashlib.sha256(data).hexdigest()] *)
Definition sha256_hexdigest (data : bytes) : string := Sha256.hexdigest data.

(** ** create_capsule *)

Section Script.

(** The clock is the script's environment: [now n] is the aware
    datetime that call number [n] of [datetime.now(timezone.utc)]
    returns, and the script reads it through [isoformat()] and
    [timestamp()] only. *)
Variable datetime : Type.
Variable isoformat : datetime -> string.
Variable timestamp : datetime -> PyFloat.float.
Variable now : nat -> datetime.

Definition datetime_now_utc : M datetime :=
  fun w => inr (now (clock_reads w),
                World (conn w) (S (clock_reads w)) (rng w)).

Definition SIGNER : string :=
  "did:key:z6MkhaXgBZDvotDkL5257faiztiGiC2QtKLGpbnnEGta2doK".

(** Add mock PNG files to SQLAR *)
Definition add_pages_to_sqlar : M unit :=
  for_each PAGES (fun page =>
    png_data <- lift (create_mock_png (Page.page_no page) (Page.title page)) ;;
    let filename := "glyphs/page_" ++ format_04d (Page.page_no page) ++ ".mgx.png" in
    t <- datetime_now_utc ;;
    let mtime := int_of_float (timestamp t) in
    insert_sqlar (Sqlar.Row filename 33188 mtime (len png_data) png_data)).

(** Add ledger file *)
Definition add_ledger_file : M unit :=
  created <- datetime_now_utc ;;
  let ledger_content :=
    encode (Json.dumps (Json.Dict [
      ("format", Json.Str "memglyph-ledger-v1");
      ("created", Json.Str (isoformat created)) ])) in
  t <- datetime_now_utc ;;
  insert_sqlar
    (Sqlar.Row "ledger/ledger.log" 33188 (int_of_float (timestamp t))
               (len ledger_content) ledger_content).

(** The entry the initial block records for page number [i]. *)
Definition ledger_entry (i : Z) : result Json.value :=
  match getitem PAGES (i - 1), getitem PAGES (i - 1) with
  | inr p, inr p' =>
      inr (Json.Dict [
        ("op", Json.Str "ADD");
        ("gid", Json.Str (DOC_ID ++ "#p" ++ str i));
        ("content_sha", Json.Str (sha256_hexdigest (encode (Page.full_text p))));
        ("metadata", Json.Dict [("title", Json.Str (Page.title p'))]) ])
  | inl e, _ => inl e
  | _, inl e => inl e
  end.

Definition ledger_entries : result (list Json.value) :=
  comprehension ledger_entry (range 1 (len PAGES + 1)).

(** Add initial ledger block *)
Definition add_ledger_block : M unit :=
  t <- datetime_now_utc ;;
  entries <- lift ledger_entries ;;
  insert_ledger_blocks
    (LedgerBlocks.Row
       "b001"
       (isoformat t)
       "genesis"
       (Json.dumps (Json.List entries))
       SIGNER
       ("ed25519:mock_signature_" ++
        substring 0 32 (sha256_hexdigest (bytes_literal "demo")))
       (Json.dumps (Json.List [Json.Str "ipfs:QmDemo123"]))).

Definition add_checkpoint : M unit :=
  t <- datetime_now_utc ;;
  t' <- datetime_now_utc ;;
  insert_checkpoints
    (Checkpoints.Row
       (isoformat t)
       (sha256_hexdigest (bytes_literal "checkpoint_demo"))
       (len PAGES)
       (Json.dumps (Json.List [Json.Str "ipfs:QmCheckpoint123"]))
       (isoformat t')).

Definition add_key : M unit :=
  t <- datetime_now_utc ;;
  insert_keys
    (Keys.Row
       "key001"
       SIGNER
       (Json.dumps (Json.Dict [
          ("@context", Json.Str "https://w3id.org/did/v1");
          ("id", Json.Str "did:key:z6Mk...") ]))
       (isoformat t)
       None
       0).

(** Insert nodes for each page *)
Definition insert_nodes : M unit :=
  for_each PAGES (fun page =>
    let gid := DOC_ID ++ "#p" ++ str (Page.page_no page) in
    insert_node_index gid DOC_ID (Page.page_no page)).

(** Insert edges *)
Definition insert_all_edges : M unit :=
  for_each EDGES (fun '(from_page, to_page, pred, weight) =>
    t <- datetime_now_utc ;;
    insert_edges (Edges.Row from_page to_page pred weight (isoformat t) None)).

(** Insert metadata *)
Definition insert_metadata : M unit :=
  for_each PAGES (fun page =>
    let gid := DOC_ID ++ "#p" ++ str (Page.page_no page) in
    t <- datetime_now_utc ;;
    insert_meta_index (fun rowid =>
      MetaIndex.Row
         rowid
         gid
         DOC_ID
         (Page.page_no page)
         (Page.title page)
         "memglyph demo documentation"
         (Json.dumps (Json.List
            (map (fun e => Json.Str (snd (fst e))) (Page.entities page))))
         (Page.full_text page)
         (isoformat t))).

(** Insert entities *)
Definition insert_all_entities : M unit :=
  for_each PAGES (fun page =>
    let gid := DOC_ID ++ "#p" ++ str (Page.page_no page) in
    for_each (Page.entities page)
      (fun '(entity_type, entity_text, normalized_value) =>
         insert_entities
           (Entities.Row gid entity_type entity_text normalized_value
                         0.95%pyfloat None None))).

Definition model_id : string := "gte-small-384".

(** Insert LEANN metadata *)
Definition insert_leann_metadata : M unit :=
  for_each PAGES (fun page =>
    let gid := DOC_ID ++ "#p" ++ str (Page.page_no page) in
    let content_sha := sha256_hexdigest (encode (Page.full_text page)) in
    t <- datetime_now_utc ;;
    insert_leann_meta
      (LeannMeta.Row gid model_id "page" None DOC_ID (Page.page_no page)
                     384 "float32" content_sha "native" "unicode-nfkc"
                     (isoformat t) 0)).

(** Insert mock vectors *)
Definition insert_mock_vectors : M unit :=
  for_each PAGES (fun page =>
    let gid := DOC_ID ++ "#p" ++ str (Page.page_no page) in
    vector_blob <- with_rng (mock_vector_384d (Page.full_text page)) ;;
    t <- datetime_now_utc ;;
    insert_leann_vec (LeannVec.Row gid model_id vector_blob (isoformat t))).

(** Add some neighbor hints based on edges *)
Definition add_neighbor_hints : M unit :=
  for_each EDGES (fun '(from_page, to_page, pred, weight) =>
    let from_gid := DOC_ID ++ "#p" ++ str from_page in
    let to_gid := DOC_ID ++ "#p" ++ str to_page in
    insert_or_ignore_leann_neighbors
      (LeannNeighbors.Row from_gid to_gid weight ("graph-" ++ pred))).

Definition add_receipts : M unit :=
  t <- datetime_now_utc ;;
  let epoch := isoformat t in
  let merkle_root := sha256_hexdigest (bytes_literal "checkpoint_demo") in
  for_each PAGES (fun page =>
    let gid := DOC_ID ++ "#p" ++ str (Page.page_no page) in
    let content_sha := sha256_hexdigest (encode (Page.full_text page)) in
    t <- datetime_now_utc ;;
    insert_glyph_receipts
      (GlyphReceipts.Row
         gid
         content_sha
         SIGNER
         ("ed25519:mock_sig_" ++
          substring 0 32 (sha256_hexdigest (encode (gid ++ content_sha))))
         (isoformat t)
         epoch
         merkle_root
         None
         (Json.dumps (Json.List [Json.Str "ipfs:QmDemo123"])))).

Definition script : M unit :=
  add_pages_to_sqlar ;;
  add_ledger_file ;;
  add_ledger_block ;;
  add_checkpoint ;;
  add_key ;;
  insert_nodes ;;
  insert_all_edges ;;
  insert_metadata ;;
  populate_meta_fts ;;
  insert_all_entities ;;
  insert_leann_metadata ;;
  insert_mock_vectors ;;
  add_neighbor_hints ;;
  add_receipts.

(** [create_capsule(output_path)]: [file] is the database at
    [output_path] when the script connects, [rng0] the random module's
    generator at that time; the result is what [conn.commit()] makes
    durable.  The CREATE TABLE, INDEX and VIEW statements and the
    closing statistics store no rows.  [file] has the tables of the
    script's CREATE statements, or lacks them and holds no row there; the
    connection, the PRAGMAs, the CREATE statements, the print calls and
    the commit are taken to succeed, as they do on a disk with room and a
    standard output that takes the script's characters. *)
Definition create_capsule (file : database) (rng0 : Random.state)
  : result database :=
  match script (World file 0 rng0) with
  | inl e => inl e
  | inr (_, w) => inr (conn w)
  end.

End Script.

(** A clock that starts at [t0] and advances by [step] microseconds from
    one read to the next. *)
Definition ticking_clock (t0 step : Z) (n : nat) : Datetime.t :=
  t0 + step * Z.of_nat n.

(** The script on the real datetime module and a fresh output file. *)
Definition run (clock : nat -> Datetime.t) : result database :=
  create_capsule Datetime.t Datetime.isoformat Datetime.timestamp clock
    empty_database (Random.State [] 0).

(** ** What a run on a fresh file commits

    The rows of each table in closed form, as functions of the clock; the
    number given to a stage is the count of clock reads before it.  The
    lemmas below show that these are the rows the script writes. *)

Definition enumerate {A} (l : list A) : list (nat * A) :=
  combine (seq 0 (List.length l)) l.

(** The bytes create_mock_png answers with. *)
Definition PNG_DATA : bytes :=
  match create_mock_png 0 "" with
  | inr b => b
  | inl _ => []
  end.

(** The vector mock_vector_384d answers with, whatever the generator held. *)
Definition embedding (text : string) : bytes :=
  match fst (mock_vector_384d text (Random.State [] 0)) with
  | inr v => v
  | inl _ => []
  end.

Definition content_sha_of (page : Page.t) : string :=
  sha256_hexdigest (encode (Page.full_text page)).

(** The item identifier of the data model: the document id, [#p], and the
    page number in decimal. *)
Definition page_gid (doc_id : string) (page_no : Z) : string :=
  doc_id ++ "#p" ++ str page_no.

Definition gid_of (page_no : Z) : string := page_gid DOC_ID page_no.

Definition CHECKPOINT_ROOT : string :=
  sha256_hexdigest (bytes_literal "checkpoint_demo").

Section Rows.

Variable datetime : Type.
Variable isoformat : datetime -> string.
Variable timestamp : datetime -> PyFloat.float.
Variable now : nat -> datetime.

Definition page_rows (n : nat) : list Sqlar.row :=
  map (fun '(k, page) =>
         Sqlar.Row ("glyphs/page_" ++ format_04d (Page.page_no page) ++ ".mgx.png")
                   33188 (int_of_float (timestamp (now (k + n))))
                   (len PNG_DATA) PNG_DATA)
      (enumerate PAGES).

Definition ledger_content (n : nat) : bytes :=
  encode (Json.dumps (Json.Dict [
    ("format", Json.Str "memglyph-ledger-v1");
    ("created", Json.Str (isoformat (now n))) ])).

Definition ledger_file_row (n : nat) : Sqlar.row :=
  Sqlar.Row "ledger/ledger.log" 33188 (int_of_float (timestamp (now (1 + n))))
            (len (ledger_content n)) (ledger_content n).

Definition entry_of (k : nat) (page : Page.t) : Json.value :=
  Json.Dict [
    ("op", Json.Str "ADD");
    ("gid", Json.Str (gid_of (1 + Z.of_nat k)));
    ("content_sha", Json.Str (content_sha_of page));
    ("metadata", Json.Dict [("title", Json.Str (Page.title page))]) ].

Definition block_entries : list Json.value :=
  map (fun '(k, page) => entry_of k page) (enumerate PAGES).

Definition ledger_block_row (n : nat) : LedgerBlocks.row :=
  LedgerBlocks.Row "b001" (isoformat (now n)) "genesis"
    (Json.dumps (Json.List block_entries))
    SIGNER
    ("ed25519:mock_signature_" ++
     substring 0 32 (sha256_hexdigest (bytes_literal "demo")))
    (Json.dumps (Json.List [Json.Str "ipfs:QmDemo123"])).

Definition checkpoint_row (n : nat) : Checkpoints.row :=
  Checkpoints.Row (isoformat (now n)) CHECKPOINT_ROOT (len PAGES)
    (Json.dumps (Json.List [Json.Str "ipfs:QmCheckpoint123"]))
    (isoformat (now (1 + n))).

Definition key_row (n : nat) : Keys.row :=
  Keys.Row "key001" SIGNER
    (Json.dumps (Json.Dict [
       ("@context", Json.Str "https://w3id.org/did/v1");
       ("id", Json.Str "did:key:z6Mk...") ]))
    (isoformat (now n)) None 0.

Definition node_rows : list NodeIndex.row :=
  map (fun '(k, page) =>
         NodeIndex.Row (1 + Z.of_nat k) (gid_of (Page.page_no page)) DOC_ID
                       (Page.page_no page))
      (enumerate PAGES).

Definition edge_rows (n : nat) : list Edges.row :=
  map (fun '(k, (from_page, to_page, pred, weight)) =>
         Edges.Row from_page to_page pred weight (isoformat (now (k + n))) None)
      (enumerate EDGES).

Definition meta_rows (n : nat) : list MetaIndex.row :=
  map (fun '(k, page) =>
         MetaIndex.Row (1 + Z.of_nat k) (gid_of (Page.page_no page)) DOC_ID
           (Page.page_no page)
           (Page.title page) "memglyph demo documentation"
           (Json.dumps (Json.List
              (map (fun e => Json.Str (snd (fst e))) (Page.entities page))))
           (Page.full_text page) (isoformat (now (k + n))))
      (enumerate PAGES).

Definition fts_rows : list MetaFts.row :=
  map (fun '(k, page) =>
         MetaFts.Row (1 + Z.of_nat k) (Page.title page) "memglyph demo documentation"
           (Json.dumps (Json.List
              (map (fun e => Json.Str (snd (fst e))) (Page.entities page))))
           (Page.full_text page))
      (enumerate PAGES).

Definition entity_rows : list Entities.row :=
  flat_map (fun page =>
              map (fun '(entity_type, entity_text, normalized_value) =>
                     Entities.Row (gid_of (Page.page_no page)) entity_type
                       entity_text normalized_value 0.95%pyfloat None None)
                  (Page.entities page))
           PAGES.

Definition leann_meta_rows (n : nat) : list LeannMeta.row :=
  map (fun '(k, page) =>
         LeannMeta.Row (gid_of (Page.page_no page)) model_id "page" None DOC_ID
           (Page.page_no page) 384 "float32" (content_sha_of page) "native"
           "unicode-nfkc" (isoformat (now (k + n))) 0)
      (enumerate PAGES).

Definition leann_vec_rows (n : nat) : list LeannVec.row :=
  map (fun '(k, page) =>
         LeannVec.Row (gid_of (Page.page_no page)) model_id
           (embedding (Page.full_text page)) (isoformat (now (k + n))))
      (enumerate PAGES).

Definition neighbor_rows : list LeannNeighbors.row :=
  map (fun '(from_page, to_page, pred, weight) =>
         LeannNeighbors.Row (gid_of from_page) (gid_of to_page) weight
                            ("graph-" ++ pred))
      EDGES.

Definition receipt_rows (n : nat) : list GlyphReceipts.row :=
  map (fun '(k, page) =>
         GlyphReceipts.Row (gid_of (Page.page_no page)) (content_sha_of page) SIGNER
           ("ed25519:mock_sig_" ++
            substring 0 32
              (sha256_hexdigest
                 (encode (gid_of (Page.page_no page) ++ content_sha_of page))))
           (isoformat (now (1 + k + n))) (isoformat (now n)) CHECKPOINT_ROOT None
           (Json.dumps (Json.List [Json.Str "ipfs:QmDemo123"])))
      (enumerate PAGES).

Definition committed : database :=
  Database
    (page_rows 0 ++ [ledger_file_row 8])%list
    [ledger_block_row 10]
    [checkpoint_row 11]
    [key_row 13]
    node_rows
    (edge_rows 14)
    (meta_rows 25)
    fts_rows
    entity_rows
    (leann_meta_rows 33)
    (leann_vec_rows 41)
    neighbor_rows
    (receipt_rows 49)
    (len PAGES).

End Rows.

(** The generator after the script's last call of mock_vector_384d. *)
Definition rng_after_vectors (s : Random.state) : Random.state :=
  fold_left (fun s page => snd (mock_vector_384d (Page.full_text page) s)) PAGES s.

(** ** Predicates the properties are stated with *)

(** [below x k]: the magnitude of the float [x] is less than [2^k]. *)
Definition below (x : PyFloat.float) (k : Z) : Prop :=
  PyFloat.expo x <= k /\ Z.abs (PyFloat.mant x) < 2 ^ (k - PyFloat.expo x).

(** [0 <= x <= 1] on floats. *)
Definition in_unit_interval (x : PyFloat.float) : Prop :=
  PyFloat.leb (PyFloat.of_int 0) x = true /\ PyFloat.leb x (PyFloat.of_int 1) = true.

(** No two items of the list are equal under [eqb]. *)
Fixpoint distinct {K} (eqb : K -> K -> bool) (l : list K) : bool :=
  match l with
  | [] => true
  | x :: l' => negb (existsb (eqb x) l') && distinct eqb l'
  end.

(** The rows of the archive whose name starts with [p]. *)
Definition named_with_prefix (p : string) (rows : list Sqlar.row) : list Sqlar.row :=
  filter (fun r => String.prefix p (Sqlar.name r)) rows.

(** The string under key [k] of a JSON object. *)
Definition field (k : string) (v : Json.value) : option string :=
  match v with
  | Json.Dict items =>
      match Json.get k items with
      | Some (Json.Str s) => Some s
      | _ => None
      end
  | _ => None
  end.

(** ** The ledger design of the specification, to compare the rows with *)

(** A block id derived from the block: the hash of the previous block id,
    the serialized entries, the timestamp and the signer, concatenated. *)
Definition derived_block_id (prev entries ts signer : string) : string :=
  sha256_hexdigest (encode (prev ++ entries ++ ts ++ signer)).

(** How a Merkle tree hashes: what a leaf holds for a content hash, and
    what a parent holds for its two children. *)
Record merkle_scheme := MerkleScheme {
  leaf_of : string -> string;
  node_of : string -> string -> string
}.

Fixpoint merkle_level (node : string -> string -> string) (hs : list string)
  : list string :=
  match hs with
  | l :: r :: rest => node l r :: merkle_level node rest
  | _ => hs
  end.

(** Levels are paired off until one hash is left; an odd last node moves
    up as it is.  A level halves the list, so [fuel], the number of
    leaves, is enough. *)
Fixpoint merkle_reduce (fuel : nat) (node : string -> string -> string)
  (hs : list string) : string :=
  match hs, fuel with
  | [], _ => sha256_hexdigest []
  | [h], _ => h
  | _, S fuel' => merkle_reduce fuel' node (merkle_level node hs)
  | _, O => ""
  end.

Definition merkle_root_of (scheme : merkle_scheme) (hashes : list string) : string :=
  merkle_reduce (List.length hashes) (node_of scheme) (map (leaf_of scheme) hashes).

Definition unhex (h : string) : bytes :=
  match fromhex h with
  | inr b => b
  | inl _ => []
  end.

(** The usual ways to hash a tree of SHA-256 digests: over the hex text
    or over the digest bytes, the leaves as they are or hashed once more. *)
Definition merkle_schemes : list merkle_scheme := [
  MerkleScheme (fun h => h) (fun l r => sha256_hexdigest (encode (l ++ r)));
  MerkleScheme (fun h => sha256_hexdigest (encode h))
               (fun l r => sha256_hexdigest (encode (l ++ r)));
  MerkleScheme (fun h => h) (fun l r => sha256_hexdigest (unhex l ++ unhex r)%list);
  MerkleScheme (fun h => sha256_hexdigest (unhex h))
               (fun l r => sha256_hexdigest (unhex l ++ unhex r)%list) ].

Fixpoint insert_by_gid (x : string * string) (l : list (string * string))
  : list (string * string) :=
  match l with
  | [] => [x]
  | y :: l' => if String.leb (fst x) (fst y) then x :: l else y :: insert_by_gid x l'
  end.

Definition sort_by_gid (l : list (string * string)) : list (string * string) :=
  fold_right insert_by_gid [] l.

(** The leaves of a checkpoint: the content hashes of the current items,
    in the order of their gids. *)
Definition checkpoint_leaves (d : database) : list string :=
  map snd (sort_by_gid
             (map (fun r => (LeannMeta.gid r, LeannMeta.content_sha r)) (leann_meta d))).

(** A hint row restates an edge: its endpoints are the gids the node
    index gives the edge's pages, its score the weight, its reason the
    predicate behind [graph-]. *)
Definition hint_of_edge (nodes : list NodeIndex.row) (e : Edges.row)
  (h : LeannNeighbors.row) : Prop :=
  (exists n, In n nodes /\ NodeIndex.page_no n = Edges.fromNode e
             /\ NodeIndex.gid n = LeannNeighbors.gid h) /\
  (exists n, In n nodes /\ NodeIndex.page_no n = Edges.toNode e
             /\ NodeIndex.gid n = LeannNeighbors.neighbor h) /\
  Edges.weight e = LeannNeighbors.score h /\
  "graph-" ++ Edges.pred e = LeannNeighbors.reason h.

(** A clock for examples: 2023-11-14T22:13:20.123456 UTC, a millisecond
    between reads. *)
Definition example_clock : nat -> Datetime.t := ticking_clock 1700000000123456 1000.

(** ** Proof steps used more than once *)

(** Runs a stage on a world whose table [H] describes. *)
Ltac run_on d H :=
  destruct d; simpl in H; subst; vm_compute; reflexivity.

(** Opens a statement about the committed database with the database
    [final], which [run_lemma] shows the run to commit. *)
Ltac committed_rows run_lemma final :=
  exists final; split; [apply run_lemma|];
  unfold committed;
  cbn [sqlar ledger_blocks checkpoints keys node_index edges meta_index meta_fts
       entities leann_meta leann_vec leann_neighbors glyph_receipts].

(** ** What mock_vector_384d packs *)

(** The bit patterns of packed float32 values, as
    [struct.unpack('<' + 'I' * n, b)] reads them. *)
Fixpoint float32_words (b : bytes) : list Z :=
  match b with
  | b0 :: b1 :: b2 :: b3 :: rest =>
      (Z_of_byte b0 + 256 * Z_of_byte b1 + 65536 * Z_of_byte b2
       + 16777216 * Z_of_byte b3) :: float32_words rest
  | _ => []
  end.

(** A binary32 bit pattern whose magnitude is at most 1.0 (0x3f800000). *)
Definition at_most_one (bits : Z) : Prop :=
  0 <= bits < 2 ^ 32 /\ Z.land bits 0x7fffffff <= 0x3f800000.

(** The number a binary32 bit pattern stands for, as
    [struct.unpack('<f', ...)] reads it (an exponent field below 255). *)
Definition binary32_value (bits : Z) : PyFloat.float :=
  let sign := if Z.testbit bits 31 then -1 else 1 in
  let exponent := Z.land (Z.shiftr bits 23) 255 in
  let fraction := Z.land bits 0x7fffff in
  if exponent =? 0 then PyFloat.Float (sign * fraction) (-149)
  else PyFloat.Float (sign * (0x800000 + fraction)) (exponent - 150).

(** [-1 <= x <= 1] on floats. *)
Definition within_unit (x : PyFloat.float) : Prop :=
  PyFloat.leb (PyFloat.of_int (-1)) x = true /\
  PyFloat.leb x (PyFloat.of_int 1) = true.

(** What random.uniform(-1, 1) computes: a multiple of 2^-53 or of 2^-52
    of magnitude at most 1. *)
Definition unit_form (x : PyFloat.float) : Prop :=
  (PyFloat.expo x = -53 \/ PyFloat.expo x = -52) /\
  Z.abs (PyFloat.mant x) <= 2 ^ (- PyFloat.expo x).

(** ** The script on a file that is not fresh *)

(** [l'] is [l] with rows appended. *)
Definition prefix_of {A} (l l' : list A) : Prop :=
  exists extra, l' = (l ++ extra)%list.

(** Every table with keys in [d'] starts with the rows of the same table
    of [d], in their order, and sqlite_sequence has not gone back. *)
Definition grows (d d' : database) : Prop :=
  prefix_of (sqlar d) (sqlar d') /\
  prefix_of (ledger_blocks d) (ledger_blocks d') /\
  prefix_of (checkpoints d) (checkpoints d') /\
  prefix_of (keys d) (keys d') /\
  prefix_of (node_index d) (node_index d') /\
  prefix_of (edges d) (edges d') /\
  prefix_of (meta_index d) (meta_index d') /\
  prefix_of (entities d) (entities d') /\
  prefix_of (leann_meta d) (leann_meta d') /\
  prefix_of (leann_vec d) (leann_vec d') /\
  prefix_of (leann_neighbors d) (leann_neighbors d') /\
  prefix_of (glyph_receipts d) (glyph_receipts d') /\
  node_index_seq d <= node_index_seq d'.

(** [returns c R]: whenever [c] returns, the database it leaves is related
    by [R] to the database it started on. *)
Definition returns {A} (c : M A) (R : database -> database -> Prop) : Prop :=
  forall w a w', c w = inr (a, w') -> R (conn w) (conn w').

(** [ids] go up from each to the next. *)
Fixpoint increasing (ids : list Z) : bool :=
  match ids with
  | [] => true
  | id :: ids' =>
      match ids' with
      | [] => true
      | id' :: _ => (id <? id') && increasing ids'
      end
  end.

(** What the statements about a file ask of it: meta_index is listed by
    rowid, as a table is; the full-text index holds the documents of
    meta_index, no more and no other; and meta_index has rowids left for
    the pages below 2^63, where SQLite stops counting up. *)
Definition kept_file (file : database) : Prop :=
  increasing (map MetaIndex.rowid (meta_index file)) = true /\
  meta_fts file = map fts_row_of (meta_index file) /\
  largest_rowid (map MetaIndex.rowid (meta_index file)) + len PAGES <= MAX_ROWID.

(** The id AUTOINCREMENT counts on from in [file]. *)
Definition node_base (file : database) : Z :=
  Z.max (largest_rowid (map NodeIndex.node_id (node_index file)))
        (node_index_seq file).

(** The rowid meta_index counts on from in [file]. *)
Definition meta_base (file : database) : Z :=
  largest_rowid (map MetaIndex.rowid (meta_index file)).

(** The node_index row [r] with its node_id moved up by [base]. *)
Definition renumber (base : Z) (r : NodeIndex.row) : NodeIndex.row :=
  NodeIndex.Row (base + NodeIndex.node_id r) (NodeIndex.gid r)
                (NodeIndex.doc_id r) (NodeIndex.page_no r).

(** The meta_index row [r] with its rowid moved up by [base]. *)
Definition renumber_meta (base : Z) (r : MetaIndex.row) : MetaIndex.row :=
  MetaIndex.Row (base + MetaIndex.rowid r) (MetaIndex.gid r) (MetaIndex.doc_id r)
                (MetaIndex.page_no r) (MetaIndex.title r) (MetaIndex.tags r)
                (MetaIndex.entities r) (MetaIndex.full_text r)
                (MetaIndex.updated_ts r).

(** The hint [r] has a key that [rows] lacks: INSERT OR IGNORE stores it. *)
Definition is_new_hint (rows : list LeannNeighbors.row) (r : LeannNeighbors.row)
  : bool :=
  match leann_neighbors_pk r rows with
  | None => true
  | Some _ => false
  end.

(** The seq of sqlite_sequence after the nodes of [d0] went into [file]:
    the last id given, or what it was when there was none to give. *)
Definition seq_after (file d0 : database) : Z :=
  match node_index d0 with
  | [] => node_index_seq file
  | _ => node_base file + node_index_seq d0
  end.

(** [file] with the rows [d0] of a run on a fresh file added, as a run on
    [file] adds them: appended table by table; the nodes and the rows of
    meta_index numbered on from the file's, by AUTOINCREMENT and by rowid;
    the hints without those whose key the file has, which INSERT OR
    IGNORE skips; and in the full-text index the documents of the whole
    of meta_index, the file's rows too. *)
Definition with_rows (file d0 : database) : database :=
  let meta :=
    (meta_index file ++ map (renumber_meta (meta_base file)) (meta_index d0))%list in
  Database
    (sqlar file ++ sqlar d0)
    (ledger_blocks file ++ ledger_blocks d0)
    (checkpoints file ++ checkpoints d0)
    (keys file ++ keys d0)
    (node_index file ++ map (renumber (node_base file)) (node_index d0))
    (edges file ++ edges d0)
    meta
    (map fts_row_of meta)
    (entities file ++ entities d0)
    (leann_meta file ++ leann_meta d0)
    (leann_vec file ++ leann_vec d0)
    (leann_neighbors file
     ++ filter (is_new_hint (leann_neighbors file)) (leann_neighbors d0))
    (glyph_receipts file ++ glyph_receipts d0)
    (seq_after file d0).

(** Some row of [new] violates the constraint against [rows]. *)
Definition taken {T} (violated : T -> list T -> option string) (rows new : list T)
  : bool :=
  existsb (fun r => match violated r rows with Some _ => true | None => false end) new.

(** A key of [d0] is already in [file]. *)
Definition clashes (file d0 : database) : bool :=
  taken sqlar_pk (sqlar file) (sqlar d0)
  || taken ledger_blocks_pk (ledger_blocks file) (ledger_blocks d0)
  || taken checkpoints_pk (checkpoints file) (checkpoints d0)
  || taken keys_pk (keys file) (keys d0)
  || taken node_index_unique (node_index file) (node_index d0)
  || taken edges_pk (edges file) (edges d0)
  || taken meta_index_pk (meta_index file) (meta_index d0)
  || taken entities_pk (entities file) (entities d0)
  || taken leann_meta_constraints (leann_meta file) (leann_meta d0)
  || taken leann_vec_pk (leann_vec file) (leann_vec d0)
  || taken glyph_receipts_pk (glyph_receipts file) (glyph_receipts d0).

(** [file] has no node ids left for the nodes of [d0], which a run on a
    fresh file numbers from 1 to its seq. *)
Definition out_of_node_ids (file d0 : database) : bool :=
  MAX_ROWID <? node_base file + node_index_seq d0.

(** What stops a run on [file] that would add the rows of [d0]. *)
Definition obstructed (file d0 : database) : bool :=
  clashes file d0 || out_of_node_ids file d0.

(** ** The two runs side by side *)

(** Table by table, [d] is [file] followed by the rows of [d0], numbered
    on from the file's where [d0] numbers from 1.  The full-text table is
    apart. *)
Definition same_tables (file d0 d : database) : Prop :=
  sqlar d = (sqlar file ++ sqlar d0)%list /\
  ledger_blocks d = (ledger_blocks file ++ ledger_blocks d0)%list /\
  checkpoints d = (checkpoints file ++ checkpoints d0)%list /\
  keys d = (keys file ++ keys d0)%list /\
  node_index d
  = (node_index file ++ map (renumber (node_base file)) (node_index d0))%list /\
  edges d = (edges file ++ edges d0)%list /\
  meta_index d
  = (meta_index file ++ map (renumber_meta (meta_base file)) (meta_index d0))%list /\
  entities d = (entities file ++ entities d0)%list /\
  leann_meta d = (leann_meta file ++ leann_meta d0)%list /\
  leann_vec d = (leann_vec file ++ leann_vec d0)%list /\
  leann_neighbors d
  = (leann_neighbors file
     ++ filter (is_new_hint (leann_neighbors file)) (leann_neighbors d0))%list /\
  glyph_receipts d = (glyph_receipts file ++ glyph_receipts d0)%list /\
  node_index_seq d = seq_after file d0 /\
  node_base d = node_base file + node_index_seq d0 /\
  largest_rowid (map NodeIndex.node_id (node_index d0)) <= node_index_seq d0 /\
  meta_base d = meta_base file + meta_base d0.

(** Two runs at the same point of the script: the same clock reads and
    generator, and databases related by [S]. *)
Definition agree (S : database -> database -> Prop) (w w0 : world) : Prop :=
  S (conn w) (conn w0) /\ clock_reads w = clock_reads w0 /\ rng w = rng w0.

(** [c] run on the file follows [c] run on the fresh file: it returns the
    same value in an agreeing state, or it raises and the file is
    obstructed. *)
Definition tracks (file : database) (S S' : database -> database -> Prop)
  {A} (c : M A) : Prop :=
  returns c grows /\
  forall w w0 a w0',
    agree S w w0 -> c w0 = inr (a, w0') ->
    (exists w', c w = inr (a, w') /\ agree S' w' w0') \/
    (exists e, c w = inl e /\ obstructed file (conn w0') = true).

Definition along (file : database) (F : database -> database -> Prop)
  (d d0 : database) : Prop :=
  same_tables file d0 d /\ F d d0.

(** The full-text table before and after it is populated. *)
Definition before_fts (file d d0 : database) : Prop :=
  meta_fts d = meta_fts file /\
  increasing (map MetaIndex.rowid (meta_index d)) = true.

Definition after_fts (file d d0 : database) : Prop :=
  meta_fts d = map fts_row_of (meta_index d).

Ltac on_tables :=
  cbn [sqlar ledger_blocks checkpoints keys node_index edges meta_index meta_fts
       entities leann_meta leann_vec leann_neighbors glyph_receipts node_index_seq
       set_sqlar set_ledger_blocks set_checkpoints set_keys set_node_index
       set_edges set_meta_index set_meta_fts set_entities set_leann_meta
       set_leann_vec set_leann_neighbors set_glyph_receipts set_node_index_seq].

(** A table gained rows: the database grew. *)
Ltac table_grows :=
  unfold grows; on_tables; repeat split; unfold prefix_of;
  first [eexists; reflexivity | exists []; symmetry; apply app_nil_r | lia].

(** [same_tables] after the same row went into one table of both
    databases. *)
Ltac same_tables_step H :=
  unfold same_tables, node_base, meta_base, seq_after in H |- *; on_tables;
  decompose [and] H; repeat split; try assumption;
  rewrite app_assoc; congruence.

(** Comparisons of integers, by cases. *)
Ltac leb_cases :=
  repeat match goal with
         | |- context [?a <=? ?b] => destruct (Z.leb_spec a b)
         | |- context [?a <? ?b] => destruct (Z.ltb_spec a b)
         | |- context [?a =? ?b] => destruct (Z.eqb_spec a b)
         end;
  cbn [andb orb negb]; first [reflexivity | lia | discriminate].

(** ** Files and numbers for examples *)

(** A file that is not fresh: it holds another document's archive entry
    and node, whose node_id is 7, and already has the hint from page 1 to
    page 2 of this document. *)
Definition other_file : database :=
  Database
    [Sqlar.Row "notes/readme.txt" 33188 1700000000 5 (bytes_literal "hello")]
    [] [] []
    [NodeIndex.Row 7 "sha256:other#p1" "sha256:other" 1]
    [] [] [] [] [] []
    [LeannNeighbors.Row (DOC_ID ++ "#p1") (DOC_ID ++ "#p2") 0.5%pyfloat "manual"]
    []
    7.

(** A file whose nodes were deleted after node 7 was stored, and which
    holds another document's metadata under rowid 3, indexed. *)
Definition used_file : database :=
  let meta :=
    MetaIndex.Row 3 "sha256:other#p1" "sha256:other" 1 "Notes" "notes" "[]"
                  "hello world" "2023-01-01T00:00:00+00:00" in
  Database [] [] [] [] [] [] [meta] [fts_row_of meta] [] [] [] [] [] 7.

(** The numbers of the closing summary: [len(PAGES)],
    [sum(len(p['entities']) for p in PAGES)] and [len(EDGES)]. *)
Definition summary : Z * Z * Z :=
  (len PAGES,
   fold_left Z.add (map (fun p => len (Page.entities p)) PAGES) 0,
   len EDGES).

(** * The library models, checked against CPython's answers *)

Example sha256_constants :
  (List.length Sha256.primes, last Sha256.primes 0,
   firstn 2 Sha256.K, last Sha256.K 0, Sha256.ra Sha256.H0, Sha256.rh Sha256.H0)
  = (64%nat, 311, [0x428a2f98; 0x71374491], 0xc67178f2, 0x6a09e667, 0x5be0cd19).
Proof. vm_compute. reflexivity. Qed.

Example sha256_abc :
  Sha256.hexdigest (bytes_literal "abc")
  = "ba7816bf8f01cfea414140de5dae2223b00361a396177a9cb410ff61f20015ad".
Proof. vm_compute. reflexivity. Qed.

Example sha256_empty :
  Sha256.hexdigest []
  = "e3b0c44298fc1c149afbf4c8996fb92427ae41e4649b934ca495991b7852b855".
Proof. vm_compute. reflexivity. Qed.

Example sha256_two_blocks :
  Sha256.hexdigest
    (bytes_literal "abcdbcdecdefdefgefghfghighijhijkijkljklmklmnlmnomnopnopq")
  = "248d6a61d20638b8e5c026930c3e6039a33ce45964ff2167f6ecedd419db06c1".
Proof. vm_compute. reflexivity. Qed.

Example sha256_latin1 :
  Sha256.hexdigest (encode (String (chr 233) (String "t" (String (chr 233) ""))))
  = "bd010c64132bf5cae8aea89f6762515727dcf68a5dd1de813c87f50a16c4513c".
Proof. vm_compute. reflexivity. Qed.

Example float_0_9 :
  PyFloat.normal_form (PyFloat.literal 9 1) = (0x1ccccccccccccd, -53).
Proof. vm_compute. reflexivity. Qed.

Example float_0_85 :
  PyFloat.normal_form (PyFloat.literal 85 2) = (0x1b333333333333, -53).
Proof. vm_compute. reflexivity. Qed.

Example float_0_95 :
  PyFloat.normal_form (PyFloat.literal 95 2) = (0x1e666666666666, -53).
Proof. vm_compute. reflexivity. Qed.

Example seed_5_words :
  let s := Random.seed 5 (Random.State [] 0) in
  (firstn 4 (Random.mt s), skipn 622 (Random.mt s), Random.index s)
  = ([2147483648; 2796186638; 190942503; 2897782440],
     [1081306312; 957143377], 624%nat).
Proof. vm_compute. reflexivity. Qed.

Example seed_5_output :
  let s0 := Random.seed 5 (Random.State [] 0) in
  let '(y1, s1) := Random.genrand_uint32 s0 in
  let '(y2, s2) := Random.genrand_uint32 s1 in
  let '(y3, _) := Random.genrand_uint32 s2 in
  [y1; y2; y3] = [2675342405; 1097127993; 3185950873].
Proof. vm_compute. reflexivity. Qed.

Example seed_wide_output :
  let s0 := Random.seed (2 ^ 40 + 7) (Random.State [] 0) in
  let '(y1, s1) := Random.genrand_uint32 s0 in
  let '(y2, s2) := Random.genrand_uint32 s1 in
  let '(y3, _) := Random.genrand_uint32 s2 in
  [y1; y2; y3] = [2635837658; 3209733218; 3500038837].
Proof. vm_compute. reflexivity. Qed.

Example mock_vector_abc :
  let '(r, _) := mock_vector_384d "abc" (Random.State [] 0) in
  match r with
  | inr v => (Sha256.hex (firstn 12 v), Sha256.hex (skipn 1528 v), Sha256.hexdigest v, len v)
  | inl _ => ("", "", "", 0)
  end
  = ("a4f2563f66a3b83ed34d203e", "964df3bee43346bf",
     "1b7cf622c140504c0e39622304985f04e554958488ab5f4863a7b9488de3af9a", 1536).
Proof. vm_compute. reflexivity. Qed.

Example mock_vector_latin1 :
  let '(r, _) := mock_vector_384d (String (chr 233) (String "t" (String (chr 233) "")))
                   (Random.State [] 0) in
  match r with
  | inr v => Sha256.hexdigest v
  | inl _ => ""
  end
  = "32854e3a5834163048e2a72685b4a24b66d2eaddc4afecdf4a25e8a240150324".
Proof. vm_compute. reflexivity. Qed.

Example doc_id_value : DOC_ID = "sha256:memglyph_demo_9352d5a3b7176f62".
Proof. vm_compute. reflexivity. Qed.

Example edge_weights_read :
  map (fun e => PyFloat.normal_form (snd e)) (firstn 5 EDGES)
  = [(0x1ccccccccccccd, -53); (0x1b333333333333, -53); (0x10000000000000, -52);
     (0x1999999999999a, -53); (0x18000000000000, -53)].
Proof. vm_compute. reflexivity. Qed.

Example page_hashes :
  map (fun p => Sha256.hexdigest (encode (Page.full_text p))) PAGES
  = ["6698d40fb3e3eefb5bca77eb3d8ea6102cfa66abd2b427b48b0a62cdc8ab7de6";
     "9e28df920d12ef6fe70a75bda38de262c98ea69fc6fa95b80cc3afdf1ddb7424";
     "d5e7e74a285332784c046a54fd05ec8a6b9c3d11eebfd21150e6a36d503eeec9";
     "9b1c0d0aa4752a2ac4eb3539d707cd8b612ff499f2672d9fe49e384a8d55df5f";
     "5706b449f3b0553c11caad4b8716125732b83b22a4448c9a6f330c087b9fa311";
     "ab775e868492d8ad5098156d3947795fd5a4bb6c99939bb5a349335bc26c6de5";
     "0c1c50b4bc60b8e7a341c337274d6605d9b41dfeaf52b936599c12bdcda44479";
     "4385d96fd59e6bdbf833c90a361fb56d50397949e14407b3b066ac13b7fa0525"].
Proof. vm_compute. reflexivity. Qed.

Example isoformat_values :
  map Datetime.isoformat
      [1700000000123456; 1700000000000000; 0; 951782400000001;
       4102444799999999; 1709251199000500]
  = ["2023-11-14T22:13:20.123456+00:00"; "2023-11-14T22:13:20+00:00";
     "1970-01-01T00:00:00+00:00"; "2000-02-29T00:00:00.000001+00:00";
     "2099-12-31T23:59:59.999999+00:00"; "2024-02-29T23:59:59.000500+00:00"].
Proof. vm_compute. reflexivity. Qed.

Example timestamp_values :
  map (fun dt => (PyFloat.normal_form (Datetime.timestamp dt),
                  int_of_float (Datetime.timestamp dt)))
      [1700000000123456; 4102444799999999; -1]
  = [((0x1954fc4007e6b4, -22), 1700000000);
     ((0x1e90cadffffffe, -21), 4102444799);
     ((- 0x10c6f7a0b5ed8d, -72), 0)].
Proof. vm_compute. reflexivity. Qed.

Example json_dumps_escapes :
  Json.dumps (Json.Dict [
    ("a" ++ quote ++ "b" ++ backslash ++ "c",
     Json.List [Json.Str ("x" ++ newline ++ "y");
                Json.Str (String (chr 127) (String (chr 233) (String (chr 1) (String (chr 9) ""))))]);
    ("k", Json.Dict []) ])
  = "{" ++ quote ++ "a" ++ backslash ++ quote ++ "b" ++ backslash ++ backslash ++ "c"
    ++ quote ++ ": [" ++ quote ++ "x" ++ backslash ++ "ny" ++ quote ++ ", "
    ++ quote ++ backslash ++ "u007f" ++ backslash ++ "u00e9" ++ backslash ++ "u0001"
    ++ backslash ++ "t" ++ quote ++ "], " ++ quote ++ "k" ++ quote ++ ": {}}".
Proof. vm_compute. reflexivity. Qed.

Example format_values :
  (map format_04d [7; -7; 12345; 0; -12345; 123], map str [-45; 0; 1000])
  = (["0007"; "-007"; "12345"; "0000"; "-12345"; "0123"], ["-45"; "0"; "1000"]).
Proof. vm_compute. reflexivity. Qed.

Example int16_values :
  (int16 "00ff", int16 "ABCDEF01", int16 "", int16 "12g4")
  = (inr 255, inr 2882400001, inl ValueError, inl ValueError).
Proof. vm_compute. reflexivity. Qed.

Example getitem_values :
  (getitem [10; 20; 30] 0, getitem [10; 20; 30] (-1), getitem [10; 20; 30] 3,
   getitem [10; 20; 30] (-4))
  = (inr 10, inr 30, inl IndexError, inl IndexError).
Proof. vm_compute. reflexivity. Qed.

Example png_data_value :
  (len PNG_DATA, Sha256.hex (firstn 8 PNG_DATA), sha256_hexdigest PNG_DATA)
  = (67, "89504e470d0a1a0a",
     "a53ff1af8b1f63a9632fc73d108c1ec953424880f203a6c7eaabe6869701d6e7").
Proof. vm_compute. reflexivity. Qed.

(** struct.unpack('<f', ...): 1.0, -0.5, the float32 nearest to 0.1 that
    struct.pack('<f', 0.1) gives (cd cc cc 3d), and the smallest
    subnormal. *)
Example binary32_values :
  (binary32_value 0x3f800000, binary32_value 0xbf000000,
   binary32_value 0x3dcccccd, binary32_value 1)
  = (PyFloat.Float 8388608 (-23), PyFloat.Float (-8388608) (-24),
     PyFloat.Float 13421773 (-27), PyFloat.Float 1 (-149)).
Proof. vm_compute. reflexivity. Qed.

Example pack_then_unpack :
  (pack_f 0.1%pyfloat, float32_words (le_bytes 4 0x3dcccccd))
  = (inr (le_bytes 4 0x3dcccccd), [0x3dcccccd]).
Proof. vm_compute. reflexivity. Qed.

(** * What the script writes, stage by stage *)

Section Stages.

Variable datetime : Type.
Variable isoformat : datetime -> string.
Variable timestamp : datetime -> PyFloat.float.
Variable now : nat -> datetime.

Lemma add_pages_to_sqlar_writes d n r :
  sqlar d = [] ->
  add_pages_to_sqlar datetime timestamp now (World d n r)
  = inr (tt, World (set_sqlar (page_rows datetime timestamp now n) d) (8 + n) r).
Proof. intros H. run_on d H. Qed.

Lemma add_ledger_file_writes d n r :
  sqlar d = page_rows datetime timestamp now 0 ->
  add_ledger_file datetime isoformat timestamp now (World d n r)
  = inr (tt, World (set_sqlar (page_rows datetime timestamp now 0
                               ++ [ledger_file_row datetime isoformat timestamp now n])%list d)
                   (2 + n) r).
Proof. intros H. run_on d H. Qed.

Lemma add_ledger_block_writes d n r :
  ledger_blocks d = [] ->
  add_ledger_block datetime isoformat now (World d n r)
  = inr (tt, World (set_ledger_blocks [ledger_block_row datetime isoformat now n] d)
                   (1 + n) r).
Proof. intros H. run_on d H. Qed.

Lemma add_checkpoint_writes d n r :
  checkpoints d = [] ->
  add_checkpoint datetime isoformat now (World d n r)
  = inr (tt, World (set_checkpoints [checkpoint_row datetime isoformat now n] d)
                   (2 + n) r).
Proof. intros H. run_on d H. Qed.

Lemma add_key_writes d n r :
  keys d = [] ->
  add_key datetime isoformat now (World d n r)
  = inr (tt, World (set_keys [key_row datetime isoformat now n] d) (1 + n) r).
Proof. intros H. run_on d H. Qed.

Lemma insert_nodes_writes d n r :
  node_index d = [] -> node_index_seq d = 0 ->
  insert_nodes (World d n r)
  = inr (tt, World (set_node_index_seq (len PAGES) (set_node_index node_rows d)) n r).
Proof. intros H H'. destruct d; simpl in H, H'; subst; vm_compute; reflexivity. Qed.

Lemma insert_all_edges_writes d n r :
  edges d = [] ->
  insert_all_edges datetime isoformat now (World d n r)
  = inr (tt, World (set_edges (edge_rows datetime isoformat now n) d) (11 + n) r).
Proof. intros H. run_on d H. Qed.

Lemma insert_metadata_writes d n r :
  meta_index d = [] ->
  insert_metadata datetime isoformat now (World d n r)
  = inr (tt, World (set_meta_index (meta_rows datetime isoformat now n) d) (8 + n) r).
Proof. intros H. run_on d H. Qed.

Lemma populate_meta_fts_writes d n r k :
  meta_index d = meta_rows datetime isoformat now k ->
  meta_fts d = [] ->
  populate_meta_fts (World d n r) = inr (tt, World (set_meta_fts fts_rows d) n r).
Proof. intros H H'. destruct d; simpl in H, H'; subst; vm_compute; reflexivity. Qed.

Lemma insert_all_entities_writes d n r :
  entities d = [] ->
  insert_all_entities (World d n r) = inr (tt, World (set_entities entity_rows d) n r).
Proof. intros H. run_on d H. Qed.

Lemma insert_leann_metadata_writes d n r :
  leann_meta d = [] ->
  insert_leann_metadata datetime isoformat now (World d n r)
  = inr (tt, World (set_leann_meta (leann_meta_rows datetime isoformat now n) d)
                   (8 + n) r).
Proof. intros H. run_on d H. Qed.

Lemma insert_mock_vectors_writes d n r :
  leann_vec d = [] ->
  insert_mock_vectors datetime isoformat now (World d n r)
  = inr (tt, World (set_leann_vec (leann_vec_rows datetime isoformat now n) d)
                   (8 + n) (rng_after_vectors r)).
Proof. intros H. run_on d H. Qed.

Lemma add_neighbor_hints_writes d n r :
  leann_neighbors d = [] ->
  add_neighbor_hints (World d n r)
  = inr (tt, World (set_leann_neighbors neighbor_rows d) n r).
Proof. intros H. run_on d H. Qed.

Lemma add_receipts_writes d n r :
  glyph_receipts d = [] ->
  add_receipts datetime isoformat now (World d n r)
  = inr (tt, World (set_glyph_receipts (receipt_rows datetime isoformat now n) d)
                   (9 + n) r).
Proof. intros H. run_on d H. Qed.

(** The script runs to its end on a fresh file, whatever the clock and
    the generator's state, and commits the rows of [committed]. *)
Lemma create_capsule_commits r :
  create_capsule datetime isoformat timestamp now empty_database r
  = inr (committed datetime isoformat timestamp now).
Proof.
  unfold create_capsule, script, bind.
  rewrite add_pages_to_sqlar_writes by reflexivity.
  rewrite add_ledger_file_writes by reflexivity.
  rewrite add_ledger_block_writes by reflexivity.
  rewrite add_checkpoint_writes by reflexivity.
  rewrite add_key_writes by reflexivity.
  rewrite insert_nodes_writes by reflexivity.
  rewrite insert_all_edges_writes by reflexivity.
  rewrite insert_metadata_writes by reflexivity.
  rewrite populate_meta_fts_writes with (k := 25%nat) by reflexivity.
  rewrite insert_all_entities_writes by reflexivity.
  rewrite insert_leann_metadata_writes by reflexivity.
  rewrite insert_mock_vectors_writes by reflexivity.
  rewrite add_neighbor_hints_writes by reflexivity.
  rewrite add_receipts_writes by reflexivity.
  reflexivity.
Qed.

End Stages.

(** * Floats: magnitude bounds *)

Module PyFloatFacts.

Import PyFloat.



Lemma below_mono x k k' : below x k -> k <= k' -> below x k'.
Proof.
  intros [He Hm] Hk. split; [lia|].
  eapply Z.lt_le_trans; [exact Hm|].
  apply Z.pow_le_mono_r; lia.
Qed.

Lemma bitlen_bound a k : 0 <= a -> 0 <= k -> a < 2 ^ k -> bitlen a <= k.
Proof.
  intros Ha Hk Hlt. unfold bitlen.
  destruct (Z.eqb_spec a 0) as [->|Hne]; [lia|].
  assert (Z.log2 a < k) by (apply Z.log2_lt_pow2; lia).
  lia.
Qed.

Lemma bitlen_spec a : 0 <= a -> a < 2 ^ bitlen a.
Proof.
  intros Ha. unfold bitlen.
  destruct (Z.eqb_spec a 0) as [->|Hne]; [reflexivity|].
  apply Z.log2_spec; lia.
Qed.

Lemma bitlen_nonneg a : 0 <= bitlen a.
Proof.
  unfold bitlen. destruct (a =? 0); [lia|].
  pose proof (Z.log2_nonneg a). lia.
Qed.

Lemma rne_bounds a s : 0 <= a -> 0 < s -> a / 2 ^ s <= rne a s <= a / 2 ^ s + 1.
Proof.
  intros Ha Hs. unfold rne.
  rewrite Z.shiftr_div_pow2 by lia.
  repeat match goal with |- context [if ?c then _ else _] => destruct c end; lia.
Qed.

Lemma div_pow2_lt a s k : 0 <= a -> 0 <= s -> s <= k -> a < 2 ^ k -> a / 2 ^ s < 2 ^ (k - s).
Proof.
  intros Ha Hs Hk Hlt.
  apply Z.div_lt_upper_bound; [apply Z.pow_pos_nonneg; lia|].
  rewrite <- Z.pow_add_r by lia.
  replace (s + (k - s)) with k by lia. exact Hlt.
Qed.

Lemma round_to_below p x k : 0 < p -> below x k -> below (round_to p x) (k + 1).
Proof.
  intros Hp Hx. unfold round_to.
  set (a := Z.abs (mant x)). set (s := bitlen a - p).
  destruct (Z.leb_spec s 0) as [Hs|Hs].
  - apply below_mono with k; [exact Hx | lia].
  - destruct Hx as [He Hm]. fold a in Hm.
    assert (Ha : 0 <= a) by apply Z.abs_nonneg.
    assert (Hb : bitlen a <= k - expo x) by (apply bitlen_bound; lia).
    pose proof (rne_bounds a s Ha Hs) as [Hlo Hhi].
    assert (Hq : a / 2 ^ s < 2 ^ (k - expo x - s)) by (apply div_pow2_lt; lia).
    assert (0 <= a / 2 ^ s) by (apply Z.div_pos; [lia | apply Z.pow_pos_nonneg; lia]).
    unfold below; cbn [mant expo]. split; [lia|].
    rewrite Z.abs_mul.
    assert (Hsg : Z.abs (Z.sgn (mant x)) <= 1) by (destruct (mant x); cbn; lia).
    assert (Hr : Z.abs (rne a s) = rne a s) by (apply Z.abs_eq; lia).
    rewrite Hr.
    replace (k + 1 - (expo x + s)) with (Z.succ (k - expo x - s)) by lia.
    rewrite Z.pow_succ_r by lia.
    assert (0 < 2 ^ (k - expo x - s)) by (apply Z.pow_pos_nonneg; lia).
    nia.
Qed.

Lemma of_int_below n j : 0 <= j -> Z.abs n < 2 ^ j -> below (of_int n) (j + 1).
Proof.
  intros Hj Hn. apply round_to_below; [lia|].
  split; cbn [mant expo]; [lia|]. now rewrite Z.sub_0_r.
Qed.

Lemma mul_below x y k1 k2 : below x k1 -> below y k2 -> below (mul x y) (k1 + k2 + 1).
Proof.
  intros [Hex Hmx] [Hey Hmy]. apply round_to_below; [lia|].
  split; cbn [mant expo]; [lia|].
  rewrite Z.abs_mul.
  replace (k1 + k2 - (expo x + expo y)) with ((k1 - expo x) + (k2 - expo y)) by lia.
  rewrite Z.pow_add_r by lia.
  apply Z.mul_lt_mono_nonneg; auto using Z.abs_nonneg.
Qed.

Lemma scaled_lt m e e' k :
  e' <= e -> e <= k -> Z.abs m < 2 ^ (k - e) -> Z.abs (m * 2 ^ (e - e')) < 2 ^ (k - e').
Proof.
  intros H1 H2 Hm.
  rewrite Z.abs_mul.
  assert (Hp : 0 < 2 ^ (e - e')) by (apply Z.pow_pos_nonneg; lia).
  rewrite (Z.abs_eq (2 ^ (e - e'))) by lia.
  replace (k - e') with ((k - e) + (e - e')) by lia.
  rewrite Z.pow_add_r by lia.
  apply Z.mul_lt_mono_pos_r; assumption.
Qed.

Lemma add_below x y k : below x k -> below y k -> below (add x y) (k + 2).
Proof.
  intros [Hex Hmx] [Hey Hmy]. unfold add.
  set (e := Z.min (expo x) (expo y)).
  replace (k + 2) with (k + 1 + 1) by lia.
  apply round_to_below; [lia|].
  split; cbn [mant expo]; [lia|].
  pose proof (scaled_lt (mant x) (expo x) e k ltac:(lia) Hex Hmx).
  pose proof (scaled_lt (mant y) (expo y) e k ltac:(lia) Hey Hmy).
  replace (k + 1 - e) with (Z.succ (k - e)) by lia.
  rewrite Z.pow_succ_r by lia.
  lia.
Qed.

(** A float of magnitude below [2^100] has a binary32 neighbour. *)
Lemma to_binary32_some x : below x 100 -> exists bits, to_binary32 x = Some bits.
Proof.
  intros [He Hm]. unfold to_binary32.
  set (a := Z.abs (mant x)) in *.
  destruct (Z.eqb_spec a 0) as [_|Hne]; [eexists; reflexivity|].
  assert (Ha : 0 < a) by (pose proof (Z.abs_nonneg (mant x)); lia).
  assert (Hb : bitlen a <= 100 - expo x) by (apply bitlen_bound; lia).
  pose proof (bitlen_nonneg a) as Hb0.
  pose proof (bitlen_spec a ltac:(lia)) as Hspec.
  set (E := Z.max (bitlen a + expo x - 24) (-149)).
  set (s := E - expo x).
  set (M := if s <=? 0 then a * 2 ^ (- s) else rne a s).
  assert (HM : M <= 2 ^ 24).
  { subst M. destruct (Z.leb_spec s 0) as [Hs|Hs].
    - assert (a * 2 ^ (- s) < 2 ^ (bitlen a) * 2 ^ (- s)).
      { apply Z.mul_lt_mono_pos_r; [apply Z.pow_pos_nonneg; lia | exact Hspec]. }
      rewrite <- Z.pow_add_r in H by lia.
      assert (2 ^ (bitlen a + - s) <= 2 ^ 24) by (apply Z.pow_le_mono_r; lia).
      lia.
    - pose proof (rne_bounds a s ltac:(lia) Hs) as [_ Hhi].
      destruct (Z.le_gt_cases (bitlen a) s) as [Hle|Hgt].
      + assert (a / 2 ^ s = 0).
        { apply Z.div_small. split; [lia|].
          eapply Z.lt_le_trans; [exact Hspec | apply Z.pow_le_mono_r; lia]. }
        lia.
      + assert (a / 2 ^ s < 2 ^ (bitlen a - s)) by (apply div_pow2_lt; lia).
        assert (2 ^ (bitlen a - s) <= 2 ^ 24) by (apply Z.pow_le_mono_r; lia).
        lia. }
  assert (HE : E <= 76) by lia.
  destruct (Z.leb_spec 0x7f800000 ((E + 149) * 2 ^ 23 + M)) as [Hov|_].
  - exfalso. change (2 ^ 24) with 16777216 in HM. change (2 ^ 23) with 8388608 in Hov. lia.
  - eexists; reflexivity.
Qed.

End PyFloatFacts.

(** * mock_vector_384d returns a vector, the same for the same text *)

Module MockVectorFacts.

Import PyFloat PyFloatFacts.

Lemma u32_range x : 0 <= Sha256.u32 x < 2 ^ 32.
Proof.
  unfold Sha256.u32. change 0xffffffff with (Z.ones 32).
  rewrite Z.land_ones by lia. apply Z.mod_pos_bound. lia.
Qed.

Lemma genrand_uint32_range s : 0 <= fst (Random.genrand_uint32 s) < 2 ^ 32.
Proof. unfold Random.genrand_uint32. cbn [fst]. apply u32_range. Qed.

Lemma shiftr_range y n : 0 <= n -> 0 <= y < 2 ^ 32 -> Z.abs (Z.shiftr y n) < 2 ^ 32.
Proof.
  intros Hn [H0 H1].
  rewrite Z.shiftr_div_pow2 by lia.
  assert (Hp : 0 < 2 ^ n) by (apply Z.pow_pos_nonneg; lia).
  assert (0 <= y / 2 ^ n) by (apply Z.div_pos; lia).
  assert (y / 2 ^ n <= y) by (apply Z.div_le_upper_bound; nia).
  lia.
Qed.

Lemma random_below s : below (fst (Random.random s)) 13.
Proof.
  unfold Random.random.
  pose proof (genrand_uint32_range s) as H1.
  destruct (Random.genrand_uint32 s) as [y1 s1]. cbn [fst] in H1.
  pose proof (genrand_uint32_range s1) as H2.
  destruct (Random.genrand_uint32 s1) as [y2 s2]. cbn [fst] in *.
  change 13 with (64 + -52 + 1).
  apply mul_below; [|split; cbn; lia].
  change 64 with (62 + 2).
  apply add_below.
  - change 62 with (33 + 28 + 1).
    apply mul_below.
    + apply (of_int_below _ 32); [lia | apply shiftr_range; lia].
    + apply (of_int_below _ 27); [lia | reflexivity].
  - apply below_mono with 33; [|lia].
    apply (of_int_below _ 32); [lia | apply shiftr_range; lia].
Qed.

Lemma uniform_below s : below (fst (Random.uniform (-1) 1 s)) 19.
Proof.
  unfold Random.uniform.
  pose proof (random_below s) as Hr.
  destruct (Random.random s) as [r s']. cbn [fst] in *.
  change 19 with (17 + 2).
  apply add_below.
  - apply below_mono with 2; [|lia].
    apply (of_int_below _ 1); [lia | reflexivity].
  - change 17 with (3 + 13 + 1).
    apply mul_below; [|exact Hr].
    apply (of_int_below _ 2); [lia | reflexivity].
Qed.

Lemma uniform_list_below n s :
  Forall (fun x => below x 100) (fst (uniform_list n (-1) 1 s))
  /\ List.length (fst (uniform_list n (-1) 1 s)) = n.
Proof.
  revert s. induction n as [|n IH]; intros s; cbn [uniform_list].
  - split; [constructor | reflexivity].
  - pose proof (uniform_below s) as Hx.
    destruct (Random.uniform (-1) 1 s) as [x s1]. cbn [fst] in Hx.
    specialize (IH s1).
    destruct (uniform_list n (-1) 1 s1) as [xs s2]. cbn [fst] in *.
    destruct IH as [IH1 IH2]. split.
    + constructor; [apply below_mono with 19; [exact Hx | lia] | exact IH1].
    + cbn. now rewrite IH2.
Qed.

Lemma pack_f_total x : below x 100 -> exists b, pack_f x = inr b /\ List.length b = 4%nat.
Proof.
  intros Hx. unfold pack_f.
  destruct (to_binary32_some x Hx) as [bits ->].
  eexists; split; reflexivity.
Qed.

Lemma struct_pack_f_total xs :
  Forall (fun x => below x 100) xs ->
  exists v, struct_pack_f xs = inr v /\ List.length v = (4 * List.length xs)%nat.
Proof.
  induction 1 as [|x xs Hx _ IH]; cbn [struct_pack_f].
  - exists []. split; reflexivity.
  - destruct (pack_f_total x Hx) as (b & -> & Hb).
    destruct IH as (v & -> & Hv).
    exists (b ++ v)%list. split; [reflexivity|].
    rewrite length_app, Hb, Hv. cbn [List.length]. lia.
Qed.

Lemma hex_value_hi b :
  hex_value (Sha256.hex_digit (Z.shiftr (Z_of_byte b) 4)) = Some (Z.shiftr (Z_of_byte b) 4).
Proof. destruct b; reflexivity. Qed.

Lemma hex_value_lo b :
  hex_value (Sha256.hex_digit (Z.land (Z_of_byte b) 15)) = Some (Z.land (Z_of_byte b) 15).
Proof. destruct b; reflexivity. Qed.

(** The first eight characters of a hex digest always read as an int. *)
Lemma seed_parses data :
  exists seed, int16 (substring 0 8 (Sha256.hexdigest data)) = inr seed.
Proof.
  unfold Sha256.hexdigest, Sha256.digest.
  set (h := Sha256.blocks _ _ _).
  cbn [Sha256.be_bytes app Sha256.hex substring].
  unfold int16. cbn [int16_from].
  repeat (rewrite hex_value_hi || rewrite hex_value_lo; cbn [int16_from]).
  eexists; reflexivity.
Qed.

End MockVectorFacts.

(** C4. For every input text the embedding function is deterministic:
    two invocations with the same text, whatever the shared generator
    held before each, return the same packed vector (and leave the
    generator in the same state), and that vector always has the fixed
    length of 384 float32 values, 1536 bytes. *)
Theorem mock_vector_384d_deterministic (text : string) (s1 s2 : Random.state) :
  mock_vector_384d text s1 = mock_vector_384d text s2
  /\ exists v, fst (mock_vector_384d text s1) = inr v /\ len v = 1536.
Proof.
  unfold mock_vector_384d.
  destruct (MockVectorFacts.seed_parses (encode text)) as [seed ->].
  split; [reflexivity|].
  unfold Random.seed at 1.
  set (s := Random.init_by_array _).
  destruct (MockVectorFacts.uniform_list_below 384 s) as [Hb Hl].
  destruct (uniform_list 384 (-1) 1 s) as [vector s']. cbn [fst] in *.
  destruct (MockVectorFacts.struct_pack_f_total vector Hb) as (v & Hv & Hlen).
  exists v. split; [exact Hv|].
  unfold len. rewrite Hlen, Hl. reflexivity.
Qed.

(** * Facts about lists, tables and digests *)

Lemma in_enumerate {A} (l : list A) k x : In (k, x) (enumerate l) -> In x l.
Proof. unfold enumerate. apply in_combine_r. Qed.

Lemma enumerate_covers {A} (l : list A) x : In x l -> exists k, In (k, x) (enumerate l).
Proof.
  unfold enumerate. generalize 0%nat.
  induction l as [|y l IH]; intros n Hin; [contradiction|].
  destruct Hin as [->|Hin].
  - exists n. now left.
  - destruct (IH (S n) Hin) as [k Hk]. exists k. now right.
Qed.

Lemma map_enumerate {A B} (f : A -> B) (l : list A) :
  map (fun '(_, x) => f x) (enumerate l) = map f l.
Proof.
  unfold enumerate. generalize 0%nat.
  induction l as [|y l IH]; intros n; [reflexivity|].
  cbn. now rewrite IH.
Qed.

Lemma distinct_NoDup {K} (eqb : K -> K -> bool) (l : list K) :
  (forall x, eqb x x = true) -> distinct eqb l = true -> NoDup l.
Proof.
  intros Hrefl. induction l as [|x l IH]; cbn [distinct]; intros H.
  - constructor.
  - apply andb_prop in H as [Hx Hl]. constructor; [|auto].
    intros Hin. apply negb_true_iff in Hx.
    assert (existsb (eqb x) l = true) by (apply existsb_exists; eauto).
    congruence.
Qed.

Lemma pair_eqb_refl {A B} (fa : A -> A -> bool) (fb : B -> B -> bool) :
  (forall a, fa a a = true) -> (forall b, fb b b = true) ->
  forall x, pair_eqb fa fb x x = true.
Proof. intros Ha Hb [a b]. unfold pair_eqb. cbn. now rewrite Ha, Hb. Qed.

(** A hex digest has 64 characters. *)
Lemma hexdigest_length data : String.length (sha256_hexdigest data) = 64%nat.
Proof.
  unfold sha256_hexdigest, Sha256.hexdigest, Sha256.digest.
  set (h := Sha256.blocks _ _ _).
  cbn [Sha256.be_bytes app Sha256.hex String.length]. reflexivity.
Qed.

Lemma page_numbers : map Page.page_no PAGES = [1; 2; 3; 4; 5; 6; 7; 8].
Proof. reflexivity. Qed.

(** PAGES lists the pages by number: item k (from 0) is page k + 1. *)
Lemma pages_in_order k page :
  In (k, page) (enumerate PAGES) -> Page.page_no page = 1 + Z.of_nat k.
Proof.
  intros Hin. unfold enumerate, PAGES in Hin. cbn [List.length seq combine In] in Hin.
  repeat (destruct Hin as [Hin|Hin]; [inversion Hin; reflexivity|]).
  contradiction.
Qed.

Lemma page_gids_distinct : NoDup (map (fun p => gid_of (Page.page_no p)) PAGES).
Proof.
  apply (distinct_NoDup String.eqb); [apply String.eqb_refl|].
  vm_compute. reflexivity.
Qed.

(** * The rows a run commits *)

Section Properties.

Variable datetime : Type.
Variable isoformat : datetime -> string.
Variable timestamp : datetime -> PyFloat.float.
Variable now : nat -> datetime.
Variable rng0 : Random.state.

Local Abbreviation capsule :=
  (create_capsule datetime isoformat timestamp now empty_database rng0).

(** C9. For every row of the archive table, the stored size [sz] is the
    byte length of the stored [data]. *)
Theorem sqlar_sz_is_data_length :
  exists d, capsule = inr d /\
    forall row, In row (sqlar d) -> Sqlar.sz row = len (Sqlar.data row).
Proof.
  committed_rows create_capsule_commits (committed datetime isoformat timestamp now).
  intros row Hin. apply in_app_or in Hin as [Hin|Hin].
  - unfold page_rows in Hin. apply in_map_iff in Hin as ([k page] & <- & _).
    reflexivity.
  - destruct Hin as [<-|[]]. reflexivity.
Qed.

(** C7. Every entry of the archive table is keyed either by
    glyphs/page_NNNN.<suffix>, NNNN a page's number zero-padded to four
    digits, or by ledger/ledger.log; each page has exactly one entry under
    its glyphs/page_NNNN. prefix. *)
Theorem sqlar_names :
  exists d, capsule = inr d /\
    (forall row, In row (sqlar d) ->
       Sqlar.name row = "ledger/ledger.log" \/
       exists page suffix, In page PAGES /\
         Sqlar.name row
         = "glyphs/page_" ++ format_04d (Page.page_no page) ++ "." ++ suffix) /\
    (forall page, In page PAGES ->
       List.length
         (named_with_prefix ("glyphs/page_" ++ format_04d (Page.page_no page) ++ ".")
                            (sqlar d)) = 1%nat).
Proof.
  committed_rows create_capsule_commits (committed datetime isoformat timestamp now).
  split.
  - intros row Hin. apply in_app_or in Hin as [Hin|Hin].
    + right. unfold page_rows in Hin.
      apply in_map_iff in Hin as ([k page] & <- & Hin).
      exists page, "mgx.png". split; [eapply in_enumerate; eassumption | reflexivity].
    + left. destruct Hin as [<-|[]]. reflexivity.
  - apply Forall_forall. unfold PAGES.
    repeat (constructor; [vm_compute; reflexivity|]). constructor.
Qed.

(** C10. The page-image generator answers every (page_no, title) with
    the same bytes; so all archived page entries hold byte-identical data,
    one SHA-256 content hash, under pairwise distinct paths. *)
Theorem create_mock_png_ignores_its_input :
  (forall page_no title, create_mock_png page_no title = inr PNG_DATA) /\
  exists d, capsule = inr d /\
    (forall page, In page PAGES ->
       exists row, In row (sqlar d) /\
         Sqlar.name row
         = "glyphs/page_" ++ format_04d (Page.page_no page) ++ ".mgx.png" /\
         Sqlar.data row = PNG_DATA /\
         sha256_hexdigest (Sqlar.data row)
         = "a53ff1af8b1f63a9632fc73d108c1ec953424880f203a6c7eaabe6869701d6e7") /\
    NoDup (map Sqlar.name (sqlar d)).
Proof.
  split; [intros; reflexivity|].
  committed_rows create_capsule_commits (committed datetime isoformat timestamp now).
  split.
  - intros page Hin. apply enumerate_covers in Hin as [k Hk].
    eexists. split.
    + apply in_or_app. left. unfold page_rows.
      apply in_map_iff. exists (k, page). split; [reflexivity | exact Hk].
    + cbn [Sqlar.name Sqlar.data].
      split; [reflexivity|]. split; [reflexivity|].
      vm_compute. reflexivity.
  - apply (distinct_NoDup String.eqb); [apply String.eqb_refl|].
    rewrite map_app. unfold page_rows. rewrite map_map.
    vm_compute. reflexivity.
Qed.

(** C5. Every edge row has a weight in the closed interval [0, 1], and
    no two edge rows share their (fromNode, toNode, pred). *)
Theorem edges_weights_and_keys :
  exists d, capsule = inr d /\
    (forall e, In e (edges d) -> in_unit_interval (Edges.weight e)) /\
    NoDup (map (fun e => (Edges.fromNode e, Edges.toNode e, Edges.pred e)) (edges d)).
Proof.
  committed_rows create_capsule_commits (committed datetime isoformat timestamp now).
  split.
  - apply Forall_forall. unfold edge_rows. apply Forall_map.
    unfold enumerate, EDGES. cbn [List.length seq combine].
    repeat (constructor; [split; vm_compute; reflexivity|]). constructor.
  - apply (distinct_NoDup (pair_eqb (pair_eqb Z.eqb Z.eqb) String.eqb)).
    + apply pair_eqb_refl; [apply pair_eqb_refl; apply Z.eqb_refl | apply String.eqb_refl].
    + unfold edge_rows. rewrite map_map. vm_compute. reflexivity.
Qed.


(** C6. Every gid written into node_index, meta_index, entities,
    leann_meta, leann_vec and glyph_receipts is the document id, [#p] and
    a page number in decimal (the row's own doc_id and page_no where the
    table has these columns); and no two rows of one table share their
    key: the gid, with the entity's type and text in entities and with the
    model in leann_meta and leann_vec. *)
Theorem gids_have_the_page_form :
  exists d, capsule = inr d /\
    ((forall r, In r (node_index d) ->
        NodeIndex.gid r = page_gid (NodeIndex.doc_id r) (NodeIndex.page_no r)) /\
     (forall r, In r (meta_index d) ->
        MetaIndex.gid r = page_gid (MetaIndex.doc_id r) (MetaIndex.page_no r)) /\
     (forall r, In r (leann_meta d) ->
        LeannMeta.gid r = page_gid (LeannMeta.doc_id r) (LeannMeta.page_no r)) /\
     (forall r, In r (entities d) ->
        exists page, In page PAGES /\ Entities.gid r = page_gid DOC_ID (Page.page_no page)) /\
     (forall r, In r (leann_vec d) ->
        exists page, In page PAGES /\ LeannVec.gid r = page_gid DOC_ID (Page.page_no page)) /\
     (forall r, In r (glyph_receipts d) ->
        exists page, In page PAGES /\
          GlyphReceipts.gid r = page_gid DOC_ID (Page.page_no page))) /\
    (NoDup (map NodeIndex.gid (node_index d)) /\
     NoDup (map MetaIndex.gid (meta_index d)) /\
     NoDup (map (fun r => (Entities.gid r, Entities.entity_type r, Entities.entity_text r))
                (entities d)) /\
     NoDup (map (fun r => (LeannMeta.gid r, LeannMeta.model_id r)) (leann_meta d)) /\
     NoDup (map (fun r => (LeannVec.gid r, LeannVec.model_id r)) (leann_vec d)) /\
     NoDup (map GlyphReceipts.gid (glyph_receipts d))).
Proof.
  committed_rows create_capsule_commits (committed datetime isoformat timestamp now).
  split; repeat apply conj.
  - intros r Hin. apply in_map_iff in Hin as ([k page] & <- & _). reflexivity.
  - intros r Hin. apply in_map_iff in Hin as ([k page] & <- & _). reflexivity.
  - intros r Hin. apply in_map_iff in Hin as ([k page] & <- & _). reflexivity.
  - intros r Hin. apply in_flat_map in Hin as (page & Hpage & Hin).
    apply in_map_iff in Hin as ([[ty tx] nv] & <- & _).
    exists page. split; [exact Hpage | reflexivity].
  - intros r Hin. apply in_map_iff in Hin as ([k page] & <- & Hin).
    exists page. split; [eapply in_enumerate; eassumption | reflexivity].
  - intros r Hin. apply in_map_iff in Hin as ([k page] & <- & Hin).
    exists page. split; [eapply in_enumerate; eassumption | reflexivity].
  - unfold node_rows. rewrite map_map.
    rewrite (map_ext _ (fun '(_, p) => gid_of (Page.page_no p)))
      by (intros [k p]; reflexivity).
    rewrite (map_enumerate (fun p => gid_of (Page.page_no p))).
    exact page_gids_distinct.
  - unfold meta_rows. rewrite map_map.
    rewrite (map_ext _ (fun '(_, p) => gid_of (Page.page_no p)))
      by (intros [k p]; reflexivity).
    rewrite (map_enumerate (fun p => gid_of (Page.page_no p))).
    exact page_gids_distinct.
  - apply (distinct_NoDup (pair_eqb (pair_eqb String.eqb String.eqb) String.eqb)).
    + apply pair_eqb_refl; [apply pair_eqb_refl|]; apply String.eqb_refl.
    + vm_compute. reflexivity.
  - unfold leann_meta_rows. rewrite map_map.
    rewrite (map_ext _ (fun '(_, p) => (gid_of (Page.page_no p), model_id)))
      by (intros [k p]; reflexivity).
    rewrite (map_enumerate (fun p => (gid_of (Page.page_no p), model_id))).
    apply (distinct_NoDup (pair_eqb String.eqb String.eqb)).
    + apply pair_eqb_refl; apply String.eqb_refl.
    + vm_compute. reflexivity.
  - unfold leann_vec_rows. rewrite map_map.
    rewrite (map_ext _ (fun '(_, p) => (gid_of (Page.page_no p), model_id)))
      by (intros [k p]; reflexivity).
    rewrite (map_enumerate (fun p => (gid_of (Page.page_no p), model_id))).
    apply (distinct_NoDup (pair_eqb String.eqb String.eqb)).
    + apply pair_eqb_refl; apply String.eqb_refl.
    + vm_compute. reflexivity.
  - unfold receipt_rows. rewrite map_map.
    rewrite (map_ext _ (fun '(_, p) => gid_of (Page.page_no p)))
      by (intros [k p]; reflexivity).
    rewrite (map_enumerate (fun p => gid_of (Page.page_no p))).
    exact page_gids_distinct.
Qed.

(** C8, on a fresh output file. The neighbor hints can be rebuilt from
    the edges: every row of leann_neighbors restates some edge row (its
    pages' gids, its weight as the score, its predicate behind graph- as
    the reason), and every edge row is restated by some hint row. *)
Theorem neighbor_hints_mirror_edges :
  exists d, capsule = inr d /\
    (forall h, In h (leann_neighbors d) ->
       exists e, In e (edges d) /\ hint_of_edge (node_index d) e h) /\
    (forall e, In e (edges d) ->
       exists h, In h (leann_neighbors d) /\ hint_of_edge (node_index d) e h).
Proof.
  committed_rows create_capsule_commits (committed datetime isoformat timestamp now).
  assert (Hnode : forall n, In n (map Page.page_no PAGES) ->
            exists r, In r node_rows /\ NodeIndex.page_no r = n
                      /\ NodeIndex.gid r = gid_of n).
  { intros n Hn. apply in_map_iff in Hn as (page & <- & Hpage).
    apply enumerate_covers in Hpage as [k Hk].
    eexists. split; [apply in_map_iff; exists (k, page); split; [reflexivity | exact Hk]|].
    split; reflexivity. }
  assert (Hends : forall f t p w, In (f, t, p, w) EDGES ->
            In f (map Page.page_no PAGES) /\ In t (map Page.page_no PAGES)).
  { intros f t p w Hin. rewrite page_numbers. unfold EDGES in Hin. cbn [In] in Hin.
    repeat (destruct Hin as [Hin|Hin]; [inversion Hin; subst; cbn; tauto|]).
    contradiction. }
  assert (Hrel : forall k f t p w, In (k, (f, t, p, w)) (enumerate EDGES) ->
            hint_of_edge node_rows
              (Edges.Row f t p w (isoformat (now (k + 14))) None)
              (LeannNeighbors.Row (gid_of f) (gid_of t) w ("graph-" ++ p))).
  { intros k f t p w Hin. apply in_enumerate in Hin.
    destruct (Hends f t p w Hin) as [Hf Ht].
    repeat split; [apply Hnode; exact Hf | apply Hnode; exact Ht]. }
  split.
  - intros h Hin. apply in_map_iff in Hin as ([[[f t] p] w] & <- & Hin).
    destruct (enumerate_covers _ _ Hin) as [k Hk].
    eexists. split.
    + apply in_map_iff. exists (k, (f, t, p, w)). split; [reflexivity | exact Hk].
    + apply Hrel. exact Hk.
  - intros e Hin. apply in_map_iff in Hin as ([k [[[f t] p] w]] & <- & Hin).
    eexists. split.
    + apply in_map_iff. exists (f, t, p, w).
      split; [reflexivity | eapply in_enumerate; eassumption].
    + apply Hrel. exact Hin.
Qed.

(** C1, as the script has it. The one ledger block written carries the
    fixed block_id b001, which is the hex digest of nothing (so of no
    concatenation of prev, entries, timestamp and signer); its prev field
    is the sentinel genesis. *)
Theorem ledger_block_is_the_fixed_genesis_block :
  exists d, capsule = inr d /\
    exists b, ledger_blocks d = [b] /\
      LedgerBlocks.block_id b = "b001" /\
      LedgerBlocks.prev b = "genesis" /\
      forall data, LedgerBlocks.block_id b <> sha256_hexdigest data.
Proof.
  committed_rows create_capsule_commits (committed datetime isoformat timestamp now).
  eexists. split; [reflexivity|]. repeat split.
  intros data Heq. apply (f_equal String.length) in Heq.
  rewrite hexdigest_length in Heq. discriminate Heq.
Qed.

(** The part of C3 that holds on every run: each receipt carries the
    merkle_root of the stored checkpoint and, as content_sha, the SHA-256
    hex digest of its page's full text, the same value leann_meta and the
    ledger block's entries record under the same gid. *)
Theorem receipts_agree_on_content_sha :
  exists d, capsule = inr d /\
    forall r, In r (glyph_receipts d) ->
      (forall c, In c (checkpoints d) ->
         GlyphReceipts.merkle_root r = Checkpoints.merkle_root c) /\
      (exists page, In page PAGES /\
         GlyphReceipts.gid r = page_gid DOC_ID (Page.page_no page) /\
         GlyphReceipts.content_sha r = sha256_hexdigest (encode (Page.full_text page))) /\
      (exists m, In m (leann_meta d) /\
         LeannMeta.gid m = GlyphReceipts.gid r /\
         LeannMeta.content_sha m = GlyphReceipts.content_sha r) /\
      (forall b, In b (ledger_blocks d) ->
         exists entries e,
           LedgerBlocks.entries_json b = Json.dumps (Json.List entries) /\
           In e entries /\
           field "gid" e = Some (GlyphReceipts.gid r) /\
           field "content_sha" e = Some (GlyphReceipts.content_sha r)).
Proof.
  committed_rows create_capsule_commits (committed datetime isoformat timestamp now).
  intros r Hin. apply in_map_iff in Hin as ([k page] & <- & Hin).
  cbn [GlyphReceipts.merkle_root GlyphReceipts.gid GlyphReceipts.content_sha].
  repeat apply conj.
  - intros c [<-|[]]. reflexivity.
  - exists page. split; [eapply in_enumerate; eassumption|]. split; reflexivity.
  - eexists. split; [apply in_map_iff; exists (k, page); split; [reflexivity | exact Hin]|].
    split; reflexivity.
  - intros b [<-|[]]. exists block_entries, (entry_of k page).
    split; [reflexivity|]. split.
    + apply in_map_iff. exists (k, page). split; [reflexivity | exact Hin].
    + unfold entry_of, field. cbn [Json.get String.eqb Ascii.eqb Bool.eqb].
      rewrite (pages_in_order k page Hin). split; reflexivity.
Qed.

(** Where the two epochs come from, on every run: the checkpoint's is the
    twelfth reading of the clock, the receipts' the fiftieth. *)
Theorem epochs_are_separate_clock_reads :
  exists d, capsule = inr d /\
    (forall c, In c (checkpoints d) -> Checkpoints.epoch c = isoformat (now 11)) /\
    (forall r, In r (glyph_receipts d) -> GlyphReceipts.epoch r = isoformat (now 49)).
Proof.
  committed_rows create_capsule_commits (committed datetime isoformat timestamp now).
  split.
  - intros c [<-|[]]. reflexivity.
  - intros r Hin. apply in_map_iff in Hin as ([k page] & <- & _). reflexivity.
Qed.

(** The script is not idempotent: on a file that already holds the first
    page's archive entry, the first INSERT raises sqlite3.IntegrityError
    and nothing is committed. *)
Theorem create_capsule_raises_on_its_own_output file :
  In "glyphs/page_0001.mgx.png" (map Sqlar.name (sqlar file)) ->
  create_capsule datetime isoformat timestamp now file rng0
  = inl (IntegrityError "sqlar.name").
Proof.
  intros Hin. apply in_map_iff in Hin as (row & Hname & Hin).
  unfold create_capsule, script, bind at 1 2 3 4 5 6 7 8 9 10 11 12 13.
  unfold add_pages_to_sqlar, PAGES. cbn [for_each].
  unfold bind at 1 2 3. cbn [create_mock_png lift Page.page_no Page.title].
  change (create_mock_png 1 "MemGlyph Universal Specification Overview")
    with (@inr exn bytes PNG_DATA).
  cbn [lift datetime_now_utc conn clock_reads rng].
  unfold bind at 1. cbn [datetime_now_utc].
  unfold insert_sqlar, insert, sqlar_pk, unique. cbn [conn Sqlar.name].
  replace (existsb _ (sqlar file)) with true; [reflexivity|].
  symmetry. apply existsb_exists. exists row. split; [exact Hin|].
  rewrite Hname. reflexivity.
Qed.

End Properties.

(** The script on the real datetime module, a fresh file and a clock. *)
Lemma run_commits clock :
  run clock = inr (committed Datetime.t Datetime.isoformat Datetime.timestamp clock).
Proof. unfold run. apply create_capsule_commits. Qed.

(** C1, counterexample. On the example clock the block's id is not the
    hash of its prev, entries, timestamp and signer. *)
Lemma ledger_block_id_is_not_derived :
  exists d b, run example_clock = inr d /\
    In b (ledger_blocks d) /\
    LedgerBlocks.block_id b
    <> derived_block_id (LedgerBlocks.prev b) (LedgerBlocks.entries_json b)
                        (LedgerBlocks.ts b) (LedgerBlocks.signer b).
Proof.
  eexists. eexists. split; [apply run_commits|].
  unfold committed. cbn [ledger_blocks]. split; [left; reflexivity|].
  cbn [ledger_block_row LedgerBlocks.block_id LedgerBlocks.prev
       LedgerBlocks.entries_json LedgerBlocks.ts LedgerBlocks.signer].
  apply String.eqb_neq. vm_compute. reflexivity.
Qed.

(** C2, counterexample. On the example clock the stored merkle_root is
    not the Merkle root of the items' content hashes in gid order, under
    any of the usual ways to hash the tree. *)
Lemma checkpoint_root_is_no_merkle_root :
  exists d c, run example_clock = inr d /\
    In c (checkpoints d) /\
    Forall (fun scheme =>
              Checkpoints.merkle_root c <> merkle_root_of scheme (checkpoint_leaves d))
           merkle_schemes.
Proof.
  eexists. eexists. split; [apply run_commits|].
  unfold committed, checkpoint_leaves. cbn [checkpoints leann_meta].
  split; [left; reflexivity|].
  cbn [checkpoint_row Checkpoints.merkle_root].
  unfold merkle_schemes.
  repeat (constructor; [apply String.eqb_neq; vm_compute; reflexivity|]).
  constructor.
Qed.

(** C3, where the script falls short. On the example clock, which moves
    on between the checkpoint and the receipts, every receipt's epoch is a
    later reading of the clock than the epoch of the one stored
    checkpoint: no receipt's epoch is a checkpoint's. *)
Theorem receipt_epoch_misses_the_checkpoint :
  exists d, run example_clock = inr d /\
    checkpoints d <> [] /\ glyph_receipts d <> [] /\
    forall r c, In r (glyph_receipts d) -> In c (checkpoints d) ->
      GlyphReceipts.epoch r = "2023-11-14T22:13:20.172456+00:00" /\
      Checkpoints.epoch c = "2023-11-14T22:13:20.134456+00:00" /\
      GlyphReceipts.epoch r <> Checkpoints.epoch c.
Proof.
  eexists. split; [apply run_commits|].
  unfold committed. cbn [checkpoints glyph_receipts].
  split; [discriminate|]. split; [discriminate|].
  intros r c Hr [<-|[]].
  apply in_map_iff in Hr as ([k page] & <- & _).
  cbn [GlyphReceipts.epoch Checkpoints.epoch checkpoint_row].
  repeat split; try (vm_compute; reflexivity).
  apply String.eqb_neq. vm_compute. reflexivity.
Qed.

(** A second run on the file the first run committed raises. *)
Lemma second_run_raises :
  create_capsule Datetime.t Datetime.isoformat Datetime.timestamp example_clock
    (committed Datetime.t Datetime.isoformat Datetime.timestamp example_clock)
    (Random.State [] 0)
  = inl (IntegrityError "sqlar.name").
Proof.
  apply create_capsule_raises_on_its_own_output.
  unfold committed. cbn [sqlar]. rewrite map_app. apply in_or_app. left.
  unfold page_rows, enumerate, PAGES. cbn [List.length seq combine map In].
  left. reflexivity.
Defined.

(** * The script on any database: rules for runs *)

Section RunRules.

Variable R : database -> database -> Prop.
Hypothesis R_refl : forall d, R d d.
Hypothesis R_trans : forall d1 d2 d3, R d1 d2 -> R d2 d3 -> R d1 d3.

Lemma returns_ret {A} (a : A) : returns (ret a) R.
Proof. intros w a' w' H. inversion H; subst. apply R_refl. Qed.

Lemma returns_bind {A B} (c : M A) (k : A -> M B) :
  returns c R -> (forall a, returns (k a) R) -> returns (bind c k) R.
Proof.
  intros Hc Hk w b w' H. unfold bind in H.
  destruct (c w) as [e|[a w1]] eqn:Hcw; [discriminate|].
  eapply R_trans; [eapply Hc; eassumption | eapply Hk; eassumption].
Qed.

Lemma returns_for_each {A} (xs : list A) (body : A -> M unit) :
  (forall x, returns (body x) R) -> returns (for_each xs body) R.
Proof.
  intros Hbody. induction xs as [|x xs IH]; cbn [for_each].
  - apply returns_ret.
  - apply returns_bind; [apply Hbody | intros _; exact IH].
Qed.

Lemma returns_lift {A} (r : result A) : returns (lift r) R.
Proof.
  intros w a w' H. unfold lift in H. destruct r; inversion H; subst. apply R_refl.
Qed.

Lemma returns_with_rng {A} (f : Random.state -> result A * Random.state) :
  returns (with_rng f) R.
Proof.
  intros w a w' H. unfold with_rng in H.
  destruct (f (rng w)) as [[e|x] s]; inversion H; subst. apply R_refl.
Qed.

Lemma returns_now datetime (now : nat -> datetime) :
  returns (datetime_now_utc datetime now) R.
Proof. intros w a w' H. inversion H; subst. apply R_refl. Qed.

Lemma returns_insert {T} (table : database -> list T)
  (set_table : list T -> database -> database)
  (violated : T -> list T -> option string) (r : T) :
  (forall d, violated r (table d) = None -> R d (set_table (table d ++ [r])%list d)) ->
  returns (insert table set_table violated r) R.
Proof.
  intros Hset w a w' H. unfold insert in H.
  destruct (violated r (table (conn w))) eqn:Hv; inversion H; subst.
  cbn [conn]. apply Hset. exact Hv.
Qed.

Lemma returns_insert_or_ignore {T} (table : database -> list T)
  (set_table : list T -> database -> database)
  (violated : T -> list T -> option string) (r : T) :
  (forall d, violated r (table d) = None -> R d (set_table (table d ++ [r])%list d)) ->
  returns (insert_or_ignore table set_table violated r) R.
Proof.
  intros Hset w a w' H. unfold insert_or_ignore in H.
  destruct (violated r (table (conn w))) eqn:Hv; inversion H; subst.
  - apply R_refl.
  - cbn [conn]. apply Hset. exact Hv.
Qed.

End RunRules.

(** * Rows are only appended *)

Lemma prefix_of_refl {A} (l : list A) : prefix_of l l.
Proof. exists []. symmetry. apply app_nil_r. Qed.

Lemma prefix_of_trans {A} (l1 l2 l3 : list A) :
  prefix_of l1 l2 -> prefix_of l2 l3 -> prefix_of l1 l3.
Proof.
  intros [x ->] [y ->]. exists (x ++ y)%list. symmetry. apply app_assoc.
Qed.

Lemma grows_refl d : grows d d.
Proof. unfold grows. repeat split; first [apply prefix_of_refl | lia]. Qed.

Lemma grows_trans d1 d2 d3 : grows d1 d2 -> grows d2 d3 -> grows d1 d3.
Proof.
  unfold grows. intros H1 H2.
  repeat match goal with H : _ /\ _ |- _ => destruct H end.
  repeat split; first [eapply prefix_of_trans; eassumption | lia].
Qed.

(** * A run on any file, against the run on a fresh file *)

Lemma bind_returns {A B} (c : M A) (k : A -> M B) w a w' :
  c w = inr (a, w') -> bind c k w = k a w'.
Proof. intros H. unfold bind. rewrite H. reflexivity. Qed.

Lemma bind_raises {A B} (c : M A) (k : A -> M B) w e :
  c w = inl e -> bind c k w = inl e.
Proof. intros H. unfold bind. rewrite H. reflexivity. Qed.

Lemma unique_app {T K} (key : T -> K) (eqb : K -> K -> bool) name r l l0 :
  unique key eqb name r l0 = None ->
  unique key eqb name r (l ++ l0) = unique key eqb name r l.
Proof.
  unfold unique. rewrite existsb_app.
  destruct (existsb _ l0); [discriminate|]. rewrite orb_false_r. reflexivity.
Qed.

Lemma leann_meta_constraints_app r l l0 :
  leann_meta_constraints r l0 = None ->
  leann_meta_constraints r (l ++ l0) = leann_meta_constraints r l.
Proof.
  unfold leann_meta_constraints. destruct (_ || _); [|discriminate].
  apply unique_app.
Qed.

Lemma taken_app {T} (violated : T -> list T -> option string) rows new extra :
  taken violated rows new = true -> taken violated rows (new ++ extra) = true.
Proof. unfold taken. rewrite existsb_app. intros ->. reflexivity. Qed.

Lemma taken_last {T} (violated : T -> list T -> option string) rows new r :
  In r new -> violated r rows <> None -> taken violated rows new = true.
Proof.
  intros Hin Hv. unfold taken. apply existsb_exists. exists r. split; [exact Hin|].
  destruct (violated r rows); [reflexivity | contradiction].
Qed.

Lemma len_app {A} (l l' : list A) : len (l ++ l') = len l + len l'.
Proof. unfold len. rewrite length_app. lia. Qed.

Lemma len_nonneg {A} (l : list A) : 0 <= len l.
Proof. unfold len. lia. Qed.

Section Tracking.

Variable file : database.

Lemma clashes_iff d0 :
  clashes file d0 = true <->
  taken sqlar_pk (sqlar file) (sqlar d0) = true
  \/ taken ledger_blocks_pk (ledger_blocks file) (ledger_blocks d0) = true
  \/ taken checkpoints_pk (checkpoints file) (checkpoints d0) = true
  \/ taken keys_pk (keys file) (keys d0) = true
  \/ taken node_index_unique (node_index file) (node_index d0) = true
  \/ taken edges_pk (edges file) (edges d0) = true
  \/ taken meta_index_pk (meta_index file) (meta_index d0) = true
  \/ taken entities_pk (entities file) (entities d0) = true
  \/ taken leann_meta_constraints (leann_meta file) (leann_meta d0) = true
  \/ taken leann_vec_pk (leann_vec file) (leann_vec d0) = true
  \/ taken glyph_receipts_pk (glyph_receipts file) (glyph_receipts d0) = true.
Proof. unfold clashes. rewrite !orb_true_iff. tauto. Qed.

(** A clash stays one while the fresh run goes on. *)
Lemma clashes_mono d0 d0' :
  grows d0 d0' -> clashes file d0 = true -> clashes file d0' = true.
Proof.
  unfold grows. intros Hg. rewrite !clashes_iff.
  decompose [and] Hg; clear Hg.
  repeat match goal with
         | H : prefix_of (?t d0) (?t d0') |- _ =>
             let E := fresh "E" in destruct H as [? E]; try rewrite E
         end.
  intuition (auto using taken_app).
Qed.

(** So does a want of node ids. *)
Lemma obstructed_mono d0 d0' :
  grows d0 d0' -> obstructed file d0 = true -> obstructed file d0' = true.
Proof.
  intros Hg. unfold obstructed. rewrite !orb_true_iff. intros [H|H].
  - left. eapply clashes_mono; eassumption.
  - right. unfold out_of_node_ids in *. apply Z.ltb_lt in H. apply Z.ltb_lt.
    unfold grows in Hg. decompose [and] Hg. lia.
Qed.

Lemma clashes_obstructed d0 : clashes file d0 = true -> obstructed file d0 = true.
Proof. unfold obstructed. intros ->. reflexivity. Qed.

(** ** Rules *)

Lemma tracks_ret S {A} (a : A) : tracks file S S (ret a).
Proof.
  split; [apply returns_ret, grows_refl|].
  intros w w0 a' w0' Hag H. inversion H; subst.
  left. exists w. split; [reflexivity | exact Hag].
Qed.

Lemma tracks_bind S S' S'' {A B} (c : M A) (k : A -> M B) :
  tracks file S S' c -> (forall a, tracks file S' S'' (k a)) ->
  tracks file S S'' (bind c k).
Proof.
  intros [Hcg Hc] Hk. split.
  - apply returns_bind; [apply grows_trans | exact Hcg | intros a; apply Hk].
  - intros w w0 b w0'' Hag H. unfold bind in H.
    destruct (c w0) as [e|[a w0']] eqn:Hc0; [discriminate|].
    destruct (Hc w w0 a w0' Hag Hc0) as [(w' & Hw & Hag') | (e & He & Hcl)].
    + rewrite (bind_returns _ _ _ _ _ Hw). exact (proj2 (Hk a) w' w0' b w0'' Hag' H).
    + right. exists e. split; [apply bind_raises; exact He|].
      eapply obstructed_mono; [|exact Hcl].
      apply (proj1 (Hk a) _ _ _ H).
Qed.

Lemma tracks_for_each S {A} (xs : list A) (body : A -> M unit) :
  (forall x, tracks file S S (body x)) -> tracks file S S (for_each xs body).
Proof.
  intros Hbody. induction xs as [|x xs IH]; cbn [for_each].
  - apply tracks_ret.
  - eapply tracks_bind; [apply Hbody | intros _; exact IH].
Qed.

Lemma tracks_lift S {A} (r : result A) : tracks file S S (lift r).
Proof.
  split; [apply returns_lift, grows_refl|].
  intros w w0 a w0' Hag H. unfold lift in *. destruct r; inversion H; subst.
  left. exists w. split; [reflexivity | exact Hag].
Qed.

Lemma tracks_with_rng S {A} (f : Random.state -> result A * Random.state) :
  tracks file S S (with_rng f).
Proof.
  split; [apply returns_with_rng, grows_refl|].
  intros w w0 a w0' (HS & Hc & Hr) H. unfold with_rng in *. rewrite Hr.
  destruct (f (rng w0)) as [[e|x] s]; inversion H; subst.
  left. eexists. split; [reflexivity|].
  split; [exact HS|]. split; [exact Hc | reflexivity].
Qed.

Lemma tracks_now S datetime (now : nat -> datetime) :
  tracks file S S (datetime_now_utc datetime now).
Proof.
  split; [apply returns_now, grows_refl|].
  intros w w0 a w0' (HS & Hc & Hr) H. unfold datetime_now_utc in *.
  inversion H; subst. rewrite Hc.
  left. eexists. split; [reflexivity|].
  split; [exact HS|]. split; [cbn [clock_reads]; congruence | exact Hr].
Qed.

Lemma tracks_insert S {T} (table : database -> list T)
  (set_table : list T -> database -> database)
  (violated : T -> list T -> option string) (r : T) :
  (forall l d, table (set_table l d) = l) ->
  (forall l d, grows d (set_table (table d ++ l)%list d)) ->
  (forall l l0, violated r l0 = None -> violated r (l ++ l0)%list = violated r l) ->
  (forall d d0, S d d0 -> table d = (table file ++ table d0)%list) ->
  (forall d d0, S d d0 ->
     S (set_table (table d ++ [r])%list d) (set_table (table d0 ++ [r])%list d0)) ->
  (forall d0, taken violated (table file) (table d0) = true ->
              clashes file d0 = true) ->
  tracks file S S (insert table set_table violated r).
Proof.
  intros Hget Hgrows Happ Htable Hset Hclash. split.
  - apply returns_insert. intros d _. apply Hgrows.
  - intros w w0 a w0' (HS & Hc & Hr) H. unfold insert in *.
    destruct (violated r (table (conn w0))) eqn:Hv0; inversion H; subst.
    rewrite (Htable _ _ HS), (Happ _ _ Hv0).
    destruct (violated r (table file)) eqn:Hvf.
    + right. eexists. split; [reflexivity|]. cbn [conn].
      apply clashes_obstructed, Hclash. rewrite Hget. apply (taken_last _ _ _ r).
      * apply in_or_app. right. left. reflexivity.
      * congruence.
    + left. eexists. split; [reflexivity|].
      split; [|split; [exact Hc | exact Hr]].
      cbn [conn]. rewrite <- (Htable _ _ HS). apply Hset. exact HS.
Qed.

End Tracking.

(** ** Rowids *)

Lemma fold_max_le l a x :
  a <= x -> (forall y, In y l -> y <= x) -> fold_left Z.max l a <= x.
Proof.
  revert a. induction l as [|b l IH]; intros a Ha Hl; cbn [fold_left]; [exact Ha|].
  apply IH.
  - pose proof (Hl b (or_introl eq_refl)). lia.
  - intros y Hy. apply Hl. right. exact Hy.
Qed.

Lemma fold_max_ge l : forall a, a <= fold_left Z.max l a.
Proof.
  induction l as [|b l IH]; intros a; cbn [fold_left]; [lia|].
  pose proof (IH (Z.max a b)). lia.
Qed.

Lemma fold_max_in l : forall a x, In x l -> x <= fold_left Z.max l a.
Proof.
  induction l as [|b l IH]; intros a x Hin; cbn [fold_left]; [destruct Hin|].
  destruct Hin as [->|Hin]; [|apply IH; exact Hin].
  pose proof (fold_max_ge l (Z.max a x)). lia.
Qed.

Lemma largest_rowid_ge ids x : In x ids -> x <= largest_rowid ids.
Proof.
  destruct ids as [|a l]; [intros []|]. cbn [largest_rowid].
  intros [->|Hin]; [apply fold_max_ge | apply fold_max_in; exact Hin].
Qed.

(** A rowid above all the others is the largest. *)
Lemma largest_rowid_snoc ids x :
  (forall y, In y ids -> y <= x) -> largest_rowid (ids ++ [x]) = x.
Proof.
  destruct ids as [|a l]; intros H; [reflexivity|].
  cbn [app largest_rowid]. rewrite fold_left_app. cbn [fold_left].
  assert (fold_left Z.max l a <= x); [|lia].
  apply fold_max_le; [apply H; left; reflexivity|].
  intros y Hy. apply H. right. exact Hy.
Qed.

Lemma increasing_tail a ids : increasing (a :: ids) = true -> increasing ids = true.
Proof.
  destruct ids as [|b l]; [reflexivity|]. cbn [increasing].
  intros H. apply andb_true_iff in H as [_ H]. exact H.
Qed.

Lemma increasing_head ids : forall a,
  increasing (a :: ids) = true -> forall y, In y ids -> a < y.
Proof.
  induction ids as [|b l IH]; intros a H y Hy; [destruct Hy|].
  cbn [increasing] in H. apply andb_true_iff in H as [Hab H].
  apply Z.ltb_lt in Hab.
  destruct Hy as [<-|Hy]; [exact Hab|].
  pose proof (IH b H y Hy). lia.
Qed.

Lemma increasing_snoc ids x :
  increasing ids = true -> (forall y, In y ids -> y < x) ->
  increasing (ids ++ [x]) = true.
Proof.
  induction ids as [|a l IH]; intros H Hx; [reflexivity|].
  destruct l as [|b l].
  - cbn [app increasing]. rewrite andb_true_r. apply Z.ltb_lt.
    apply Hx. left. reflexivity.
  - cbn [increasing] in H. apply andb_true_iff in H as [Hab H].
    change (((a <? b) && increasing ((b :: l) ++ [x])) = true).
    rewrite Hab. apply IH; [exact H|].
    intros y Hy. apply Hx. right. exact Hy.
Qed.

Lemma increasing_app l : forall l',
  increasing (l ++ l') = true ->
  increasing l = true /\ forall x y, In x l -> In y l' -> x < y.
Proof.
  induction l as [|a l IH]; intros l' H.
  - split; [reflexivity | intros x y []].
  - cbn [app] in H.
    destruct (IH l' (increasing_tail _ _ H)) as [Hl Hlt]. split.
    + destruct l as [|b l]; [reflexivity|].
      cbn [app increasing] in H |- *. apply andb_true_iff in H as [Hab _].
      rewrite Hab. exact Hl.
    + intros x y [<-|Hx] Hy.
      * apply (increasing_head _ _ H). apply in_or_app. right. exact Hy.
      * apply Hlt; assumption.
Qed.

(** ** AUTOINCREMENT on a file that has nodes *)

Lemma node_index_unique_gid i j gid doc_id page_no rows :
  node_index_unique (NodeIndex.Row i gid doc_id page_no) rows
  = node_index_unique (NodeIndex.Row j gid doc_id page_no) rows.
Proof. reflexivity. Qed.

Lemma node_index_unique_renumbered base r rows :
  node_index_unique r (map (renumber base) rows) = node_index_unique r rows.
Proof.
  unfold node_index_unique, unique.
  replace (existsb _ (map (renumber base) rows))
    with (existsb (fun r' => String.eqb (NodeIndex.gid r') (NodeIndex.gid r)) rows);
    [reflexivity|].
  induction rows as [|x rows IH]; cbn [map existsb]; [reflexivity|].
  rewrite IH. reflexivity.
Qed.

Lemma node_index_unique_app r l l0 :
  node_index_unique r l0 = None ->
  node_index_unique r (l ++ l0) = node_index_unique r l.
Proof. apply unique_app. Qed.

(** ** INSERT OR IGNORE on a file that has hints *)

Lemma pair_eqb_string_eq (k k' : string * string) :
  pair_eqb String.eqb String.eqb k k' = true -> k = k'.
Proof.
  destruct k as [a b], k' as [a' b']. unfold pair_eqb. cbn [fst snd].
  intros H. apply andb_true_iff in H as [Ha Hb].
  apply String.eqb_eq in Ha, Hb. congruence.
Qed.

Lemma unique_app_l {T K} (key : T -> K) (eqb : K -> K -> bool) name r l l0 :
  unique key eqb name r l = None ->
  unique key eqb name r (l ++ l0) = unique key eqb name r l0.
Proof.
  unfold unique. rewrite existsb_app.
  destruct (existsb _ l); [discriminate|]. reflexivity.
Qed.

Lemma leann_neighbors_pk_app_l r l l0 :
  leann_neighbors_pk r l = None ->
  leann_neighbors_pk r (l ++ l0) = leann_neighbors_pk r l0.
Proof. apply unique_app_l. Qed.

Lemma is_new_hint_same_key rows r r' :
  pair_eqb String.eqb String.eqb
    (LeannNeighbors.gid r', LeannNeighbors.neighbor r')
    (LeannNeighbors.gid r, LeannNeighbors.neighbor r) = true ->
  is_new_hint rows r' = is_new_hint rows r.
Proof.
  intros H. apply pair_eqb_string_eq in H.
  unfold is_new_hint, leann_neighbors_pk, unique. rewrite H. reflexivity.
Qed.

(** Among the hints the file lacked, a new hint finds the keys it finds
    among all of them. *)
Lemma leann_neighbors_pk_filter rows r l0 :
  is_new_hint rows r = true ->
  leann_neighbors_pk r (filter (is_new_hint rows) l0) = leann_neighbors_pk r l0.
Proof.
  intros Hnew. unfold leann_neighbors_pk, unique.
  set (p := fun r' =>
              pair_eqb String.eqb String.eqb
                (LeannNeighbors.gid r', LeannNeighbors.neighbor r')
                (LeannNeighbors.gid r, LeannNeighbors.neighbor r)).
  replace (existsb p (filter (is_new_hint rows) l0)) with (existsb p l0);
    [reflexivity|].
  induction l0 as [|x l0 IH]; cbn [filter existsb]; [reflexivity|].
  destruct (p x) eqn:Hk.
  - rewrite (is_new_hint_same_key rows r x Hk), Hnew. cbn [existsb].
    rewrite Hk. reflexivity.
  - destruct (is_new_hint rows x); cbn [existsb]; [rewrite Hk|]; exact IH.
Qed.

Lemma set_leann_neighbors_same d : set_leann_neighbors (leann_neighbors d) d = d.
Proof. destruct d. reflexivity. Qed.

(** ** Rowids of meta_index on a file that has metadata *)

Lemma meta_index_pk_renumbered base r rows :
  meta_index_pk r (map (renumber_meta base) rows) = meta_index_pk r rows.
Proof.
  unfold meta_index_pk, unique.
  replace (existsb _ (map (renumber_meta base) rows))
    with (existsb (fun r' => String.eqb (MetaIndex.gid r') (MetaIndex.gid r)) rows);
    [reflexivity|].
  induction rows as [|x rows IH]; cbn [map existsb]; [reflexivity|].
  rewrite IH. reflexivity.
Qed.

Lemma meta_index_pk_app r l l0 :
  meta_index_pk r l0 = None ->
  meta_index_pk r (l ++ l0) = meta_index_pk r l.
Proof. apply unique_app. Qed.

(** ** The full-text index *)

Lemma fts_insert_present rows : forall r,
  increasing (map MetaIndex.rowid rows) = true -> In r rows ->
  fts_insert (fts_row_of r) (map fts_row_of rows) = map fts_row_of rows.
Proof.
  induction rows as [|x rows IH]; intros r Hinc Hin; [destruct Hin|].
  cbn [map] in Hinc |- *. cbn [fts_insert].
  change (MetaFts.rowid (fts_row_of r)) with (MetaIndex.rowid r).
  change (MetaFts.rowid (fts_row_of x)) with (MetaIndex.rowid x).
  destruct Hin as [->|Hin].
  - rewrite Z.ltb_irrefl, Z.eqb_refl. reflexivity.
  - pose proof (increasing_head _ _ Hinc (MetaIndex.rowid r) (in_map _ _ _ Hin)).
    destruct (Z.ltb_spec (MetaIndex.rowid r) (MetaIndex.rowid x)); [lia|].
    destruct (Z.eqb_spec (MetaIndex.rowid r) (MetaIndex.rowid x)); [lia|].
    rewrite (IH r (increasing_tail _ _ Hinc) Hin). reflexivity.
Qed.

Lemma fts_insert_last rows : forall r,
  (forall x, In x rows -> MetaIndex.rowid x < MetaIndex.rowid r) ->
  fts_insert (fts_row_of r) (map fts_row_of rows) = map fts_row_of (rows ++ [r]).
Proof.
  induction rows as [|x rows IH]; intros r Hlt; [reflexivity|].
  cbn [map app fts_insert].
  change (MetaFts.rowid (fts_row_of r)) with (MetaIndex.rowid r).
  change (MetaFts.rowid (fts_row_of x)) with (MetaIndex.rowid x).
  pose proof (Hlt x (or_introl eq_refl)).
  destruct (Z.ltb_spec (MetaIndex.rowid r) (MetaIndex.rowid x)); [lia|].
  destruct (Z.eqb_spec (MetaIndex.rowid r) (MetaIndex.rowid x)); [lia|].
  rewrite IH; [reflexivity|]. intros y Hy. apply Hlt. right. exact Hy.
Qed.

(** Indexing again the rows the index holds changes nothing. *)
Lemma fts_again rows : forall again,
  increasing (map MetaIndex.rowid rows) = true -> incl again rows ->
  fold_left (fun docs r => fts_insert (fts_row_of r) docs) again (map fts_row_of rows)
  = map fts_row_of rows.
Proof.
  intros again Hinc. induction again as [|r again IH]; intros Hin; [reflexivity|].
  cbn [fold_left]. rewrite fts_insert_present; [|exact Hinc|apply Hin; left; reflexivity].
  apply IH. intros y Hy. apply Hin. right. exact Hy.
Qed.

(** Indexing rows of larger rowids appends them. *)
Lemma fts_new new : forall rows,
  increasing (map MetaIndex.rowid (rows ++ new)) = true ->
  fold_left (fun docs r => fts_insert (fts_row_of r) docs) new (map fts_row_of rows)
  = map fts_row_of (rows ++ new).
Proof.
  induction new as [|r new IH]; intros rows Hinc; [rewrite app_nil_r; reflexivity|].
  cbn [fold_left]. rewrite fts_insert_last.
  - replace (rows ++ r :: new)%list with ((rows ++ [r]) ++ new)%list
      by (rewrite <- app_assoc; reflexivity).
    apply IH. rewrite <- app_assoc. exact Hinc.
  - rewrite map_app in Hinc. destruct (increasing_app _ _ Hinc) as [_ Hlt].
    intros x Hx. apply Hlt; [apply in_map; exact Hx | left; reflexivity].
Qed.

(** The INSERT ... SELECT on an index that holds the first rows of
    meta_index: afterwards it holds them all. *)
Lemma fts_mirrors rows new :
  increasing (map MetaIndex.rowid (rows ++ new)) = true ->
  fold_left (fun docs r => fts_insert (fts_row_of r) docs) (rows ++ new)
            (map fts_row_of rows)
  = map fts_row_of (rows ++ new).
Proof.
  intros Hinc. rewrite fold_left_app.
  rewrite fts_again; [apply fts_new; exact Hinc | | apply incl_refl].
  rewrite map_app in Hinc. apply (increasing_app _ _ Hinc).
Qed.

(** ** Table by table *)

Section Tables.

Variable file : database.

(** What the two runs' full-text tables are to each other; no statement
    below touches them or meta_index. *)
Variable F : database -> database -> Prop.
Hypothesis F_sqlar : forall l l0 d d0,
  F d d0 -> F (set_sqlar l d) (set_sqlar l0 d0).
Hypothesis F_ledger_blocks : forall l l0 d d0,
  F d d0 -> F (set_ledger_blocks l d) (set_ledger_blocks l0 d0).
Hypothesis F_checkpoints : forall l l0 d d0,
  F d d0 -> F (set_checkpoints l d) (set_checkpoints l0 d0).
Hypothesis F_keys : forall l l0 d d0,
  F d d0 -> F (set_keys l d) (set_keys l0 d0).
Hypothesis F_node_index : forall l l0 d d0,
  F d d0 -> F (set_node_index l d) (set_node_index l0 d0).
Hypothesis F_edges : forall l l0 d d0,
  F d d0 -> F (set_edges l d) (set_edges l0 d0).
Hypothesis F_entities : forall l l0 d d0,
  F d d0 -> F (set_entities l d) (set_entities l0 d0).
Hypothesis F_leann_meta : forall l l0 d d0,
  F d d0 -> F (set_leann_meta l d) (set_leann_meta l0 d0).
Hypothesis F_leann_vec : forall l l0 d d0,
  F d d0 -> F (set_leann_vec l d) (set_leann_vec l0 d0).
Hypothesis F_leann_neighbors : forall l l0 d d0,
  F d d0 -> F (set_leann_neighbors l d) (set_leann_neighbors l0 d0).
Hypothesis F_glyph_receipts : forall l l0 d d0,
  F d d0 -> F (set_glyph_receipts l d) (set_glyph_receipts l0 d0).
Hypothesis F_node_index_seq : forall n n0 d d0,
  F d d0 -> F (set_node_index_seq n d) (set_node_index_seq n0 d0).

Local Abbreviation S := (along file F).

Lemma insert_sqlar_tracks r : tracks file S S (insert_sqlar r).
Proof.
  unfold insert_sqlar. apply tracks_insert.
  - reflexivity.
  - intros l d. table_grows.
  - intros l l0. apply unique_app.
  - intros d d0 [Ht _]. unfold same_tables in Ht. decompose [and] Ht. assumption.
  - intros d d0 [Ht HF]. split; [same_tables_step Ht | apply F_sqlar; exact HF].
  - intros d0 Ht. apply clashes_iff. tauto.
Qed.

Lemma insert_ledger_blocks_tracks r : tracks file S S (insert_ledger_blocks r).
Proof.
  unfold insert_ledger_blocks. apply tracks_insert.
  - reflexivity.
  - intros l d. table_grows.
  - intros l l0. apply unique_app.
  - intros d d0 [Ht _]. unfold same_tables in Ht. decompose [and] Ht. assumption.
  - intros d d0 [Ht HF]. split; [same_tables_step Ht | apply F_ledger_blocks; exact HF].
  - intros d0 Ht. apply clashes_iff. tauto.
Qed.

Lemma insert_checkpoints_tracks r : tracks file S S (insert_checkpoints r).
Proof.
  unfold insert_checkpoints. apply tracks_insert.
  - reflexivity.
  - intros l d. table_grows.
  - intros l l0. apply unique_app.
  - intros d d0 [Ht _]. unfold same_tables in Ht. decompose [and] Ht. assumption.
  - intros d d0 [Ht HF]. split; [same_tables_step Ht | apply F_checkpoints; exact HF].
  - intros d0 Ht. apply clashes_iff. tauto.
Qed.

Lemma insert_keys_tracks r : tracks file S S (insert_keys r).
Proof.
  unfold insert_keys. apply tracks_insert.
  - reflexivity.
  - intros l d. table_grows.
  - intros l l0. apply unique_app.
  - intros d d0 [Ht _]. unfold same_tables in Ht. decompose [and] Ht. assumption.
  - intros d d0 [Ht HF]. split; [same_tables_step Ht | apply F_keys; exact HF].
  - intros d0 Ht. apply clashes_iff. tauto.
Qed.

Lemma insert_edges_tracks r : tracks file S S (insert_edges r).
Proof.
  unfold insert_edges. apply tracks_insert.
  - reflexivity.
  - intros l d. table_grows.
  - intros l l0. apply unique_app.
  - intros d d0 [Ht _]. unfold same_tables in Ht. decompose [and] Ht. assumption.
  - intros d d0 [Ht HF]. split; [same_tables_step Ht | apply F_edges; exact HF].
  - intros d0 Ht. apply clashes_iff. tauto.
Qed.

Lemma insert_entities_tracks r : tracks file S S (insert_entities r).
Proof.
  unfold insert_entities. apply tracks_insert.
  - reflexivity.
  - intros l d. table_grows.
  - intros l l0. apply unique_app.
  - intros d d0 [Ht _]. unfold same_tables in Ht. decompose [and] Ht. assumption.
  - intros d d0 [Ht HF]. split; [same_tables_step Ht | apply F_entities; exact HF].
  - intros d0 Ht. apply clashes_iff. tauto.
Qed.

Lemma insert_leann_meta_tracks r : tracks file S S (insert_leann_meta r).
Proof.
  unfold insert_leann_meta. apply tracks_insert.
  - reflexivity.
  - intros l d. table_grows.
  - intros l l0. apply leann_meta_constraints_app.
  - intros d d0 [Ht _]. unfold same_tables in Ht. decompose [and] Ht. assumption.
  - intros d d0 [Ht HF]. split; [same_tables_step Ht | apply F_leann_meta; exact HF].
  - intros d0 Ht. apply clashes_iff. tauto.
Qed.

Lemma insert_leann_vec_tracks r : tracks file S S (insert_leann_vec r).
Proof.
  unfold insert_leann_vec. apply tracks_insert.
  - reflexivity.
  - intros l d. table_grows.
  - intros l l0. apply unique_app.
  - intros d d0 [Ht _]. unfold same_tables in Ht. decompose [and] Ht. assumption.
  - intros d d0 [Ht HF]. split; [same_tables_step Ht | apply F_leann_vec; exact HF].
  - intros d0 Ht. apply clashes_iff. tauto.
Qed.

Lemma insert_glyph_receipts_tracks r : tracks file S S (insert_glyph_receipts r).
Proof.
  unfold insert_glyph_receipts. apply tracks_insert.
  - reflexivity.
  - intros l d. table_grows.
  - intros l l0. apply unique_app.
  - intros d d0 [Ht _]. unfold same_tables in Ht. decompose [and] Ht. assumption.
  - intros d d0 [Ht HF]. split; [same_tables_step Ht | apply F_glyph_receipts; exact HF].
  - intros d0 Ht. apply clashes_iff. tauto.
Qed.

(** AUTOINCREMENT: the file's run gives each node the id of the fresh run
    plus the file's base, and is out of ids when that passes the largest
    rowid. *)
Lemma insert_node_index_tracks gid doc_id page_no :
  tracks file S S (insert_node_index gid doc_id page_no).
Proof.
  split.
  - intros w a w' H. unfold insert_node_index, next_node_id in H.
    destruct (MAX_ROWID <=? _); [discriminate|]. unfold insert in H.
    set (id := 1 + Z.max _ _) in H.
    assert (Hid : node_index_seq (conn w) <= id) by (unfold id; lia).
    clearbody id.
    destruct (node_index_unique _ (node_index (conn w))); inversion H; subst.
    cbn [conn]. table_grows.
  - intros w w0 a w0' ([Ht HF] & Hc & Hr) H.
    destruct Ht as (T1 & T2 & T3 & T4 & Hni & T6 & T7 & T8 & T9 & T10 & T11 & T12
                    & Hseq & Hbase & Hle & Hmeta).
    unfold insert_node_index, next_node_id in H.
    rewrite (Z.max_r _ _ Hle) in H.
    destruct (MAX_ROWID <=? node_index_seq (conn w0)) eqn:Hroom0; [discriminate|].
    unfold insert in H.
    remember (1 + node_index_seq (conn w0)) as id0 eqn:Hid0 in H.
    destruct (node_index_unique _ (node_index (conn w0))) eqn:Hv0;
      inversion H; subst w0'; clear H.
    unfold insert_node_index, next_node_id.
    change (Z.max (largest_rowid (map NodeIndex.node_id (node_index (conn w))))
                  (node_index_seq (conn w)))
      with (node_base (conn w)).
    rewrite Hbase.
    destruct (Z.leb_spec MAX_ROWID (node_base file + node_index_seq (conn w0)))
      as [Hfull|Hroom].
    + right. eexists. split; [reflexivity|]. cbn [conn].
      unfold obstructed, out_of_node_ids. on_tables.
      apply orb_true_iff. right. apply Z.ltb_lt. lia.
    + unfold insert. rewrite Hni.
      remember (1 + (node_base file + node_index_seq (conn w0))) as id eqn:Hid.
      rewrite (node_index_unique_gid _ id0).
      rewrite node_index_unique_app
        by (rewrite node_index_unique_renumbered; exact Hv0).
      destruct (node_index_unique _ (node_index file)) eqn:Hvf.
      * right. eexists. split; [reflexivity|]. cbn [conn].
        apply clashes_obstructed, clashes_iff. do 4 right. left. on_tables.
        eapply taken_last; [apply in_or_app; right; left; reflexivity|].
        rewrite Hvf. discriminate.
      * left. eexists. split; [reflexivity|].
        split; [|split; [exact Hc | exact Hr]].
        cbn [conn]. split; [|apply F_node_index_seq, F_node_index; exact HF].
        assert (Hids : forall y,
                  In y (map NodeIndex.node_id
                          (node_index file
                           ++ map (renumber (node_base file)) (node_index (conn w0)))) ->
                  y <= id).
        { intros y Hy. rewrite <- Hni in Hy. apply largest_rowid_ge in Hy.
          unfold node_base in Hbase at 1. lia. }
        assert (Hids0 : forall y,
                  In y (map NodeIndex.node_id (node_index (conn w0))) -> y <= id0).
        { intros y Hy. apply largest_rowid_ge in Hy. lia. }
        assert (Hrel : id = node_base file + id0) by lia.
        clear Hid Hid0.
        unfold same_tables.
        split; [exact T1|]. split; [exact T2|]. split; [exact T3|].
        split; [exact T4|]. split.
        { on_tables. rewrite map_app, app_assoc. cbn [map]. unfold renumber at 3.
          cbn [NodeIndex.node_id NodeIndex.gid NodeIndex.doc_id NodeIndex.page_no].
          rewrite Hrel. reflexivity. }
        split; [exact T6|]. split; [exact T7|]. split; [exact T8|].
        split; [exact T9|]. split; [exact T10|]. split; [exact T11|].
        split; [exact T12|]. split.
        { unfold seq_after. on_tables.
          destruct (node_index (conn w0)); cbn [app]; exact Hrel. }
        split.
        { unfold node_base at 1. on_tables. rewrite map_app. cbn [map NodeIndex.node_id].
          rewrite largest_rowid_snoc by exact Hids. lia. }
        split; [|exact Hmeta].
        on_tables. rewrite map_app. cbn [map NodeIndex.node_id].
        rewrite largest_rowid_snoc by exact Hids0. lia.
Qed.

(** INSERT OR IGNORE never raises: the file's run skips the hints whose
    key the file had or the run has stored. *)
Lemma insert_or_ignore_leann_neighbors_tracks r :
  tracks file S S (insert_or_ignore_leann_neighbors r).
Proof.
  split.
  - apply returns_insert_or_ignore; [apply grows_refl | intros d _; table_grows].
  - intros w w0 a w0' ([Ht HF] & Hc & Hr) H.
    assert (Hnb : leann_neighbors (conn w)
                  = (leann_neighbors file
                     ++ filter (is_new_hint (leann_neighbors file))
                               (leann_neighbors (conn w0)))%list)
      by (unfold same_tables in Ht; decompose [and] Ht; assumption).
    destruct a. left. unfold insert_or_ignore_leann_neighbors, insert_or_ignore in *.
    rewrite Hnb.
    destruct (is_new_hint (leann_neighbors file) r) eqn:Hnew.
    + assert (Hfile : leann_neighbors_pk r (leann_neighbors file) = None)
        by (unfold is_new_hint in Hnew;
            destruct (leann_neighbors_pk r (leann_neighbors file)); congruence).
      rewrite leann_neighbors_pk_app_l by exact Hfile.
      rewrite leann_neighbors_pk_filter by exact Hnew.
      destruct (leann_neighbors_pk r (leann_neighbors (conn w0))) eqn:Hv0;
        inversion H; subst; clear H.
      * exists w. split; [reflexivity|]. split; [split; assumption|]. split; assumption.
      * eexists. split; [reflexivity|].
        split; [|split; [exact Hc | exact Hr]].
        cbn [conn]. split; [|apply F_leann_neighbors; exact HF].
        unfold same_tables in Ht |- *. on_tables.
        decompose [and] Ht. repeat split; try assumption.
        rewrite filter_app. cbn [filter]. rewrite Hnew.
        rewrite app_assoc. reflexivity.
    + assert (Hfile : leann_neighbors_pk r (leann_neighbors file ++
                        filter (is_new_hint (leann_neighbors file))
                               (leann_neighbors (conn w0)))
                      = Some "leann_neighbors.gid, leann_neighbors.neighbor").
      { unfold is_new_hint in Hnew. unfold leann_neighbors_pk, unique in *.
        rewrite existsb_app. destruct (existsb _ (leann_neighbors file));
          [reflexivity | discriminate]. }
      rewrite Hfile. exists w. split; [reflexivity|].
      destruct (leann_neighbors_pk r (leann_neighbors (conn w0))) eqn:Hv0;
        inversion H; subst; clear H;
        (split; [|split; [exact Hc|exact Hr]]).
      * split; assumption.
      * cbn [conn]. split.
        -- unfold same_tables in Ht |- *. on_tables.
           decompose [and] Ht. repeat split; try assumption.
           rewrite filter_app. cbn [filter]. rewrite Hnew, app_nil_r. assumption.
        -- rewrite <- (set_leann_neighbors_same (conn w)).
           apply F_leann_neighbors. exact HF.
Qed.

Section Stages.

Variable datetime : Type.
Variable isoformat : datetime -> string.
Variable timestamp : datetime -> PyFloat.float.
Variable now : nat -> datetime.

Lemma add_pages_to_sqlar_tracks :
  tracks file S S (add_pages_to_sqlar datetime timestamp now).
Proof.
  unfold add_pages_to_sqlar. apply tracks_for_each. intros page.
  eapply tracks_bind; [apply tracks_lift | intros png_data].
  eapply tracks_bind; [apply tracks_now | intros t].
  apply insert_sqlar_tracks.
Qed.

Lemma add_ledger_file_tracks :
  tracks file S S (add_ledger_file datetime isoformat timestamp now).
Proof.
  unfold add_ledger_file.
  eapply tracks_bind; [apply tracks_now | intros created].
  eapply tracks_bind; [apply tracks_now | intros t].
  apply insert_sqlar_tracks.
Qed.

Lemma add_ledger_block_tracks :
  tracks file S S (add_ledger_block datetime isoformat now).
Proof.
  unfold add_ledger_block.
  eapply tracks_bind; [apply tracks_now | intros t].
  eapply tracks_bind; [apply tracks_lift | intros entries].
  apply insert_ledger_blocks_tracks.
Qed.

Lemma add_checkpoint_tracks : tracks file S S (add_checkpoint datetime isoformat now).
Proof.
  unfold add_checkpoint.
  eapply tracks_bind; [apply tracks_now | intros t].
  eapply tracks_bind; [apply tracks_now | intros t'].
  apply insert_checkpoints_tracks.
Qed.

Lemma add_key_tracks : tracks file S S (add_key datetime isoformat now).
Proof.
  unfold add_key.
  eapply tracks_bind; [apply tracks_now | intros t].
  apply insert_keys_tracks.
Qed.

Lemma insert_nodes_tracks : tracks file S S insert_nodes.
Proof.
  unfold insert_nodes. apply tracks_for_each. intros page.
  apply insert_node_index_tracks.
Qed.

Lemma insert_all_edges_tracks :
  tracks file S S (insert_all_edges datetime isoformat now).
Proof.
  unfold insert_all_edges. apply tracks_for_each.
  intros [[[from_page to_page] pred] weight].
  eapply tracks_bind; [apply tracks_now | intros t].
  apply insert_edges_tracks.
Qed.

Lemma insert_all_entities_tracks : tracks file S S insert_all_entities.
Proof.
  unfold insert_all_entities. apply tracks_for_each. intros page.
  apply tracks_for_each. intros [[entity_type entity_text] normalized_value].
  apply insert_entities_tracks.
Qed.

Lemma insert_leann_metadata_tracks :
  tracks file S S (insert_leann_metadata datetime isoformat now).
Proof.
  unfold insert_leann_metadata. apply tracks_for_each. intros page.
  eapply tracks_bind; [apply tracks_now | intros t].
  apply insert_leann_meta_tracks.
Qed.

Lemma insert_mock_vectors_tracks :
  tracks file S S (insert_mock_vectors datetime isoformat now).
Proof.
  unfold insert_mock_vectors. apply tracks_for_each. intros page.
  eapply tracks_bind; [apply tracks_with_rng | intros vector_blob].
  eapply tracks_bind; [apply tracks_now | intros t].
  apply insert_leann_vec_tracks.
Qed.

Lemma add_neighbor_hints_tracks : tracks file S S add_neighbor_hints.
Proof.
  unfold add_neighbor_hints. apply tracks_for_each.
  intros [[[from_page to_page] pred] weight].
  apply insert_or_ignore_leann_neighbors_tracks.
Qed.

Lemma add_receipts_tracks : tracks file S S (add_receipts datetime isoformat now).
Proof.
  unfold add_receipts.
  eapply tracks_bind; [apply tracks_now | intros t].
  apply tracks_for_each. intros page.
  eapply tracks_bind; [apply tracks_now | intros t'].
  apply insert_glyph_receipts_tracks.
Qed.

End Stages.

End Tables.

(** ** The whole script *)


Section OnAnyFile.

Variable datetime : Type.
Variable isoformat : datetime -> string.
Variable timestamp : datetime -> PyFloat.float.
Variable now : nat -> datetime.

(** create_capsule commits what the script leaves, and raises what it
    raises. *)
Lemma create_capsule_committed file0 rng0 d :
  create_capsule datetime isoformat timestamp now file0 rng0 = inr d ->
  exists w, script datetime isoformat timestamp now (World file0 0 rng0) = inr (tt, w)
            /\ conn w = d.
Proof.
  unfold create_capsule.
  destruct (script _ _ _ _ _) as [e|[[] w]]; [discriminate|].
  intros H. injection H as H. exists w. split; [reflexivity | exact H].
Qed.

Lemma script_returned file0 rng0 w :
  script datetime isoformat timestamp now (World file0 0 rng0) = inr (tt, w) ->
  create_capsule datetime isoformat timestamp now file0 rng0 = inr (conn w).
Proof. unfold create_capsule. intros ->. reflexivity. Qed.

Lemma script_raised file0 rng0 e :
  script datetime isoformat timestamp now (World file0 0 rng0) = inl e ->
  create_capsule datetime isoformat timestamp now file0 rng0 = inl e.
Proof. unfold create_capsule. intros ->. reflexivity. Qed.

Variable file : database.
Hypothesis file_kept : kept_file file.

Local Abbreviation fresh := (committed datetime isoformat timestamp now).

(** meta_index: the file's run gives each row the rowid of the fresh run
    plus the file's largest, and the rowids stay in order. *)
Lemma insert_meta_index_tracks (row_with : Z -> MetaIndex.row) :
  (forall i, MetaIndex.rowid (row_with i) = i) ->
  (forall base i, renumber_meta base (row_with i) = row_with (base + i)) ->
  (forall i j rows, meta_index_pk (row_with i) rows = meta_index_pk (row_with j) rows) ->
  tracks file (along file (before_fts file)) (along file (before_fts file))
         (insert_meta_index row_with).
Proof.
  intros Hrowid Hren Hkey. split.
  - intros w a w' H. unfold insert_meta_index, insert in H.
    destruct (meta_index_pk _ (meta_index (conn w))); inversion H; subst.
    cbn [conn]. table_grows.
  - intros w w0 a w0' ([Ht [Hfts Hinc]] & Hc & Hr) H.
    destruct Ht as (T1 & T2 & T3 & T4 & T5 & T6 & Hmi & T8 & T9 & T10 & T11 & T12
                    & Hseq & Hbase & Hle & Hmeta).
    unfold insert_meta_index, insert in H.
    fold (meta_base (conn w0)) in H.
    remember (1 + meta_base (conn w0)) as id0 eqn:Hid0 in H.
    destruct (meta_index_pk _ (meta_index (conn w0))) eqn:Hv0;
      inversion H; subst w0'; clear H.
    unfold insert_meta_index, insert.
    fold (meta_base (conn w)). rewrite Hmeta.
    remember (1 + (meta_base file + meta_base (conn w0))) as id eqn:Hid.
    assert (Hrel : id = meta_base file + id0) by lia.
    rewrite Hmi. rewrite (Hkey id id0).
    rewrite meta_index_pk_app
      by (rewrite meta_index_pk_renumbered; exact Hv0).
    destruct (meta_index_pk (row_with id0) (meta_index file)) eqn:Hvf.
    + right. eexists. split; [reflexivity|]. cbn [conn].
      apply clashes_obstructed, clashes_iff. do 6 right. left. on_tables.
      eapply taken_last; [apply in_or_app; right; left; reflexivity|].
      rewrite Hvf. discriminate.
    + left. rewrite <- Hmi. eexists. split; [reflexivity|].
      split; [|split; [exact Hc | exact Hr]]. cbn [conn].
      assert (Hids : forall y,
                In y (map MetaIndex.rowid (meta_index (conn w))) -> y < id).
      { intros y Hy. apply largest_rowid_ge in Hy. unfold meta_base in Hmeta at 1.
        lia. }
      assert (Hids0 : forall y,
                In y (map MetaIndex.rowid (meta_index (conn w0))) -> y <= id0).
      { intros y Hy. apply largest_rowid_ge in Hy. unfold meta_base in Hid0. lia. }
      split.
      * unfold same_tables.
        split; [exact T1|]. split; [exact T2|]. split; [exact T3|].
        split; [exact T4|]. split; [exact T5|]. split; [exact T6|]. split.
        { on_tables. rewrite Hmi, map_app, app_assoc. cbn [map].
          rewrite Hren, Hrel. reflexivity. }
        split; [exact T8|]. split; [exact T9|]. split; [exact T10|].
        split; [exact T11|]. split; [exact T12|]. split; [exact Hseq|].
        split; [exact Hbase|]. split; [exact Hle|].
        unfold meta_base at 1 3. on_tables. rewrite !map_app. cbn [map].
        rewrite !Hrowid.
        rewrite largest_rowid_snoc by (intros y Hy; apply Hids in Hy; lia).
        rewrite largest_rowid_snoc by exact Hids0. exact Hrel.
      * split; [exact Hfts|]. on_tables. rewrite map_app. cbn [map].
        rewrite Hrowid. apply increasing_snoc; assumption.
Qed.

Lemma insert_metadata_tracks :
  tracks file (along file (before_fts file)) (along file (before_fts file))
         (insert_metadata datetime isoformat now).
Proof.
  unfold insert_metadata. apply tracks_for_each. intros page.
  eapply tracks_bind; [apply tracks_now | intros t].
  apply insert_meta_index_tracks; reflexivity.
Qed.

(** The INSERT ... SELECT into the full-text table never raises; on a
    file that was kept, the index holds the documents of meta_index
    afterwards, the file's and the run's. *)
Lemma populate_meta_fts_tracks :
  tracks file (along file (before_fts file)) (along file (after_fts file))
         populate_meta_fts.
Proof.
  split.
  - intros w a w' H. unfold populate_meta_fts in H. inversion H; subst.
    cbn [conn]. table_grows.
  - intros w w0 a w0' ([Ht [Hfts Hinc]] & Hc & Hr) H.
    unfold populate_meta_fts in H. inversion H; subst; clear H.
    left. eexists. split; [reflexivity|].
    split; [|split; assumption]. cbn [conn]. split.
    + unfold same_tables, node_base, meta_base, seq_after in Ht |- *. on_tables.
      exact Ht.
    + unfold after_fts. on_tables.
      destruct file_kept as (_ & Hsync & _). rewrite Hfts, Hsync.
      assert (Hmi : meta_index (conn w)
                    = (meta_index file
                       ++ map (renumber_meta (meta_base file))
                              (meta_index (conn w0)))%list)
        by (unfold same_tables in Ht; decompose [and] Ht; assumption).
      rewrite Hmi in Hinc |- *. apply fts_mirrors. exact Hinc.
Qed.

Lemma script_tracks :
  tracks file (along file (before_fts file)) (along file (after_fts file))
         (script datetime isoformat timestamp now).
Proof.
  unfold script.
  eapply tracks_bind;
    [apply (add_pages_to_sqlar_tracks file (before_fts file)); intros l l0 d d0 H; exact H
    | intros _].
  eapply tracks_bind;
    [apply (add_ledger_file_tracks file (before_fts file)); intros l l0 d d0 H; exact H
    | intros _].
  eapply tracks_bind;
    [apply (add_ledger_block_tracks file (before_fts file)); intros l l0 d d0 H; exact H
    | intros _].
  eapply tracks_bind;
    [apply (add_checkpoint_tracks file (before_fts file)); intros l l0 d d0 H; exact H
    | intros _].
  eapply tracks_bind;
    [apply (add_key_tracks file (before_fts file)); intros l l0 d d0 H; exact H
    | intros _].
  eapply tracks_bind;
    [apply (insert_nodes_tracks file (before_fts file)); intros l l0 d d0 H; exact H
    | intros _].
  eapply tracks_bind;
    [apply (insert_all_edges_tracks file (before_fts file)); intros l l0 d d0 H; exact H
    | intros _].
  eapply tracks_bind;
    [apply insert_metadata_tracks | intros _].
  eapply tracks_bind; [apply populate_meta_fts_tracks | intros _].
  eapply tracks_bind;
    [apply (insert_all_entities_tracks file (after_fts file)); intros l l0 d d0 H; exact H
    | intros _].
  eapply tracks_bind;
    [apply (insert_leann_metadata_tracks file (after_fts file));
     intros l l0 d d0 H; exact H
    | intros _].
  eapply tracks_bind;
    [apply (insert_mock_vectors_tracks file (after_fts file));
     intros l l0 d d0 H; exact H
    | intros _].
  eapply tracks_bind;
    [apply (add_neighbor_hints_tracks file (after_fts file));
     intros l l0 d d0 H; exact H
    | intros _].
  apply (add_receipts_tracks file (after_fts file)); intros l l0 d d0 H; exact H.
Qed.

Lemma fresh_run_agrees rng0 :
  agree (along file (before_fts file)) (World file 0 rng0) (World empty_database 0 rng0).
Proof.
  split; [|split; reflexivity]. cbn [conn]. split.
  - unfold same_tables, seq_after, meta_base, empty_database. on_tables.
    cbn [map filter largest_rowid].
    rewrite !app_nil_r, !Z.add_0_r. repeat split; first [reflexivity | lia].
  - split; [reflexivity | apply file_kept].
Qed.

Lemma along_with_rows d0 d :
  along file (after_fts file) d d0 -> d = with_rows file d0.
Proof.
  intros [Ht Hf]. unfold after_fts in Hf.
  destruct Ht as (T1 & T2 & T3 & T4 & T5 & T6 & T7 & T8 & T9 & T10 & T11 & T12
                  & Hseq & _).
  destruct d as [t1 t2 t3 t4 t5 t6 t7 t8 t9 t10 t11 t12 t13 t14].
  cbn [sqlar ledger_blocks checkpoints keys node_index edges meta_index meta_fts
       entities leann_meta leann_vec leann_neighbors glyph_receipts node_index_seq]
    in *.
  subst. reflexivity.
Qed.

(** A run on a kept file either commits the file with the fresh run's
    rows added, or raises, and then the file is obstructed. *)
Lemma create_capsule_tracks rng0 :
  create_capsule datetime isoformat timestamp now file rng0
  = inr (with_rows file fresh)
  \/ (exists e, create_capsule datetime isoformat timestamp now file rng0 = inl e
                /\ obstructed file fresh = true).
Proof.
  destruct (create_capsule_committed empty_database rng0 fresh
              (create_capsule_commits datetime isoformat timestamp now rng0))
    as (w0' & Hrun0 & H0).
  destruct (proj2 script_tracks (World file 0 rng0) (World empty_database 0 rng0)
              tt w0' (fresh_run_agrees rng0) Hrun0)
    as [(w' & Hw & Hag) | (e & He & Hcl)].
  - left. rewrite (script_returned _ _ _ Hw). f_equal.
    apply along_with_rows. destruct Hag as (Hal & _).
    rewrite H0 in Hal. exact Hal.
  - right. exists e. split; [apply script_raised; exact He|].
    rewrite <- H0. exact Hcl.
Qed.

End OnAnyFile.

(** * What a run adds to a file that holds rows *)

Section OnKeptFiles.

Variable datetime : Type.
Variable isoformat : datetime -> string.
Variable timestamp : datetime -> PyFloat.float.
Variable now : nat -> datetime.

Local Abbreviation fresh := (committed datetime isoformat timestamp now).

(** On a file that was kept (meta_index by rowid with rowids to spare,
    the full-text index in step with it), a run that commits leaves every
    row of the file in place and adds, table by table, the rows it writes
    into a fresh file: the same ones whatever the file holds, but for
    node_index, whose node ids go on from the larger of the file's
    largest node_id and the seq of sqlite_sequence; meta_index, whose
    rowids go on from the file's largest; and leann_neighbors, which
    lacks the hints whose key the file already had.  The full-text index
    then holds one document for every row of meta_index, the file's own
    rows too. *)
Theorem create_capsule_adds_the_fresh_rows file rng0 d :
  kept_file file ->
  create_capsule datetime isoformat timestamp now file rng0 = inr d ->
  d = with_rows file fresh.
Proof.
  intros Hkept H.
  destruct (create_capsule_tracks datetime isoformat timestamp now file Hkept rng0)
    as [Hd | (e & He & _)]; congruence.
Qed.

(** On a file that was kept, the run commits unless a key of the rows it
    writes is in the file or node_index has fewer than len(PAGES) node
    ids left below 2^63. *)
Theorem create_capsule_commits_unless_obstructed file rng0 :
  kept_file file ->
  obstructed file fresh = false ->
  create_capsule datetime isoformat timestamp now file rng0
  = inr (with_rows file fresh).
Proof.
  intros Hkept H.
  destruct (create_capsule_tracks datetime isoformat timestamp now file Hkept rng0)
    as [Hd | (e & _ & Hob)]; [exact Hd | congruence].
Qed.

End OnKeptFiles.

(** ** Two files *)

Lemma other_file_is_kept : kept_file other_file.
Proof.
  unfold kept_file. split; [reflexivity|]. split; [reflexivity|].
  vm_compute. discriminate.
Qed.

Lemma used_file_is_kept : kept_file used_file.
Proof.
  unfold kept_file. split; [reflexivity|]. split; [reflexivity|].
  vm_compute. discriminate.
Qed.

(** Neither holds a key of the script's, and both have node ids left. *)
Lemma other_file_is_free :
  obstructed other_file
    (committed Datetime.t Datetime.isoformat Datetime.timestamp example_clock)
  = false.
Proof. vm_compute. reflexivity. Qed.

Lemma used_file_is_free :
  obstructed used_file
    (committed Datetime.t Datetime.isoformat Datetime.timestamp example_clock)
  = false.
Proof. vm_compute. reflexivity. Qed.

Lemma run_on_other_file :
  create_capsule Datetime.t Datetime.isoformat Datetime.timestamp example_clock
    other_file (Random.State [] 0)
  = inr (with_rows other_file
           (committed Datetime.t Datetime.isoformat Datetime.timestamp example_clock)).
Proof.
  destruct (create_capsule_tracks Datetime.t Datetime.isoformat Datetime.timestamp
              example_clock other_file other_file_is_kept (Random.State [] 0))
    as [Hd | (e & _ & Hob)]; [exact Hd|].
  rewrite other_file_is_free in Hob. discriminate.
Qed.

Lemma run_on_used_file :
  create_capsule Datetime.t Datetime.isoformat Datetime.timestamp example_clock
    used_file (Random.State [] 0)
  = inr (with_rows used_file
           (committed Datetime.t Datetime.isoformat Datetime.timestamp example_clock)).
Proof.
  destruct (create_capsule_tracks Datetime.t Datetime.isoformat Datetime.timestamp
              example_clock used_file used_file_is_kept (Random.State [] 0))
    as [Hd | (e & _ & Hob)]; [exact Hd|].
  rewrite used_file_is_free in Hob. discriminate.
Qed.

(** On the used file: the nodes are 8 to 15, after the 7 of
    sqlite_sequence, the metadata has rowids 4 to 11, and the index holds
    the file's document and the eight new ones. *)
Lemma run_adds_to_the_used_file :
  exists d,
    create_capsule Datetime.t Datetime.isoformat Datetime.timestamp example_clock
      used_file (Random.State [] 0) = inr d /\
    d = with_rows used_file
          (committed Datetime.t Datetime.isoformat Datetime.timestamp example_clock) /\
    map NodeIndex.node_id (node_index d) = [8; 9; 10; 11; 12; 13; 14; 15] /\
    map MetaIndex.rowid (meta_index d) = [3; 4; 5; 6; 7; 8; 9; 10; 11] /\
    map MetaFts.rowid (meta_fts d) = [3; 4; 5; 6; 7; 8; 9; 10; 11] /\
    node_index_seq d = 15.
Proof.
  eexists. split; [exact run_on_used_file|]. split.
  - apply (create_capsule_adds_the_fresh_rows Datetime.t Datetime.isoformat
             Datetime.timestamp example_clock used_file (Random.State [] 0)).
    + exact used_file_is_kept.
    + exact run_on_used_file.
  - split; [vm_compute; reflexivity|]. split; [vm_compute; reflexivity|].
    split; vm_compute; reflexivity.
Defined.

(** The run beside another document's rows: none of the keys clash. *)
Lemma run_on_other_file_commits :
  create_capsule Datetime.t Datetime.isoformat Datetime.timestamp example_clock
    other_file (Random.State [] 0)
  = inr (with_rows other_file
           (committed Datetime.t Datetime.isoformat Datetime.timestamp example_clock)).
Proof.
  apply create_capsule_commits_unless_obstructed.
  - unfold kept_file. split; [reflexivity|]. split; [reflexivity|].
    vm_compute. discriminate.
  - vm_compute. reflexivity.
Defined.

(** * Edges name pages, nodes are numbered by the table *)

(** The node row a fresh run stores for page [p]: its node_id is [p]. *)
Lemma node_of_page p :
  In p (map Page.page_no PAGES) ->
  In (NodeIndex.Row p (gid_of p) DOC_ID p) node_rows.
Proof.
  intros Hin. apply in_map_iff in Hin as (page & Hp & Hin).
  destruct (enumerate_covers PAGES page Hin) as [k Hk].
  pose proof (pages_in_order k page Hk) as Hno.
  unfold node_rows. apply in_map_iff. exists (k, page). split; [|exact Hk].
  rewrite <- Hno, Hp. reflexivity.
Qed.

(** Every item of EDGES joins two pages of PAGES. *)
Lemma edges_join_pages :
  Forall (fun '(from_page, to_page, _, _) =>
            In from_page (map Page.page_no PAGES)
            /\ In to_page (map Page.page_no PAGES)) EDGES.
Proof.
  rewrite page_numbers. unfold EDGES.
  repeat (constructor; [cbn [In]; lia|]). constructor.
Qed.

Section EdgesOnAnyFile.

Variable datetime : Type.
Variable isoformat : datetime -> string.
Variable timestamp : datetime -> PyFloat.float.
Variable now : nat -> datetime.

(** On a file that was kept, the run stores page numbers in
    edges.fromNode and edges.toNode, one row per item of EDGES, while
    AUTOINCREMENT numbers the pages' nodes on from the larger of the
    largest node_id in the file and the seq sqlite_sequence holds for
    node_index: the node of page [p] gets that number plus [p].  So an
    edge's endpoints are the node ids of its pages only when node_index
    never held a node. *)
Theorem edges_hold_page_numbers file rng0 d :
  kept_file file ->
  create_capsule datetime isoformat timestamp now file rng0 = inr d ->
  exists added,
    edges d = (edges file ++ added)%list /\
    List.length added = List.length EDGES /\
    forall e, In e added ->
      exists source target,
        In source (node_index d) /\ In target (node_index d) /\
        NodeIndex.gid source = gid_of (Edges.fromNode e) /\
        NodeIndex.gid target = gid_of (Edges.toNode e) /\
        NodeIndex.node_id source = node_base file + Edges.fromNode e /\
        NodeIndex.node_id target = node_base file + Edges.toNode e.
Proof.
  intros Hkept H.
  destruct (create_capsule_tracks datetime isoformat timestamp now file Hkept rng0)
    as [Hd | (e & He & _)]; [|congruence].
  rewrite Hd in H. injection H as <-. clear Hd.
  exists (edge_rows datetime isoformat now 14).
  split; [reflexivity|]. split.
  - unfold edge_rows, enumerate.
    rewrite length_map, length_combine, length_seq. apply Nat.min_id.
  - intros e Hin. unfold edge_rows in Hin.
    apply in_map_iff in Hin as ([k [[[from_page to_page] pred] weight]] & <- & Hin).
    apply in_enumerate in Hin.
    pose proof (proj1 (Forall_forall _ _) edges_join_pages _ Hin) as [Hfrom Hto].
    cbn [Edges.fromNode Edges.toNode].
    set (base := node_base file).
    exists (renumber base (NodeIndex.Row from_page (gid_of from_page) DOC_ID from_page)),
           (renumber base (NodeIndex.Row to_page (gid_of to_page) DOC_ID to_page)).
    unfold with_rows, committed. cbn [node_index].
    repeat split.
    + apply in_or_app. right. apply in_map. apply node_of_page. exact Hfrom.
    + apply in_or_app. right. apply in_map. apply node_of_page. exact Hto.
Qed.

End EdgesOnAnyFile.

(** On the used file, where node_index is empty and sqlite_sequence says
    7, the pages' nodes are 8 to 15 and the edges still name 1 to 8. *)
Lemma edges_on_the_used_file :
  exists added,
    edges (with_rows used_file
             (committed Datetime.t Datetime.isoformat Datetime.timestamp example_clock))
    = (edges used_file ++ added)%list /\
    List.length added = List.length EDGES /\
    forall e, In e added ->
      exists source target,
        In source (node_index
                     (with_rows used_file
                        (committed Datetime.t Datetime.isoformat Datetime.timestamp
                                   example_clock))) /\
        In target (node_index
                     (with_rows used_file
                        (committed Datetime.t Datetime.isoformat Datetime.timestamp
                                   example_clock))) /\
        NodeIndex.gid source = gid_of (Edges.fromNode e) /\
        NodeIndex.gid target = gid_of (Edges.toNode e) /\
        NodeIndex.node_id source = 7 + Edges.fromNode e /\
        NodeIndex.node_id target = 7 + Edges.toNode e.
Proof.
  apply (edges_hold_page_numbers Datetime.t Datetime.isoformat Datetime.timestamp
           example_clock used_file (Random.State [] 0)).
  - unfold kept_file. split; [reflexivity|]. split; [reflexivity|].
    vm_compute. discriminate.
  - exact run_on_used_file.
Defined.

(** * The closing summary *)

Lemma length_flat_map_sum {A B} (f : A -> list B) (l : list A) :
  len (flat_map f l) = fold_left Z.add (map (fun x => len (f x)) l) 0.
Proof.
  assert (H : forall a, fold_left Z.add (map (fun x => len (f x)) l) a
                        = a + len (flat_map f l)).
  { induction l as [|x l IH]; intros a; cbn [map fold_left flat_map].
    - unfold len. cbn [List.length]. lia.
    - rewrite IH, len_app. lia. }
  rewrite H. lia.
Qed.

Lemma len_enumerated {A B} (f : nat * A -> B) (l : list A) :
  len (map f (enumerate l)) = len l.
Proof.
  unfold len, enumerate.
  rewrite length_map, length_combine, length_seq, Nat.min_id. reflexivity.
Qed.

Section Summary.

Variable datetime : Type.
Variable isoformat : datetime -> string.
Variable timestamp : datetime -> PyFloat.float.
Variable now : nat -> datetime.

(** On a file that was kept, the numbers the script prints when it is
    done, Pages, Entities and Edges, count the rows this run added to
    node_index, meta_index, leann_meta, leann_vec and glyph_receipts, to
    entities, and to edges: not the rows these tables hold, when the file
    held some. *)
Theorem summary_counts_the_added_rows file rng0 d :
  kept_file file ->
  create_capsule datetime isoformat timestamp now file rng0 = inr d ->
  let '(pages, entities_found, edges_made) := summary in
  len (node_index d) = len (node_index file) + pages /\
  len (meta_index d) = len (meta_index file) + pages /\
  len (leann_meta d) = len (leann_meta file) + pages /\
  len (leann_vec d) = len (leann_vec file) + pages /\
  len (glyph_receipts d) = len (glyph_receipts file) + pages /\
  len (entities d) = len (entities file) + entities_found /\
  len (edges d) = len (edges file) + edges_made.
Proof.
  intros Hkept H.
  destruct (create_capsule_tracks datetime isoformat timestamp now file Hkept rng0)
    as [Hd | (e & He & _)]; [|congruence].
  rewrite Hd in H. injection H as <-. clear Hd.
  unfold summary, with_rows, committed.
  cbn [node_index meta_index leann_meta leann_vec glyph_receipts entities edges].
  rewrite !len_app.
  unfold node_rows, meta_rows, leann_meta_rows, leann_vec_rows, receipt_rows,
    edge_rows, entity_rows.
  rewrite length_flat_map_sum.
  unfold len at 2. rewrite length_map. fold (len (map
    (fun '(k, page) =>
       NodeIndex.Row (1 + Z.of_nat k) (gid_of (Page.page_no page)) DOC_ID
                     (Page.page_no page)) (enumerate PAGES))).
  rewrite !len_enumerated.
  assert (Hentities :
            map (fun x => len (map (fun '(entity_type, entity_text, normalized_value) =>
                                      Entities.Row (gid_of (Page.page_no x)) entity_type
                                        entity_text normalized_value 0.95%pyfloat
                                        None None)
                                   (Page.entities x))) PAGES
            = map (fun p => len (Page.entities p)) PAGES).
  { apply map_ext. intros page. unfold len. rewrite length_map. reflexivity. }
  rewrite Hentities.
  split; [reflexivity|]. split; [reflexivity|]. split; [reflexivity|].
  split; [reflexivity|]. split; [reflexivity|]. split; reflexivity.
Qed.

End Summary.

(** Beside the other file's node, the summary still says 8 pages. *)
Lemma summary_beside_another_node :
  let '(pages, entities_found, edges_made) := summary in
  let d := with_rows other_file
             (committed Datetime.t Datetime.isoformat Datetime.timestamp
                        example_clock) in
  len (node_index d) = len (node_index other_file) + pages /\
  len (meta_index d) = len (meta_index other_file) + pages /\
  len (leann_meta d) = len (leann_meta other_file) + pages /\
  len (leann_vec d) = len (leann_vec other_file) + pages /\
  len (glyph_receipts d) = len (glyph_receipts other_file) + pages /\
  len (entities d) = len (entities other_file) + entities_found /\
  len (edges d) = len (edges other_file) + edges_made.
Proof.
  apply (summary_counts_the_added_rows Datetime.t Datetime.isoformat
           Datetime.timestamp example_clock other_file (Random.State [] 0)).
  - unfold kept_file. split; [reflexivity|]. split; [reflexivity|].
    vm_compute. discriminate.
  - exact run_on_other_file.
Defined.

(** * mock_vector_384d reads 32 bits of the digest *)

(** The vector depends on the text through the first eight hex digits of
    its SHA-256 digest only: texts that share them get the same vector,
    and leave the generator in the same state. *)
Theorem mock_vector_384d_reads_eight_hex_digits (t1 t2 : string)
  (s1 s2 : Random.state) :
  substring 0 8 (Sha256.hexdigest (encode t1))
  = substring 0 8 (Sha256.hexdigest (encode t2)) ->
  mock_vector_384d t1 s1 = mock_vector_384d t2 s2.
Proof.
  intros H. unfold mock_vector_384d. rewrite H.
  destruct (MockVectorFacts.seed_parses (encode t2)) as [seed ->].
  reflexivity.
Qed.

(** Two texts that share them. *)
Lemma two_texts_one_vector :
  "page 54236" <> "page 95868" /\
  mock_vector_384d "page 54236" (Random.State [] 0)
  = mock_vector_384d "page 95868" (Random.State [] 0).
Proof.
  split; [discriminate|].
  apply mock_vector_384d_reads_eight_hex_digits.
  vm_compute. reflexivity.
Defined.

(** * The checkpoint and the hints beside other rows *)

(** C2, as the script has it. On a fresh output file the checkpoint row's
    merkle_root is the SHA-256 hex digest of the fixed bytes
    checkpoint_demo, whatever the items' content hashes are, and its
    pages_count is len(PAGES), the number of current items, nodes and
    receipts alike.  On a file that holds items it is not their number:
    beside another document's node the run commits the same merkle_root
    and pages_count 8 with 9 rows in node_index. *)
Theorem checkpoint_row_is_fixed_and_counts_PAGES :
  (forall (datetime : Type) (isoformat : datetime -> string)
          (timestamp : datetime -> PyFloat.float) (now : nat -> datetime)
          (rng0 : Random.state),
     exists d,
       create_capsule datetime isoformat timestamp now empty_database rng0 = inr d /\
       exists c, checkpoints d = [c] /\
         Checkpoints.merkle_root c
         = sha256_hexdigest (bytes_literal "checkpoint_demo") /\
         Checkpoints.pages_count c = len PAGES /\
         Checkpoints.pages_count c = len (node_index d) /\
         Checkpoints.pages_count c = len (glyph_receipts d)) /\
  (exists d,
     create_capsule Datetime.t Datetime.isoformat Datetime.timestamp example_clock
       other_file (Random.State [] 0) = inr d /\
     exists c, checkpoints d = [c] /\
       Checkpoints.merkle_root c
       = sha256_hexdigest (bytes_literal "checkpoint_demo") /\
       Checkpoints.pages_count c = 8 /\
       len (node_index d) = 9).
Proof.
  split.
  - intros datetime isoformat timestamp now rng0.
    committed_rows (create_capsule_commits datetime isoformat timestamp now)
                   (committed datetime isoformat timestamp now).
    eexists. split; [reflexivity|]. repeat split.
  - eexists. split; [exact run_on_other_file|].
    unfold with_rows, committed, other_file. cbn [checkpoints node_index app].
    eexists. split; [reflexivity|]. split; [reflexivity|].
    split; vm_compute; reflexivity.
Qed.

(** What a hint that restates an edge must show, in a form that
    computes. *)
Lemma hint_of_edge_shows nodes e h :
  hint_of_edge nodes e h ->
  existsb (fun n => (NodeIndex.page_no n =? Edges.fromNode e)
                    && String.eqb (NodeIndex.gid n) (LeannNeighbors.gid h)) nodes
  && existsb (fun n => (NodeIndex.page_no n =? Edges.toNode e)
                       && String.eqb (NodeIndex.gid n) (LeannNeighbors.neighbor h)) nodes
  && String.eqb ("graph-" ++ Edges.pred e) (LeannNeighbors.reason h) = true.
Proof.
  intros ((n & Hn & Hp & Hg) & (n' & Hn' & Hp' & Hg') & _ & Hr).
  rewrite !andb_true_iff. split; [split|].
  - apply existsb_exists. exists n. split; [exact Hn|].
    apply andb_true_iff. split; [apply Z.eqb_eq; exact Hp | apply String.eqb_eq; exact Hg].
  - apply existsb_exists. exists n'. split; [exact Hn'|].
    apply andb_true_iff. split; [apply Z.eqb_eq; exact Hp' | apply String.eqb_eq; exact Hg'].
  - apply String.eqb_eq. exact Hr.
Qed.

(** C8 fails on a file that holds a hint under a key of the script's.  The
    other file has the hint from page 1 to page 2 with score 0.5 and
    reason manual; INSERT OR IGNORE keeps it and skips the script's.  The
    run commits, and then the kept hint restates no edge, and the edge
    from page 1 to page 2, cites with weight 0.9, is restated by no
    hint. *)
Lemma kept_hint_restates_no_edge :
  exists d,
    create_capsule Datetime.t Datetime.isoformat Datetime.timestamp example_clock
      other_file (Random.State [] 0) = inr d /\
    (exists h, In h (leann_neighbors d) /\
       LeannNeighbors.score h = 0.5%pyfloat /\ LeannNeighbors.reason h = "manual" /\
       forall e, In e (edges d) -> ~ hint_of_edge (node_index d) e h) /\
    (exists e, In e (edges d) /\
       Edges.fromNode e = 1 /\ Edges.toNode e = 2 /\ Edges.pred e = "cites" /\
       Edges.weight e = 0.9%pyfloat /\
       forall h, In h (leann_neighbors d) -> ~ hint_of_edge (node_index d) e h).
Proof.
  eexists. split; [exact run_on_other_file|]. split.
  - exists (LeannNeighbors.Row (DOC_ID ++ "#p1") (DOC_ID ++ "#p2") 0.5%pyfloat "manual").
    split; [left; reflexivity|]. split; [reflexivity|]. split; [reflexivity|].
    intros e _ (_ & _ & _ & Hr). cbn [LeannNeighbors.reason] in Hr.
    discriminate Hr.
  - exists (Edges.Row 1 2 "cites" 0.9%pyfloat
              (Datetime.isoformat (example_clock 14)) None).
    split; [left; reflexivity|].
    split; [reflexivity|]. split; [reflexivity|]. split; [reflexivity|].
    split; [reflexivity|].
    intros h Hin Hrel. apply hint_of_edge_shows in Hrel.
    cbn [Edges.fromNode Edges.toNode Edges.pred] in Hrel.
    assert (Hnone :
              forallb
                (fun h =>
                   negb (existsb (fun n => (NodeIndex.page_no n =? 1)
                                           && String.eqb (NodeIndex.gid n)
                                                         (LeannNeighbors.gid h))
                                 (node_index
                                    (with_rows other_file
                                       (committed Datetime.t Datetime.isoformat
                                          Datetime.timestamp example_clock)))
                         && existsb (fun n => (NodeIndex.page_no n =? 2)
                                              && String.eqb (NodeIndex.gid n)
                                                            (LeannNeighbors.neighbor h))
                                    (node_index
                                       (with_rows other_file
                                          (committed Datetime.t Datetime.isoformat
                                             Datetime.timestamp example_clock)))
                         && String.eqb ("graph-" ++ "cites") (LeannNeighbors.reason h)))
                (leann_neighbors
                   (with_rows other_file
                      (committed Datetime.t Datetime.isoformat Datetime.timestamp
                                 example_clock)))
              = true)
      by (vm_compute; reflexivity).
    pose proof (proj1 (forallb_forall _ _) Hnone h Hin) as Hh.
    cbv beta in Hh. rewrite Hrel in Hh. discriminate Hh.
Qed.

(** * The mock vectors lie in [-1, 1] *)

Module UnitRange.

Import PyFloat PyFloatFacts MockVectorFacts.

(** A significand of at most 53 bits is not rounded. *)
Lemma round53_exact m e : Z.abs m < 2 ^ 53 -> round53 (Float m e) = Float m e.
Proof.
  intros Hm. unfold round53, round_to. cbn [mant expo].
  assert (bitlen (Z.abs m) <= 53)
    by (apply bitlen_bound; [apply Z.abs_nonneg | lia | exact Hm]).
  destruct (Z.leb_spec (bitlen (Z.abs m) - 53) 0); [reflexivity | lia].
Qed.

Lemma of_int_exact n : Z.abs n < 2 ^ 53 -> of_int n = Float n 0.
Proof. apply round53_exact. Qed.

(** A 54-bit even significand loses its last bit. *)
Lemma round53_even k :
  2 ^ 52 <= k < 2 ^ 53 -> round53 (Float (2 * k) (-53)) = Float k (-52).
Proof.
  intros Hk. unfold round53, round_to. cbn [mant expo].
  assert (Hlog : Z.log2 (2 * k) = 53) by (apply Z.log2_unique; lia).
  assert (Hbit : bitlen (Z.abs (2 * k)) = 54).
  { rewrite Z.abs_eq by lia. unfold bitlen.
    destruct (Z.eqb_spec (2 * k) 0); lia. }
  rewrite Hbit. change (54 - 53) with 1. change (1 <=? 0) with false. cbn iota.
  change (-53 + 1) with (-52).
  rewrite Z.abs_eq by lia. unfold rne.
  rewrite Z.shiftr_div_pow2 by lia. rewrite Z.land_ones by lia.
  change (2 ^ 1) with 2. change (Z.shiftl 1 (1 - 1)) with 1.
  replace (2 * k / 2) with k by (rewrite Z.mul_comm, Z.div_mul; lia).
  replace ((2 * k) mod 2) with 0 by (rewrite Z.mul_comm, Z.mod_mul; lia).
  change (0 <? 1) with true. cbn iota.
  rewrite Z.sgn_pos by lia. f_equal. lia.
Qed.

(** random.random() is [k / 2^53] for a [k] below [2^53]. *)
Lemma random_exact s :
  exists k, 0 <= k < 2 ^ 53 /\ fst (Random.random s) = Float k (-53).
Proof.
  unfold Random.random.
  pose proof (genrand_uint32_range s) as H1.
  destruct (Random.genrand_uint32 s) as [y1 s1]. cbn [fst] in H1.
  pose proof (genrand_uint32_range s1) as H2.
  destruct (Random.genrand_uint32 s1) as [y2 s2]. cbn [fst] in *.
  assert (Ha : 0 <= Z.shiftr y1 5 < 2 ^ 27).
  { rewrite Z.shiftr_div_pow2 by lia. split; [apply Z.div_pos; lia|].
    apply Z.div_lt_upper_bound; lia. }
  assert (Hb : 0 <= Z.shiftr y2 6 < 2 ^ 26).
  { rewrite Z.shiftr_div_pow2 by lia. split; [apply Z.div_pos; lia|].
    apply Z.div_lt_upper_bound; lia. }
  set (a := Z.shiftr y1 5) in *. set (b := Z.shiftr y2 6) in *.
  exists (a * 67108864 + b). split; [lia|].
  rewrite (of_int_exact a) by lia.
  rewrite (of_int_exact 67108864) by reflexivity.
  rewrite (of_int_exact b) by lia.
  unfold mul at 2. cbn [mant expo]. change (0 + 0) with 0.
  rewrite round53_exact by lia.
  unfold add. cbn [mant expo]. change (Z.min 0 0) with 0. change (0 - 0) with 0.
  change (2 ^ 0) with 1. rewrite !Z.mul_1_r.
  rewrite round53_exact by lia.
  unfold mul. cbn [mant expo]. rewrite Z.mul_1_r. change (0 + -53) with (-53).
  apply round53_exact. lia.
Qed.

(** random.uniform(-1, 1) is exact: [-1 + 2 * random()] without a
    rounding error, in [-1, 1). *)
Lemma uniform_unit s : unit_form (fst (Random.uniform (-1) 1 s)).
Proof.
  unfold Random.uniform.
  destruct (random_exact s) as (k & Hk & Hr).
  destruct (Random.random s) as [r s']. cbn [fst] in *. subst r.
  change (of_int (-1)) with (Float (-1) 0).
  change (of_int (1 - -1)) with (Float 2 0).
  unfold mul. cbn [mant expo]. change (0 + -53) with (-53).
  destruct (Z.lt_ge_cases k (2 ^ 52)) as [Hlo|Hhi].
  - rewrite round53_exact by lia.
    unfold add. cbn [mant expo]. change (Z.min 0 (-53)) with (-53).
    change (0 - -53) with 53. change (-53 - -53) with 0.
    change (2 ^ 0) with 1. rewrite Z.mul_1_r.
    destruct (Z.eq_dec k 0) as [->|Hk0].
    + vm_compute. split; [right; reflexivity | discriminate].
    + rewrite round53_exact by lia.
      split; cbn [mant expo]; [left; reflexivity|].
      change (- -53) with 53. lia.
  - rewrite round53_even by lia.
    unfold add. cbn [mant expo]. change (Z.min 0 (-52)) with (-52).
    change (0 - -52) with 52. change (-52 - -52) with 0.
    change (2 ^ 0) with 1. rewrite Z.mul_1_r.
    rewrite round53_exact by lia.
    split; cbn [mant expo]; [right; reflexivity|].
    change (- -52) with 52. lia.
Qed.

Lemma uniform_list_unit n s : Forall unit_form (fst (uniform_list n (-1) 1 s)).
Proof.
  revert s. induction n as [|n IH]; intros s; cbn [uniform_list].
  - constructor.
  - pose proof (uniform_unit s) as Hx.
    destruct (Random.uniform (-1) 1 s) as [x s1]. cbn [fst] in Hx.
    specialize (IH s1). destruct (uniform_list n (-1) 1 s1) as [xs s2].
    cbn [fst] in *. constructor; assumption.
Qed.

(** The number at the top of the range, 1.0 or -1.0 as a double. *)
Lemma to_binary32_top m e :
  (e = -53 \/ e = -52) -> Z.abs m = 2 ^ (- e) ->
  exists bits, to_binary32 (Float m e) = Some bits /\ at_most_one bits.
Proof.
  intros He Hm.
  assert (Hcases : m = 2 ^ (- e) \/ m = - 2 ^ (- e)) by lia.
  destruct He as [-> | ->], Hcases as [-> | ->];
    (eexists; split; [vm_compute; reflexivity|]);
    (split; [lia | vm_compute; discriminate]).
Qed.

(** struct.pack('f', x) of a number in [-1, 1]: a binary32 pattern of
    magnitude at most 1.0. *)
Lemma to_binary32_unit x :
  unit_form x -> exists bits, to_binary32 x = Some bits /\ at_most_one bits.
Proof.
  intros [He Hm]. destruct x as [m e]. cbn [mant expo] in *.
  destruct (Z.eq_dec (Z.abs m) (2 ^ (- e))) as [Htop|Hnot];
    [apply to_binary32_top; assumption|].
  assert (Hlt : Z.abs m < 2 ^ (- e)) by lia. clear Hm Hnot.
  unfold to_binary32. cbn [mant expo].
  set (a := Z.abs m) in *.
  destruct (Z.eqb_spec a 0) as [_|Hne].
  { eexists. split; [reflexivity|]. split; [lia | vm_compute; discriminate]. }
  assert (Ha : 0 < a) by (pose proof (Z.abs_nonneg m); lia).
  assert (Hb : bitlen a <= - e) by (apply bitlen_bound; lia).
  assert (Hb1 : 1 <= bitlen a).
  { unfold bitlen. destruct (Z.eqb_spec a 0); [lia|].
    pose proof (Z.log2_nonneg a). lia. }
  pose proof (bitlen_spec a ltac:(lia)) as Hspec.
  replace (Z.max (bitlen a + e - 24) (-149)) with (bitlen a + e - 24) by lia.
  set (E := bitlen a + e - 24).
  set (s := E - e).
  set (M := if s <=? 0 then a * 2 ^ (- s) else rne a s).
  assert (HM : 0 <= M <= 2 ^ 24).
  { subst M. destruct (Z.leb_spec s 0) as [Hs|Hs].
    - assert (a * 2 ^ (- s) < 2 ^ (bitlen a) * 2 ^ (- s)).
      { apply Z.mul_lt_mono_pos_r; [apply Z.pow_pos_nonneg; lia | exact Hspec]. }
      rewrite <- Z.pow_add_r in H by lia.
      replace (bitlen a + - s) with 24 in H by lia.
      assert (0 < 2 ^ (- s)) by (apply Z.pow_pos_nonneg; lia).
      nia.
    - pose proof (rne_bounds a s ltac:(lia) Hs) as [Hlo Hhi].
      assert (0 <= a / 2 ^ s) by (apply Z.div_pos; [lia | apply Z.pow_pos_nonneg; lia]).
      assert (a / 2 ^ s < 2 ^ (bitlen a - s)) by (apply div_pow2_lt; lia).
      replace (bitlen a - s) with 24 in * by lia.
      lia. }
  assert (HE : -149 < E <= -24) by lia.
  set (bits := (E + 149) * 2 ^ 23 + M) in *.
  assert (Hbits : 0 <= bits <= 0x3f800000).
  { subst bits. change (2 ^ 24) with 16777216 in HM. change (2 ^ 23) with 8388608.
    lia. }
  destruct (Z.leb_spec 0x7f800000 bits) as [Hov|_]; [lia|].
  eexists. split; [reflexivity|].
  unfold at_most_one. change 0x7fffffff with (Z.ones 31).
  destruct (m <? 0); (split; [lia|]); rewrite Z.land_ones by lia.
  - replace (0x80000000 + bits) with (bits + 1 * 2 ^ 31) by lia.
    rewrite Z.mod_add by lia. rewrite Z.mod_small; lia.
  - rewrite Z.mod_small; lia.
Qed.

(** ** The bytes of a word *)

Lemma byte_round_trip z : Z_of_byte (byte_of_Z z) = z mod 256.
Proof.
  assert (H : forall n, (n < 256)%nat ->
                        Z_of_byte (byte_of_Z (Z.of_nat n)) = Z.of_nat n).
  { assert (Hall : forallb (fun n => Z_of_byte (byte_of_Z (Z.of_nat n)) =? Z.of_nat n)
                           (seq 0 256) = true) by (vm_compute; reflexivity).
    intros n Hn. rewrite forallb_forall in Hall.
    apply Z.eqb_eq. apply Hall. apply in_seq. lia. }
  unfold byte_of_Z.
  pose proof (Z.mod_pos_bound z 256 ltac:(lia)) as Hz.
  specialize (H (Z.to_nat (z mod 256)) ltac:(lia)).
  rewrite Z2Nat.id in H by lia. unfold byte_of_Z in H.
  rewrite Z.mod_mod in H by lia. exact H.
Qed.

(** Unpacking what pack_f packed gives the word back. *)
Lemma float32_words_le_bytes bits rest :
  0 <= bits < 2 ^ 32 ->
  float32_words (le_bytes 4 bits ++ rest)%list = bits :: float32_words rest.
Proof.
  intros Hb. cbn [le_bytes app float32_words].
  rewrite !byte_round_trip, !Z.shiftr_div_pow2 by lia.
  f_equal. change (2 ^ 8) with 256. change (2 ^ 32) with 4294967296 in Hb.
  Z.to_euclidean_division_equations. lia.
Qed.

Lemma struct_pack_f_unit xs :
  Forall unit_form xs ->
  exists v, struct_pack_f xs = inr v
            /\ List.length (float32_words v) = List.length xs
            /\ Forall at_most_one (float32_words v).
Proof.
  induction 1 as [|x xs Hx _ IH]; cbn [struct_pack_f].
  - exists []. repeat split. constructor.
  - destruct (to_binary32_unit x Hx) as (bits & Hbits & Hone).
    destruct IH as (v & -> & Hlen & Hall).
    unfold pack_f. rewrite Hbits.
    eexists. split; [reflexivity|].
    rewrite float32_words_le_bytes by apply Hone.
    split; [cbn [List.length]; congruence | constructor; assumption].
Qed.

(** A pattern of magnitude at most 1.0 stands for a number in [-1, 1]. *)
Lemma at_most_one_value bits : at_most_one bits -> within_unit (binary32_value bits).
Proof.
  intros [Hrange Hmag]. unfold binary32_value.
  change 0x7fffffff with (Z.ones 31) in Hmag. rewrite Z.land_ones in Hmag by lia.
  change 255 with (Z.ones 8). change 0x7fffff with (Z.ones 23).
  rewrite !Z.land_ones, Z.shiftr_div_pow2 by lia.
  set (exponent := (bits / 2 ^ 23) mod 2 ^ 8).
  set (fraction := bits mod 2 ^ 23).
  assert (Hbody : bits mod 2 ^ 31 = exponent * 2 ^ 23 + fraction).
  { subst exponent fraction. change (2 ^ 31) with 2147483648.
    change (2 ^ 23) with 8388608. change (2 ^ 8) with 256.
    Z.to_euclidean_division_equations. lia. }
  assert (Hf : 0 <= fraction < 2 ^ 23) by (apply Z.mod_pos_bound; lia).
  assert (He : 0 <= exponent < 2 ^ 8) by (apply Z.mod_pos_bound; lia).
  assert (Hsmall : exponent <= 126 \/ (exponent = 127 /\ fraction = 0)).
  { change (2 ^ 23) with 8388608 in *. lia. }
  set (sign := if Z.testbit bits 31 then -1 else 1).
  assert (Hsign : sign = 1 \/ sign = -1) by (subst sign; destruct (Z.testbit bits 31); lia).
  unfold within_unit.
  change (of_int (-1)) with (Float (-1) 0). change (of_int 1) with (Float 1 0).
  unfold leb, cmp.
  destruct (Z.eqb_spec exponent 0) as [Hz|Hnz]; cbn [mant expo].
  - change (Z.min 0 (-149)) with (-149). change (Z.min (-149) 0) with (-149).
    change (-149 - -149) with 0. change (0 - -149) with 149.
    change (2 ^ 0) with 1. rewrite !Z.mul_1_r.
    assert (2 ^ 23 < 2 ^ 149) by (apply Z.pow_lt_mono_r; lia).
    split.
    + destruct (Z.compare_spec (-1 * 2 ^ 149) (sign * fraction)); [reflexivity..|nia].
    + destruct (Z.compare_spec (sign * fraction) (1 * 2 ^ 149)); [reflexivity..|nia].
  - assert (Hexp : exponent - 150 < 0) by lia.
    rewrite !Z.min_r, !Z.min_l by lia.
    replace (exponent - 150 - (exponent - 150)) with 0 by lia.
    change (2 ^ 0) with 1. rewrite !Z.mul_1_r.
    replace (0 - (exponent - 150)) with (150 - exponent) by lia.
    assert (Hpow : 0x800000 + fraction <= 2 ^ (150 - exponent)).
    { destruct Hsmall as [Hle|[-> ->]]; [|vm_compute; discriminate].
      assert (2 ^ 24 <= 2 ^ (150 - exponent)) by (apply Z.pow_le_mono_r; lia).
      change (2 ^ 23) with 8388608 in Hf. change (2 ^ 24) with 16777216 in *. lia. }
    assert (0 < 0x800000 + fraction) by lia.
    split.
    + destruct (Z.compare_spec (-1 * 2 ^ (150 - exponent))
                               (sign * (0x800000 + fraction)));
        [reflexivity..|nia].
    + destruct (Z.compare_spec (sign * (0x800000 + fraction))
                               (1 * 2 ^ (150 - exponent)));
        [reflexivity..|nia].
Qed.

End UnitRange.

(** The source says of mock_vector_384d's list: 384 floats in range
    [-1, 1].  So they are, and so are the 384 float32 values packed into
    the result: for every text and generator state the function returns
    bytes that unpack to 384 numbers, each in [-1, 1].  struct.pack never
    overflows. *)
Theorem mock_vector_384d_in_unit_range (text : string) (s : Random.state) :
  exists v, fst (mock_vector_384d text s) = inr v
            /\ List.length (float32_words v) = 384%nat
            /\ Forall (fun bits => within_unit (binary32_value bits))
                      (float32_words v).
Proof.
  unfold mock_vector_384d.
  destruct (MockVectorFacts.seed_parses (encode text)) as [seed ->].
  unfold Random.seed at 1.
  set (s0 := Random.init_by_array _).
  pose proof (UnitRange.uniform_list_unit 384 s0) as Hunit.
  destruct (MockVectorFacts.uniform_list_below 384 s0) as [_ Hlen].
  destruct (uniform_list 384 (-1) 1 s0) as [vector s']. cbn [fst] in *.
  destruct (UnitRange.struct_pack_f_unit vector Hunit) as (v & Hv & Hn & Hall).
  exists v. split; [exact Hv|]. split; [congruence|].
  eapply Forall_impl; [|exact Hall].
  intros bits. apply UnitRange.at_most_one_value.
Qed.
